(** * note-sx/server: the file store (File.ts, Mapper.ts, helpers.ts, Cron.ts)

    A shallow embedding of the storage engine of the share-note server:
    the path resolver [Paths], the single-row persistence primitive
    [Mapper], the request controller [File] and the expiry sweeper [Cron],
    followed by the properties the design document states about them.

    Conventions.
    - JavaScript strings are [string]; the identifiers the engine handles
      are ASCII, so a code unit is an [ascii].
    - A database cell, and a JSON value posted by the client, is a [value]:
      null, an integer or a string.
    - A row (the [row] object of Mapper.ts, a plain JS object keyed by
      column name) is a [gmap string value]; the table is the list of its
      rows in scan order.
    - Stateful code runs in a state-and-exception monad [M S A]: a thrown
      exception rolls nothing back, the state reached when it is thrown is
      the state the caller sees. *)

From Stdlib Require Import ZArith NArith String Ascii List Lia DecimalString DecimalZ DecimalPos.
From Stdlib.Strings Require Byte.
From stdpp Require Import base option list gmap strings sorting.

Local Open Scope string_scope.
Local Open Scope Z_scope.

(** ** JavaScript string primitives used by the sources *)

Module JS.

(** [s.substring(0, n)]: the end index is clamped to [0, s.length]. *)
Definition substring0 (n : Z) (s : string) : string :=
  String.substring 0 (Z.to_nat n) s.

(** [s.slice(0, n)] for the non-negative [n] the sources use. *)
Definition slice0 (n : nat) (s : string) : string := String.substring 0 n s.

Fixpoint existsb_string (p : ascii -> bool) (s : string) : bool :=
  match s with
  | EmptyString => false
  | String c s' => p c || existsb_string p s'
  end.

Fixpoint forallb_string (p : ascii -> bool) (s : string) : bool :=
  match s with
  | EmptyString => true
  | String c s' => p c && forallb_string p s'
  end.

Definition between (lo hi : N) (c : ascii) : bool :=
  ((lo <=? N_of_ascii c) && (N_of_ascii c <=? hi))%N.

Definition is_digit : ascii -> bool := between 48 57.
Definition is_lower : ascii -> bool := between 97 122.
Definition is_upper : ascii -> bool := between 65 90.
(** the class [a-z0-9] *)
Definition is_lower_alnum (c : ascii) : bool := is_lower c || is_digit c.
(** the class [a-f0-9] *)
Definition is_lower_hex (c : ascii) : bool := between 97 102 c || is_digit c.
(** the class [a-z_] *)
Definition is_lower_underscore (c : ascii) : bool :=
  is_lower c || (N_of_ascii c =? 95)%N.

(** [s.match(/[^cls]/)] is truthy iff some code unit lies outside [cls]. *)
Definition matches_outside (cls : ascii -> bool) (s : string) : bool :=
  existsb_string (fun c => negb (cls c)) s.

(** [s.replace(/[^cls]/g, '')] *)
Fixpoint strip_outside (cls : ascii -> bool) (s : string) : string :=
  match s with
  | EmptyString => EmptyString
  | String c s' =>
      if cls c then String c (strip_outside cls s') else strip_outside cls s'
  end.

Definition dot : ascii := "."%char.

(** [s.includes('.')] *)
Definition includes_dot (s : string) : bool :=
  existsb_string (fun c => Ascii.eqb c dot) s.

(** [s.split('.')[0]] *)
Fixpoint before_dot (s : string) : string :=
  match s with
  | EmptyString => EmptyString
  | String c s' => if Ascii.eqb c dot then EmptyString else String c (before_dot s')
  end.

(** One digit of [Number.prototype.toString(radix)], radix at most 36. *)
Definition digitChar (d : N) : ascii :=
  if (d <? 10)%N then ascii_of_N (48 + d) else ascii_of_N (87 + d).

Fixpoint toStringRadix_aux (fuel : nat) (radix n : N) (acc : string) : string :=
  match fuel with
  | O => acc
  | S k =>
      let acc' := String (digitChar (n mod radix)) acc in
      if (n / radix =? 0)%N then acc' else toStringRadix_aux k radix (n / radix) acc'
  end.

(** [n.toString(radix)] for a non-negative integer [n]. The fuel is the
    bit size of [n], which bounds its number of digits in any radix. *)
Definition toStringRadix (radix n : N) : string :=
  toStringRadix_aux (S (N.size_nat n)) radix n EmptyString.

Fixpoint repeat_char (c : ascii) (k : nat) : string :=
  match k with O => EmptyString | S k' => String c (repeat_char c k') end.

(** [s.padStart(k, c)] *)
Definition padStart (k : nat) (c : ascii) (s : string) : string :=
  repeat_char c (k - String.length s) +:+ s.

(** [String(z)] for an integer: its decimal digits after the sign. *)
Definition decimal (z : Z) : string := NilZero.string_of_int (Z.to_int z).

(** [prefix.startsWith] on strings, as a boolean. *)
Fixpoint starts_with (p s : string) : bool :=
  match p, s with
  | EmptyString, _ => true
  | String a p', String b s' => Ascii.eqb a b && starts_with p' s'
  | String _ _, EmptyString => false
  end.

(** [s.split('.')] *)
Fixpoint split_dot (s : string) : list string :=
  match s with
  | EmptyString => [EmptyString]
  | String c s' =>
      if Ascii.eqb c dot then EmptyString :: split_dot s'
      else match split_dot s' with
           | part :: parts => String c part :: parts
           | [] => [String c EmptyString]
           end
  end.

(** The code unit of the double quote. *)
Definition doubleQuote : ascii := ascii_of_N 34.

(** [parts.join(sep)] on strings *)
Fixpoint join (sep : string) (parts : list string) : string :=
  match parts with
  | [] => EmptyString
  | [x] => x
  | x :: rest => x +:+ sep +:+ join sep rest
  end.

(** The class [\w] *)
Definition is_word (c : ascii) : bool :=
  is_lower c || is_upper c || is_digit c || (N_of_ascii c =? 95)%N.

(** The class [\s] among the code units below 256: tab, line feed, vertical
    tab, form feed, carriage return, space and no-break space. *)
Definition is_space (c : ascii) : bool :=
  between 9 13 c || (N_of_ascii c =? 32)%N || (N_of_ascii c =? 160)%N.

End JS.

(** ** Values, rows and the world outside the process *)

(** A database cell or a JSON scalar. *)
Inductive value : Type :=
| VNull
| VInt (z : Z)
| VStr (s : string).

#[global] Instance value_eq_dec : EqDecision value.
Proof. solve_decision. Defined.

(** JavaScript truthiness: [null], [0] and [''] are falsy. *)
Definition truthy (v : value) : bool :=
  match v with
  | VNull => false
  | VInt z => negb (z =? 0)
  | VStr s => negb (String.eqb s EmptyString)
  end.

(** JavaScript [a === b]. *)
Definition strict_eq (a b : value) : bool := bool_decide (a = b).

(** SQL [a = b] as a WHERE condition: never satisfied when either side is
    NULL, and an integer never equals a text. *)
Definition sql_eq (a b : value) : bool :=
  match a, b with
  | VInt x, VInt y => x =? y
  | VStr x, VStr y => String.eqb x y
  | _, _ => false
  end.

(** SQL [a < n] for an integer [n] as a WHERE condition: NULL compares to
    nothing, and SQLite orders every text after every integer. *)
Definition sql_lt_int (a : value) (n : Z) : bool :=
  match a with
  | VInt x => x <? n
  | _ => false
  end.

(** String conversion of a scalar in [salt + v]. *)
Definition to_js_string (v : value) : string :=
  match v with
  | VNull => "null"
  | VInt z => JS.decimal z
  | VStr s => s
  end.

(** Reading a property of a row object; a missing property reads as
    [undefined], which every use below treats like [null]. *)
Definition get (k : string) (r : gmap string value) : value := default VNull (r !! k).

(** The symbolic names of types.ts; their numeric HTTP statuses are given by
    [serverError], which is not among the sources. *)
Inductive ServerErrors : Type :=
| FILE_FAILED_TO_INIT
| FILE_FAILED_TO_SAVE
| FILE_FAILED_TO_UPLOAD.

(** What the engine imports from the platform and from modules that are not
    part of the storage core. *)
Record Host : Type := {
  (** [crypto.subtle.digest(algorithm, bytes)] *)
  digest : string -> string -> list Byte.byte;
  (** [serverError(e)] of types.ts *)
  serverError : ServerErrors -> Z;
  (** [now()] of Database.ts, as a function of the clock in milliseconds *)
  now : Z -> value;
  (** [dateToSqlite(new Date(ms))] of Database.ts *)
  dateToSqlite : Z -> value
}.

(** The configuration object [appInstance] of index.ts. *)
Record App : Type := {
  baseFolder : string;
  baseWebUrl : string;
  hashSalt : string;
  folderPrefix : Z
}.

(** Everything a request can observe or change outside its own controller
    object. [purged] is the log of the URL lists handed to the cache-purge
    collaborator, oldest first. *)
Record World : Type := {
  db : list (gmap string value);
  disk : gmap string string;
  folders : gset string;
  unwritable : gset string;
  purged : list (list string);
  clock : Z;
  entropy : nat -> Byte.byte;
  drawn : nat
}.

Definition with_db (t : list (gmap string value)) (w : World) : World :=
  {| db := t; disk := disk w; folders := folders w; unwritable := unwritable w;
     purged := purged w; clock := clock w; entropy := entropy w; drawn := drawn w |}.

Definition with_disk (d : gmap string string) (w : World) : World :=
  {| db := db w; disk := d; folders := folders w; unwritable := unwritable w;
     purged := purged w; clock := clock w; entropy := entropy w; drawn := drawn w |}.

Definition with_folders (f : gset string) (w : World) : World :=
  {| db := db w; disk := disk w; folders := f; unwritable := unwritable w;
     purged := purged w; clock := clock w; entropy := entropy w; drawn := drawn w |}.

Definition with_purged (p : list (list string)) (w : World) : World :=
  {| db := db w; disk := disk w; folders := folders w; unwritable := unwritable w;
     purged := p; clock := clock w; entropy := entropy w; drawn := drawn w |}.

Definition with_drawn (n : nat) (w : World) : World :=
  {| db := db w; disk := disk w; folders := folders w; unwritable := unwritable w;
     purged := purged w; clock := clock w; entropy := entropy w; drawn := n |}.

(** ** The state-and-exception monad *)

Inductive Exn : Type :=
| HTTPException (status : Z)
| TypeError
| SqliteError
| FsError.

Inductive result (A : Type) : Type :=
| Returned (a : A)
| Thrown (e : Exn).
Arguments Returned {A} a.
Arguments Thrown {A} e.

Definition M (S A : Type) : Type := S -> result A * S.

#[global] Instance M_ret {S} : MRet (M S) := fun A a s => (Returned a, s).
#[global] Instance M_bind {S} : MBind (M S) := fun A B f m s =>
  match m s with
  | (Returned a, s') => f a s'
  | (Thrown e, s') => (Thrown e, s')
  end.

Definition throw {S A} (e : Exn) : M S A := fun s => (Thrown e, s).
Definition gets {S A} (f : S -> A) : M S A := fun s => (Returned (f s), s).
Definition modify {S} (f : S -> S) : M S unit := fun s => (Returned tt, f s).

(** [try { m } catch (e) { h e }] *)
Definition try_catch {S A} (m : M S A) (h : Exn -> M S A) : M S A := fun s =>
  match m s with
  | (Returned a, s') => (Returned a, s')
  | (Thrown e, s') => h e s'
  end.

(** ** The filesystem and the cache-purge collaborator *)

Module Fs.

(** [fs.existsSync(folder)] followed by [fs.mkdirSync(folder, {recursive:
    true})] when it does not exist: afterwards the folder exists. *)
Definition ensureDir (folder : string) (w : World) : World :=
  if bool_decide (folder ∈ folders w) then w
  else with_folders ({[folder]} ∪ folders w) w.

(** [writeFile(path, contents)]: replaces the content at [path], or
    rejects and leaves the disk as it was. *)
Definition writeFile (path contents : string) (w : World) : option World :=
  if bool_decide (path ∈ unwritable w) then None
  else Some (with_disk (<[path := contents]> (disk w)) w).

(** [unlink(path)]: rejects when there is no such file. *)
Definition unlink (path : string) (w : World) : option World :=
  match disk w !! path with
  | Some _ => Some (with_disk (delete path (disk w)) w)
  | None => None
  end.

End Fs.

(** Modelled from the spec: the edge-cache collaborator of Cloudflare.ts,
    which is not among the sources. Its contract is
    [purge(urls) -> success/failure] with failures non-fatal: the call
    records the URLs it was given and never throws. *)
Definition purgeCache (urls : list string) (w : World) : World :=
  with_purged (purged w ++ [urls]) w.

(** ** helpers.ts *)

Module helpers.
Section WithHost.
Context (host : Host).

(** [b.toString(16).padStart(2, '0')] *)
Definition hexByte (b : Byte.byte) : string :=
  JS.padStart 2 "0"%char (JS.toStringRadix 16 (Byte.to_N b)).

(** [Array.from(new Uint8Array(hash)).map(b =>
    b.toString(16).padStart(2, '0')).join('')] *)
Definition hexOf (bytes : list Byte.byte) : string :=
  foldr (fun b acc => hexByte b +:+ acc) EmptyString bytes.

(** [sha(algorithm, data)]. The strings hashed here are ASCII, on which
    [TextEncoder.encode] is the identity. *)
Definition sha (algorithm data : string) : string :=
  hexOf (digest host algorithm data).

Definition sha256 (data : string) : string := sha "SHA-256" data.
Definition sha1 (data : string) : string := sha "SHA-1" data.

Definition shortHash (text : string) : string :=
  JS.slice0 32 (sha256 text).
End WithHost.

(** [formatInt(int, precision)]: the loop puts one ['0'] in front of the
    digits for each position missing. The number is an integer that
    [toString] prints in decimal, as the fields of a date are; from [1e21]
    on JavaScript prints an exponent, which is not modelled. *)
Definition formatInt (int : Z) (precision : nat) : string :=
  let tmp := JS.decimal int in
  let len := String.length tmp in
  if (precision <=? len)%nat then tmp
  else Nat.iter (precision - len) (fun t => String "0"%char t) tmp.

(** What the getters [getUTCHours], ... of a [Date] answer. *)
Record UTCDate : Type := {
  utcHours : Z;
  utcMinutes : Z;
  utcSeconds : Z;
  utcDate : Z;
  utcMonth : Z;
  utcFullYear : Z;
  utcDay : Z
}.

Definition days : list string := ["Sun"; "Mon"; "Tue"; "Wed"; "Thu"; "Fri"; "Sat"].
Definition months : list string :=
  ["Jan"; "Feb"; "Mar"; "Apr"; "May"; "Jun"; "Jul"; "Aug"; "Sep"; "Oct"; "Nov"; "Dec"].

(** [array[i]], with [missing] for what an index outside the array reads
    as. *)
Definition at_index (missing : string) (array : list string) (i : Z) : string :=
  if i <? 0 then missing else nth (Z.to_nat i) array missing.

(** [httpHeaderDate(date)]; [today] is what [new Date()] would be. A missing
    array element is ['undefined'] when it is concatenated and [''] when it
    is joined. *)
Definition httpHeaderDate (today : UTCDate) (date : option UTCDate) : string :=
  let date := default today date in
  let timeString :=
    JS.join ":" [formatInt (utcHours date) 2;
                 formatInt (utcMinutes date) 2;
                 formatInt (utcSeconds date) 2] in
  let dateString :=
    JS.join " " [formatInt (utcDate date) 2;
                 at_index EmptyString months (utcMonth date);
                 JS.decimal (utcFullYear date)] in
  JS.join " " [at_index "undefined" days (utcDay date) +:+ ","; dateString; timeString; "GMT"].

Section WithToInt32.
(** [~~s] on a string: [ToInt32(ToNumber(s))], a primitive of the
    language. *)
Context (toInt32 : string -> Z).

(** The loop of [checkVersion] from index [i] on. *)
Fixpoint compareFrom (userVersion : list string) (minimumRequired : list Z) : bool :=
  match userVersion, minimumRequired with
  | u :: us, m :: ms =>
      if toInt32 u >? m then true          (* Version is newer *)
      else if toInt32 u <? m then false    (* Version is older *)
      else compareFrom us ms
  | _, _ => true                           (* Versions are the same *)
  end.

(** [checkVersion(version, minimumRequired)] *)
Definition checkVersion (version : string) (minimumRequired : Z * Z * Z) : bool :=
  let userVersion := JS.split_dot version in
  if (length userVersion =? 3)%nat then
    let '(m0, m1, m2) := minimumRequired in
    compareFrom userVersion [m0; m1; m2]
  else false.
End WithToInt32.
End helpers.

(** ** File.ts: class Paths *)

Module Paths.
Section WithApp.
Context (app : App).

Definition folderPath (filename extension : string) : string :=
  let length := folderPrefix app in
  let subdir :=
    if negb (length =? 0) then "/" +:+ JS.substring0 length filename
    else EmptyString in
  if String.eqb extension "html" then "notes" +:+ subdir
  else if String.eqb extension "css" then "css" +:+ subdir
  else "files" +:+ subdir.

(** The pair [{ folder, filePath }]. *)
Definition fullFilePath (filename extension : string) : string * string :=
  let folder := baseFolder app +:+ "/userfiles/" +:+ folderPath filename extension in
  (folder, folder +:+ "/" +:+ filename +:+ "." +:+ extension).

Definition fileUrl (filename extension : string) : string :=
  baseWebUrl app +:+ "/" +:+ folderPath filename extension
    +:+ "/" +:+ (filename +:+ "." +:+ extension).

Definition displayUrl (filename extension : string) : string :=
  if String.eqb extension "html" then baseWebUrl app +:+ "/" +:+ filename
  else fileUrl filename extension.
End WithApp.
End Paths.

(** ** Mapper.ts *)

(** Modelled from the spec: the columns of table [files], whose schema
    (db/) is not among the sources, under the names File.ts and Cron.ts use
    for them. [PRAGMA table_info(files)] answers with these. *)
Definition files_columns : list string :=
  ["id"; "users_id"; "filename"; "filetype"; "hash"; "bytes"; "encrypted";
   "created"; "updated"; "expires"].

Module Mapper.

(** [queryBuilder(params)]: the entries whose sanitised name is not empty,
    under their sanitised names; [selectQuery] is the conjunction of
    [name = bind] over them and [updateQuery] the assignment of each. The
    code writes one placeholder for each such entry and keeps the binds in
    an object under the sanitised names: each placeholder has its bind, as
    here, when no two names are sanitised to the same, which is so for the
    object literals of File.ts and for the row objects; otherwise the
    statement has more placeholders than binds. *)
Definition queryBuilder (params : list (string * value)) : list (string * value) :=
  omap (fun '(field, v) =>
          let sanitizedField := JS.strip_outside JS.is_lower_underscore field in
          if String.eqb sanitizedField EmptyString then None
          else Some (sanitizedField, v)) params.

(** [get notFound] and [get found] *)
Definition notFound (row : gmap string value) : bool := negb (truthy (get "id" row)).
Definition found (row : gmap string value) : bool := truthy (get "id" row).

(** The row object after [init()]: every declared column, null. *)
Definition init : gmap string value :=
  list_to_map ((fun c => (c, VNull)) <$> files_columns).

(** [emptyRow()]: the keys of the current row, all null. *)
Definition emptyRow (row : gmap string value) : gmap string value :=
  (fun _ => VNull) <$> row.

(** [set(params)] *)
Definition set (params : list (string * value)) (row : gmap string value)
  : gmap string value :=
  foldl (fun r '(k, v) => <[k := v]> r) row params.

(** Does a stored row satisfy [selectQuery] with its binds? *)
Definition selects (q : list (string * value)) (r : gmap string value) : bool :=
  forallb (fun '(k, v) => sql_eq (get k r) v) q.

(** [load(params)]: the first row the SELECT ... LIMIT 1 yields, else the
    empty row, for parameters that make a statement SQLite runs: some name
    is left by the sanitiser, each placeholder has its bind and every name
    is a column, as in every call of File.ts. For other parameters the
    statement throws, which is not modelled. *)
Definition load (params : list (string * value)) (table : list (gmap string value))
    (row : gmap string value) : gmap string value :=
  match List.find (selects (queryBuilder params)) table with
  | Some r => r
  | None => emptyRow row
  end.

(** The rowid SQLite gives an inserted row: one more than the largest in
    the table, and 1 in an empty table. The ids are the positive rowids the
    engine's own inserts are given; a table that holds only ids below zero
    is outside this model. *)
Definition lastId (table : list (gmap string value)) : Z :=
  foldr (fun r acc => match get "id" r with VInt i => Z.max i acc | _ => acc end) 0 table.

(** [save()]: the result, the row object afterwards and the table
    afterwards; [None] when the statement itself throws. With a truthy id
    it is an UPDATE of every other field of the row object, keyed by the
    id, and the result is whether a row changed. Otherwise it is an INSERT
    of all fields of the row object, id included: a null id lets SQLite
    assign the rowid, an id of 0 is inserted as it is unless the key is
    taken, and any other falsy id is no integer key. The row object is one
    [init()] has made, with a field for each column and no other; a
    statement without any field, or with a field that is no column, throws
    in SQLite, which is not modelled. *)
Definition save (row : gmap string value) (table : list (gmap string value))
  : option (bool * gmap string value * list (gmap string value)) :=
  let hit i r := sql_eq (get "id" r) i in
  if truthy (get "id" row) then
    let query := queryBuilder (map_to_list (delete "id" row)) in
    let table' := (fun r => if hit (get "id" row) r then set query r else r) <$> table in
    Some (existsb (hit (get "id" row)) table, row, table')
  else
    let query := queryBuilder (map_to_list row) in
    let insert id :=
      let inserted := <["id" := VInt id]> (set query Mapper.init) in
      Some (true, <["id" := VInt id]> row, (table ++ [inserted])%list) in
    match get "id" row with
    | VNull => insert (lastId table + 1)
    | VInt id => if existsb (hit (VInt id)) table then None else insert id
    | VStr _ => None
    end.

End Mapper.

(** ** File.ts: class File *)

Definition fileExtensionWhitelist : list string :=
  ["html"; "css";
   "jpg"; "jpeg"; "png"; "webp"; "svg"; "gif";
   "webm";
   "ttf"; "otf"; "woff"; "woff2"].

(** Length of the base36 filenames: the own properties of the object
    literal [filenameLengths]. *)
Definition filenameLengths : gmap string nat :=
  {[ "html" := 8%nat; "default" := 20%nat ]}.

(** What the object literal inherits: the properties of [Object.prototype].
    Each reads as a function, or as the prototype object itself for
    [__proto__], and so is truthy; the number is the [length] it shows as an
    array-like, that is the number of parameters of the function, and 0
    where there is no such property. *)
Definition objectPrototype : gmap string nat :=
  {[ "constructor" := 1%nat; "__defineGetter__" := 2%nat; "__defineSetter__" := 2%nat;
     "hasOwnProperty" := 1%nat; "__lookupGetter__" := 1%nat; "__lookupSetter__" := 1%nat;
     "isPrototypeOf" := 1%nat; "propertyIsEnumerable" := 1%nat; "toString" := 0%nat;
     "valueOf" := 0%nat; "__proto__" := 0%nat; "toLocaleString" := 0%nat ]}.

Module File.

(** A field of the posted JSON body that the code tests with [typeof]:
    absent (or any falsy non-string), a string, or a truthy value that is
    not a string. *)
Inductive jsarg : Type :=
| Absent
| Str (s : string)
| NotString.

(** [this.post], the fields the storage core reads. [hash] is declared a
    string; [expiration] is a time in milliseconds; [encrypted] is the
    truthiness of [template.encrypted]. *)
Record Post : Type := {
  p_filetype : jsarg;
  p_filename : jsarg;
  p_hash : option string;
  p_content : string;
  p_expiration : option Z;
  p_encrypted : bool
}.

(** [this.user.row], the two columns read here. *)
Record User : Type := {
  u_id : value;
  u_uid : value
}.

(** The controller object. [file] is the row object of the Mapper held in
    [this.file], [None] while the field is undefined. *)
Record t : Type := {
  post : Post;
  user : User;
  filename : string;
  extension : string;
  hash : option string;
  initialised : bool;
  file : option (gmap string value);
  cssFilename : option string
}.

(** [new File(c)] *)
Definition new (p : Post) (u : User) : t :=
  {| post := p; user := u; filename := EmptyString; extension := EmptyString;
     hash := p_hash p; initialised := false; file := None; cssFilename := None |}.

(** The constructor as a step of the request: it builds the controller from
    the context and neither reads nor changes the world, its clock
    included. *)
Definition construct (p : Post) (u : User) : M World t := fun w => (Returned (new p u), w).

Definition with_filename (x : string) (f : t) : t :=
  {| post := post f; user := user f; filename := x; extension := extension f;
     hash := hash f; initialised := initialised f; file := file f;
     cssFilename := cssFilename f |}.

Definition with_extension (x : string) (f : t) : t :=
  {| post := post f; user := user f; filename := filename f; extension := x;
     hash := hash f; initialised := initialised f; file := file f;
     cssFilename := cssFilename f |}.

Definition with_initialised (x : bool) (f : t) : t :=
  {| post := post f; user := user f; filename := filename f; extension := extension f;
     hash := hash f; initialised := x; file := file f;
     cssFilename := cssFilename f |}.

Definition with_file (x : option (gmap string value)) (f : t) : t :=
  {| post := post f; user := user f; filename := filename f; extension := extension f;
     hash := hash f; initialised := initialised f; file := x;
     cssFilename := cssFilename f |}.

Definition with_cssFilename (x : option string) (f : t) : t :=
  {| post := post f; user := user f; filename := filename f; extension := extension f;
     hash := hash f; initialised := initialised f; file := file f;
     cssFilename := x |}.

(** A request in flight: the controller and the world around it. *)
Record St : Type := { this : t; world : World }.

Definition on_this (g : t -> t) (s : St) : St := {| this := g (this s); world := world s |}.
Definition on_world (g : World -> World) (s : St) : St :=
  {| this := this s; world := g (world s) |}.

(** The object [{ success, url }]. *)
Record SuccessUrl : Type := { success : bool; url : string }.

(** [a || b] on optional strings: [undefined] and [''] are falsy. *)
Definition or_else (a : option string) (b : string) : string :=
  match a with
  | Some x => if String.eqb x EmptyString then b else x
  | None => b
  end.

Section WithHost.
Context (host : Host) (app : App).

Definition checkPostFilenameAndExtension : M St unit :=
  p ← gets (fun s => post (this s));
  let ext :=
    match p_filetype p with
    | Str s => if String.eqb s EmptyString then "Unknown" else s
    | _ => "Unknown"
    end in
  modify (on_this (with_extension ext));;
  if negb (existsb (String.eqb ext) fileExtensionWhitelist) then
    throw (HTTPException 415)
  else
    match p_filename p with
    | Absent => mret tt
    | NotString => throw (HTTPException 400)
    | Str s =>
        if String.eqb s EmptyString then mret tt
        else
          let name := if JS.includes_dot s then JS.before_dot s else s in
          if JS.matches_outside JS.is_lower_alnum name || String.eqb name EmptyString
          then throw (HTTPException 400)
          else modify (on_this (with_filename name))
    end.

(** [hydrate(filename, extension)] *)
Definition hydrate (optionalFilename optionalExtension : option string) (f : t)
  : string * string :=
  (or_else optionalFilename (filename f), or_else optionalExtension (extension f)).

Definition getDisplayUrl (optionalFilename optionalExtension : option string) (f : t)
  : string :=
  let '(name, ext) := hydrate optionalFilename optionalExtension f in
  Paths.displayUrl app name ext.

Definition getFileUrl (optionalFilename optionalExtension : option string) (f : t)
  : string :=
  let '(name, ext) := hydrate optionalFilename optionalExtension f in
  Paths.fileUrl app name ext.

Definition getFullFilePath (optionalFilename optionalExtension : option string) (f : t)
  : string * string :=
  let '(name, ext) := hydrate optionalFilename optionalExtension f in
  Paths.fullFilePath app name ext.

Definition returnSuccessUrl (u : option string) (f : t) : SuccessUrl :=
  {| success := true; url := or_else u (getDisplayUrl None None f) |}.

(** [filenameLengths[extension] || filenameLengths.default], as the number
    of elements [new Uint8Array(...)] makes of it in [getHashFilename], its
    one caller: the number itself, and for an inherited property, which is
    no number, its [length] as an array-like. *)
Definition filenameLength (optionalExtension : option string) (f : t) : nat :=
  let '(_, ext) := hydrate None optionalExtension f in
  match filenameLengths !! ext with
  | Some (S n) => S n
  | Some O => default 0%nat (filenameLengths !! "default")
  | None =>
      match objectPrototype !! ext with
      | Some elements => elements
      | None => default 0%nat (filenameLengths !! "default")
      end
  end.

(** [Math.floor(b * 0.140625).toString(36)]. The constant is 9/64, a
    binary fraction, so the product of a byte with it is exact in
    double precision and its floor is the integer quotient of [36 b] by
    256. *)
Definition base36Digit (b : Byte.byte) : string :=
  JS.toStringRadix 36 (Byte.to_N b * 36 / 256).

(** [crypto.getRandomValues(new Uint8Array(n))] *)
Definition getRandomValues (n : nat) : M St (list Byte.byte) := fun s =>
  let w := world s in
  (Returned (entropy w <$> seq (drawn w) n),
   on_world (with_drawn (drawn w + n)) s).

Definition getHashFilename (ext : string) : M St string :=
  n ← gets (fun s => filenameLength (Some ext) (this s));
  bytes ← getRandomValues n;
  mret (foldl (fun name b => name +:+ base36Digit b) EmptyString bytes).

(** [getExpiration()] *)
Definition getExpiration (f : t) : value :=
  match p_expiration (post f) with
  | Some expires => if expires =? 0 then VNull else dateToSqlite host expires
  | None => VNull
  end.

(** The assignment [this.cssFilename = await shortHash(...)] of
    [getCssFilename]: [this.user?.row?.uid || Date.now()] is the uid when
    it is truthy and the clock otherwise. *)
Definition computeCss (s : St) : result string * St :=
  let uid := u_uid (user (this s)) in
  let who := if truthy uid then uid else VInt (clock (world s)) in
  let c := helpers.shortHash host (hashSalt app +:+ to_js_string who) in
  (Returned c, on_this (with_cssFilename (Some c)) s).

(** [getCssFilename()]: the memoised value when it is truthy. *)
Definition getCssFilename : M St string := fun s =>
  match cssFilename (this s) with
  | Some c =>
      if negb (String.eqb c EmptyString) then (Returned c, s) else computeCss s
  | None => computeCss s
  end.

(** All requests must include the SHA1 (40 chars): the test
    [this.hash?.length !== 40 || this.hash?.match(/[^a-f0-9]/)]. *)
Definition badHash (h : option string) : bool :=
  match h with
  | Some x =>
      negb (String.length x =? 40)%nat || JS.matches_outside JS.is_lower_hex x
  | None => true
  end.

(** The hash as a bind parameter and as a row field. *)
Definition hashValue (f : t) : value :=
  match hash f with Some x => VStr x | None => VNull end.

(** [await this.file.load(params)] *)
Definition fileLoad (params : list (string * value)) : M St unit := fun s =>
  match file (this s) with
  | Some row =>
      (Returned tt,
       on_this (with_file (Some (Mapper.load params (db (world s)) row))) s)
  | None => (Thrown TypeError, s)
  end.

(** [this.file.row], once [this.file] is set. *)
Definition fileRow (f : t) : gmap string value := default Mapper.init (file f).

(** [this.file.found && this.file.row.users_id !== this.user.row.id] *)
Definition ownedByOther (f : t) : bool :=
  Mapper.found (fileRow f)
  && negb (strict_eq (get "users_id" (fileRow f)) (u_id (user f))).

(** The text a row holds in a column. *)
Definition text (v : value) : string :=
  match v with VStr x => x | _ => EmptyString end.

(** SQLite [s LIKE pattern]: [%] matches any run of characters, [_] any
    single one, and ASCII letters match without regard to case. *)
Definition lowerChar (c : ascii) : ascii :=
  if JS.is_upper c then ascii_of_N (N_of_ascii c + 32) else c.

Fixpoint like (pattern : string) : string -> bool :=
  match pattern with
  | EmptyString => fun s => String.eqb s EmptyString
  | String c pattern' =>
      if Ascii.eqb c "%"%char then
        fix any (s : string) : bool :=
          like pattern' s
          || match s with
             | EmptyString => false
             | String _ s' => any s'
             end
      else fun s =>
        match s with
        | EmptyString => false
        | String d s' =>
            (Ascii.eqb c "_"%char || Ascii.eqb (lowerChar c) (lowerChar d))
            && like pattern' s'
        end
  end.

Definition likeValue (pattern : string) (v : value) : bool :=
  match v with VStr x => like pattern x | _ => false end.

(** [SELECT filename, hash FROM files WHERE filetype = 'css' AND filename
    LIKE ? AND hash = ? LIMIT 1], bound to [prefix + '%'] and the hash. *)
Definition existingCss (prefix : string) (h : value) (table : list (gmap string value))
  : option (gmap string value) :=
  List.find (fun r => sql_eq (get "filetype" r) (VStr "css")
                      && likeValue (prefix +:+ "%") (get "filename" r)
                      && sql_eq (get "hash" r) h) table.

(** [initFile(createIfNotExist)]: get an existing file DB object or a
    new empty one. The result is what the function returns: [None] for
    [undefined], [Some u] for the success URL of the asset branch. *)
Definition initFile (createIfNotExist : bool) : M St (option SuccessUrl) :=
  done ← gets (fun s => initialised (this s));
  if (done : bool) then mret None else
  bad ← gets (fun s => badHash (hash (this s)));
  if (bad : bool) then throw (HTTPException 463) else
  checkPostFilenameAndExtension;;
  modify (on_this (with_file (Some Mapper.init)));;
  ext ← gets (fun s => extension (this s));
  if String.eqb ext "html" then
    userProvidedName ← gets (fun s => negb (String.eqb (filename (this s)) EmptyString));
    (if negb userProvidedName && createIfNotExist then
       name ← getHashFilename ext; modify (on_this (with_filename name))
     else if negb userProvidedName && negb createIfNotExist then
       throw (HTTPException 400)
     else mret tt);;
    name ← gets (fun s => filename (this s));
    fileLoad [("filename", VStr name); ("filetype", VStr ext)];;
    f ← gets this;
    (if ownedByOther f then
       if createIfNotExist then
         name ← getHashFilename ext; modify (on_this (with_filename name))
       else throw (HTTPException 403)
     else if userProvidedName && Mapper.notFound (fileRow f) then
       if createIfNotExist then
         name ← getHashFilename ext; modify (on_this (with_filename name))
       else throw (HTTPException 403)
     else mret tt);;
    name ← gets (fun s => filename (this s));
    fileLoad [("filename", VStr name); ("filetype", VStr ext)];;
    f ← gets this;
    if ownedByOther f then throw (HTTPException 403)
    else modify (on_this (with_initialised true));; mret None
  else if String.eqb ext "css" then
    css ← getCssFilename;
    f ← gets this;
    (if truthy (hashValue f) then
       table ← gets (fun s => db (world s));
       match existingCss css (hashValue f) table with
       | Some existing =>
           modify (on_this (with_filename (text (get "filename" existing))))
       | None =>
           let hashSuffix := JS.substring0 8 (text (hashValue f)) in
           modify (on_this (with_filename (css +:+ hashSuffix)))
       end
     else modify (on_this (with_filename css)));;
    (* each of the three cases ends with this load *)
    name ← gets (fun s => filename (this s));
    fileLoad [("filetype", VStr ext); ("filename", VStr name)];;
    modify (on_this (with_initialised true));; mret None
  else
    f ← gets this;
    fileLoad [("filetype", VStr ext); ("hash", hashValue f)];;
    f ← gets this;
    if Mapper.found (fileRow f) then
      modify (on_this (with_filename (text (get "filename" (fileRow f)))));;
      f ← gets this;
      mret (Some (returnSuccessUrl None f))
    else if negb createIfNotExist then throw (HTTPException 404)
    else
      name ← getHashFilename ext;
      modify (on_this (with_filename name));;
      modify (on_this (with_initialised true));; mret None.

(** [saveFile(contents)] *)
Definition saveFile (contents : string) : M St (gmap string value) :=
  f ← gets this;
  match file f with
  | None => throw (HTTPException (serverError host FILE_FAILED_TO_INIT))
  | Some _ =>
      let '(folder, filePath) := getFullFilePath None None f in
      (* Create the directory if it does not exist *)
      modify (on_world (Fs.ensureDir folder));;
      (* Save the file to disk *)
      w ← gets world;
      match Fs.writeFile filePath contents w with
      | None => throw (HTTPException (serverError host FILE_FAILED_TO_SAVE))
      | Some w' =>
          modify (on_world (fun _ => w'));;
          (* Purge the cached asset from Cloudflare *)
          modify (on_world (purgeCache [getDisplayUrl None None f; getFileUrl None None f]));;
          date ← gets (fun s => now host (clock (world s)));
          let row0 := fileRow f in
          let row1 :=
            if Mapper.notFound row0 then
              (* This is a new record *)
              Mapper.set [("users_id", u_id (user f));
                          ("filename", VStr (filename f));
                          ("filetype", VStr (extension f));
                          ("created", date)] row0
            else row0 in
          let row2 :=
            Mapper.set [("bytes", VInt (Z.of_nat (String.length contents)));
                        ("encrypted", VInt (if p_encrypted (post f) then 1 else 0));
                        ("expires", getExpiration f);
                        ("hash", hashValue f);
                        ("updated", date)] row1 in
          modify (on_this (with_file (Some row2)));;
          table ← gets (fun s => db (world s));
          match Mapper.save row2 table with
          | None => throw SqliteError
          | Some (ok, row3, table') =>
              modify (on_this (with_file (Some row3)));;
              modify (on_world (with_db table'));;
              if (ok : bool) then mret row3
              else throw (HTTPException (serverError host FILE_FAILED_TO_SAVE))
          end
      end
  end.

(** [upload()]. The value [initFile] returns is not looked at. The
    handler also reports the failure to [Log.event], which is outside
    this model. *)
Definition upload : M St SuccessUrl :=
  initFile true;;
  try_catch
    (p ← gets (fun s => post (this s)); saveFile (p_content p);; mret tt)
    (fun _ => throw (HTTPException (serverError host FILE_FAILED_TO_UPLOAD)));;
  f ← gets this;
  mret (returnSuccessUrl None f).

(** [DELETE FROM files WHERE filetype = 'html' AND filename = ?] *)
Definition deleteHtml (name : string) (table : list (gmap string value))
  : list (gmap string value) :=
  List.filter (fun r => negb (sql_eq (get "filetype" r) (VStr "html")
                              && sql_eq (get "filename" r) (VStr name))) table.

(** [deleteFile()]; the result is the [success] field of the object it
    returns. *)
Definition deleteFile : M St bool :=
  p ← gets (fun s => post (this s));
  (* Only HTML notes for now *)
  if negb (match p_filetype p with Str x => String.eqb x "html" | _ => false end)
  then throw (HTTPException 404)
  else
    (* Check the incoming filename and extension, and fail if necessary *)
    checkPostFilenameAndExtension;;
    (* Check the file exists and is owned by this user *)
    modify (on_this (with_file (Some Mapper.init)));;
    f ← gets this;
    fileLoad [("filename", VStr (filename f)); ("filetype", VStr (extension f))];;
    f ← gets this;
    (if String.eqb (extension f) "html"
        && Mapper.found (fileRow f)
        && strict_eq (get "users_id" (fileRow f)) (u_id (user f))
     then
       (* Delete the file; a failure is swallowed *)
       modify (on_world (fun w =>
         default w (Fs.unlink (snd (getFullFilePath None None f)) w)));;
       (* Clear from Cloudflare cache *)
       modify (on_world (purgeCache [getDisplayUrl None None f]));;
       (* Finally, delete the reference from our DB *)
       modify (on_world (fun w => with_db (deleteHtml (filename f) (db w)) w))
     else mret tt);;
    mret true.

(** [params.filetype] of [checkFile]: [item?.filetype || this.post.filetype]. *)
Definition checkedFiletype (item : option (string * string)) (p : Post) : jsarg :=
  match item with
  | Some (type, _) => if String.eqb type EmptyString then p_filetype p else Str type
  | None => p_filetype p
  end.

(** [params.hash] of [checkFile]: [item?.hash || this.post.hash]. *)
Definition checkedHash (item : option (string * string)) (p : Post) : option string :=
  match item with
  | Some (_, h) => if String.eqb h EmptyString then p_hash p else Some h
  | None => p_hash p
  end.

(** [checkFile(item)]; an item is the pair of its [filetype] and [hash], and
    the result the pair [{ success, url }] with [None] for a null url. The
    filetype is a string or absent. One that is neither is, when there is a
    hash, bound to the SELECT as it is, where what follows depends on the
    value - a number is compared with the column, an object or a boolean is
    refused with a TypeError - and the model, which does not tell these
    values apart, stands for the second case only. *)
Definition checkFile (item : option (string * string)) : M St (bool * option string) :=
  p ← gets (fun s => post (this s));
  let failure : M St (bool * option string) := mret (false, None) in
  let found (row : gmap string value) : M St (bool * option string) :=
    f ← gets this;
    let link :=
      getDisplayUrl (Some (text (get "filename" row))) (Some (text (get "filetype" row))) f in
    let r := returnSuccessUrl (Some link) f in
    mret (success r, Some (url r)) in
  let h := checkedHash item p in
  let hashed := match h with Some x => negb (String.eqb x EmptyString) | None => false end in
  match checkedFiletype item p with
  | NotString => if hashed then throw TypeError else failure
  | Absent => failure
  | Str type =>
      if String.eqb type "css" then
        (* CSS files: match by hash and user UID (filename prefix) *)
        css ← getCssFilename;
        if hashed then
          table ← gets (fun s => db (world s));
          match existingCss css (VStr (default EmptyString h)) table with
          | Some cssFile => found cssFile
          | None => failure
          end
        else failure
      else
        (* Non-CSS files: use original logic *)
        if negb (String.eqb type EmptyString) && hashed then
          table ← gets (fun s => db (world s));
          let row :=
            Mapper.load [("filetype", VStr type); ("hash", VStr (default EmptyString h))]
              table Mapper.init in
          if Mapper.found row then found row else failure
        else failure
  end.

(** [ORDER BY filename] on rows that hold a text filename: by code unit. *)
Definition byFilename (r1 r2 : gmap string value) : Prop :=
  String.le (text (get "filename" r1)) (text (get "filename" r2)).

#[global] Instance byFilename_dec : RelDecision byFilename.
Proof. intros r1 r2. unfold byFilename. apply _. Defined.

(** [SELECT filename, hash, filetype FROM files WHERE filetype = 'css' AND
    filename LIKE ? ORDER BY filename], bound to [prefix + '%']. *)
Definition cssFilesOf (prefix : string) (table : list (gmap string value))
  : list (gmap string value) :=
  merge_sort byFilename
    (List.filter (fun r => sql_eq (get "filetype" r) (VStr "css")
                           && likeValue (prefix +:+ "%") (get "filename" r)) table).

(** [checkCss()]: the pair [{ success, css }], each element of [css] the
    pair [{ url, hash }]. *)
Definition checkCss : M St (bool * list (string * value)) :=
  css ← getCssFilename;
  table ← gets (fun s => db (world s));
  f ← gets this;
  let cssFiles := cssFilesOf css table in
  let cssArray :=
    (fun cssFile =>
       (getDisplayUrl (Some (text (get "filename" cssFile)))
          (Some (text (get "filetype" cssFile))) f,
        get "hash" cssFile)) <$> cssFiles in
  mret (negb (length cssArray =? 0)%nat, if negb (length cssArray =? 0)%nat then cssArray else []).
End WithHost.
End File.

(** ** Cron.ts: class Cron *)

Module Cron.

(** The Cron object: [app] and [paths = new Paths(app)]. *)
Record t : Type := { app : App; paths : App }.

(** What [this] is while a function runs: the Cron object, when the
    function is called as its method, or something else - an object
    without the properties [paths] and [app], or [undefined] - when the
    bare function value is called by other code. *)
Inductive receiver : Type :=
| Instance (c : t)
| Foreign.

(** [this.paths.m(...)] and [this.app.m(...)]: reading a property of
    [undefined] throws a TypeError. *)
Definition thisPaths (r : receiver) : M World App :=
  match r with
  | Instance c => mret (paths c)
  | Foreign => throw TypeError
  end.

Definition thisApp (r : receiver) : M World App :=
  match r with
  | Instance c => mret (app c)
  | Foreign => throw TypeError
  end.

(** [unixepoch()]: the clock in whole seconds. *)
Definition unixepoch (w : World) : Z := clock w / 1000.

(** [expires IS NOT NULL AND expires < unixepoch()] *)
Definition expired (w : World) (r : gmap string value) : bool :=
  negb (bool_decide (get "expires" r = VNull))
  && sql_lt_int (get "expires" r) (unixepoch w).

(** [DELETE FROM files WHERE id = ?] *)
Definition deleteById (id : value) (table : list (gmap string value))
  : list (gmap string value) :=
  List.filter (fun r => negb (sql_eq (get "id" r) id)) table.

(** [await unlink(path)] *)
Definition unlink (path : string) : M World unit := fun w =>
  match Fs.unlink path w with
  | Some w' => (Returned tt, w')
  | None => (Thrown FsError, w)
  end.

(** The body of the loop of [deleteExpiredFiles] for one selected row. *)
Definition sweepRow (this : receiver) (file : gmap string value) : M World unit :=
  let name := File.text (get "filename" file) in
  let type := File.text (get "filetype" file) in
  (* Delete the file *)
  try_catch
    (p ← thisPaths this; unlink (snd (Paths.fullFilePath p name type)))
    (fun _ => mret tt);;
  (* Clear from Cloudflare cache *)
  p ← thisPaths this;
  let url := Paths.displayUrl p name type in
  _ ← thisApp this;
  modify (purgeCache [url]);;
  (* Finally, delete the reference from our DB *)
  modify (fun w => with_db (deleteById (get "id" file) (db w)) w).

(** [for (const row of files) { ... }] *)
Fixpoint forEach {A} (body : A -> M World unit) (l : list A) : M World unit :=
  match l with
  | [] => mret tt
  | x :: l' => body x;; forEach body l'
  end.

Definition deleteExpiredFiles (this : receiver) : M World unit :=
  files ← gets (fun w => List.filter (expired w) (db w));
  forEach (sweepRow this) files.

(** [new Cron(app)]: the object, and the job that
    [cron.schedule('* * * * *', this.deleteExpiredFiles)] registers. The
    argument is the method read off the object, a function value that is
    not bound to it; the scheduler, which knows nothing of the Cron
    object, calls it every minute on a receiver of its own. *)
Definition new (a : App) : t * M World unit :=
  ({| app := a; paths := a |}, deleteExpiredFiles Foreign).

(** One tick of the scheduled job. *)
Definition tick (a : App) : M World unit := snd (new a).

End Cron.

(** ** WebNote.ts: the sanitisers of class WebNote *)

Module WebNote.

(** [stringify(value)]: turn any value into a string. *)
Definition stringify (v : value) : string :=
  match v with
  | VStr s => s
  | _ => EmptyString
  end.

(** [string.replace(/\s+/g, ' ')]; [inRun] tells that the code unit before
    was whitespace already. *)
Fixpoint collapseSpaces (inRun : bool) (s : string) : string :=
  match s with
  | EmptyString => EmptyString
  | String c s' =>
      if JS.is_space c then
        if inRun then collapseSpaces true s' else String " "%char (collapseSpaces true s')
      else String c (collapseSpaces false s')
  end.

(** The replacement the callback of [htmlQuote] gives for one code unit
    (and the code unit itself where the pattern does not match). *)
Definition entity (c : ascii) : string :=
  if Ascii.eqb c "&"%char then "&amp;"
  else if Ascii.eqb c "<"%char then "&lt;"
  else if Ascii.eqb c ">"%char then "&gt;"
  else if Ascii.eqb c "'"%char then "&#39;"
  else if Ascii.eqb c JS.doubleQuote then "&quot;"
  else String c EmptyString.

Fixpoint escape (s : string) : string :=
  match s with
  | EmptyString => EmptyString
  | String c s' => entity c +:+ escape s'
  end.

(** [htmlQuote(string)] *)
Definition htmlQuote (s : string) : string := escape (collapseSpaces false s).

End WebNote.

(** ** index.ts: the route of a note *)

Module Index.

(** [path.replace(/^\/?/, '')] *)
Definition stripSlash (path : string) : string :=
  match path with
  | String c rest => if Ascii.eqb c "/"%char then rest else path
  | EmptyString => path
  end.

(** [rewriteRequestPath] of the route of a note, whose files are served
    from the root [../userfiles/notes]. *)
Definition rewriteRequestPath (app : App) (path : string) : string :=
  let length := folderPrefix app in
  let subdir :=
    if negb (length =? 0) then "/" +:+ JS.substring0 length (stripSlash path)
    else EmptyString in
  subdir +:+ path +:+ ".html".

(** The route of a note, [/:filename{^\w{N,}$}] with
    [N = Math.max(1, folderPrefix)]: a request path matches when it is a
    slash and one segment of at least [N] word characters, and the static
    middleware then reads the file at the rewritten path under its root;
    any other path is left to the routes that follow. *)
Definition noteRoute (app : App) (path : string) : option string :=
  match path with
  | String c filename =>
      if Ascii.eqb c "/"%char
         && JS.forallb_string JS.is_word filename
         && (Z.max 1 (folderPrefix app) <=? Z.of_nat (String.length filename))
      then Some (rewriteRequestPath app path)
      else None
  | EmptyString => None
  end.

End Index.

(** ** Sample data for evaluating the model *)

Module Sample.

Definition host : Host :=
  {| digest := fun algorithm data =>
       if String.eqb algorithm "SHA-256" then repeat Byte.xab 32 else repeat Byte.xcd 20;
     serverError := fun e =>
       match e with
       | FILE_FAILED_TO_INIT => 560
       | FILE_FAILED_TO_SAVE => 561
       | FILE_FAILED_TO_UPLOAD => 562
       end;
     now := fun ms => VInt (ms / 1000);
     dateToSqlite := fun ms => VInt (ms / 1000) |}.

Definition app : App :=
  {| baseFolder := "/notesx"; baseWebUrl := "https://example.org";
     hashSalt := "salt"; folderPrefix := 2 |}.

Definition h40 : string := "0123456789abcdef0123456789abcdef01234567".

Definition mkRow (id : Z) (owner : Z) (name type h : string) (expires : value)
  : gmap string value :=
  list_to_map [("id", VInt id); ("users_id", VInt owner); ("filename", VStr name);
               ("filetype", VStr type); ("hash", VStr h); ("bytes", VInt 3);
               ("encrypted", VInt 0); ("created", VInt 100); ("updated", VInt 100);
               ("expires", expires)].

Definition world (table : list (gmap string value)) : World :=
  {| db := table; disk := ∅; folders := ∅; unwritable := ∅; purged := [];
     clock := 200000; entropy := fun _ => Byte.xff; drawn := 0 |}.

Definition mkPost (type : string) (name : File.jsarg) (h : option string) : File.Post :=
  {| File.p_filetype := File.Str type; File.p_filename := name; File.p_hash := h;
     File.p_content := "xy"; File.p_expiration := Some 5000000;
     File.p_encrypted := false |}.

Definition mkUser (id : Z) (uid : string) : File.User :=
  {| File.u_id := VInt id; File.u_uid := VStr uid |}.

End Sample.

(** * Vocabulary of the properties *)

(** The category bucket as the design document words it: document ->
    notes, stylesheet -> css, everything else -> files. *)
Definition bucket_spec (filetype : string) : string :=
  if String.eqb filetype "html" then "notes"
  else if String.eqb filetype "css" then "css"
  else "files".

(** The shard segment as the design document words it: the first [P]
    characters of the filename behind a slash, omitted when [P = 0]. *)
Definition shard_spec (P : Z) (filename : string) : string :=
  if P =? 0 then EmptyString else "/" +:+ String.substring 0 (Z.to_nat P) filename.

(** The digits of base 36, in the order of their values. *)
Definition base36Alphabet : string := "0123456789abcdefghijklmnopqrstuvwxyz".

(** The design document's digit for a byte: the digit of base 36 whose value
    is [floor(b * 36 / 256)]. *)
Definition digit_spec (b : Byte.byte) : ascii :=
  default "0"%char (String.get (N.to_nat (Byte.to_N b * 36 / 256)) base36Alphabet).

(** The bytes the next draw of [n] random bytes yields in world [w]. *)
Definition nextBytes (n : nat) (w : World) : list Byte.byte :=
  entropy w <$> seq (drawn w) n.

(** The length of the identifier as the design document words it, for every
    extension: 8 characters for html and 20 for anything else. *)
Definition length_for_every_extension : Prop :=
  forall (e : string) (s : File.St),
    let n := if String.eqb e "html" then 8%nat else 20%nat in
    exists name s',
      File.getHashFilename e s = (Returned name, s') /\ String.length name = n.

(** The extension a request asks for: the posted filetype when it is a
    non-empty string. *)
Definition postedExtension (p : File.Post) : string :=
  match File.p_filetype p with
  | File.Str x => if String.eqb x EmptyString then "Unknown" else x
  | _ => "Unknown"
  end.

(** The record a lookup by [(filename, filetype)] selects. *)
Definition lookupByName (name type : string) (table : list (gmap string value))
  : option (gmap string value) :=
  List.find (Mapper.selects [("filename", VStr name); ("filetype", VStr type)]) table.

(** Does the record a lookup selects belong to somebody other than [u]? *)
Definition otherOwner (u : File.User) (r : option (gmap string value)) : bool :=
  match r with
  | Some row => Mapper.found row && negb (strict_eq (get "users_id" row) (File.u_id u))
  | None => false
  end.

(** The record a lookup by [(filetype, hash)] selects. *)
Definition lookupByHash (type : string) (h : value) (table : list (gmap string value))
  : option (gmap string value) :=
  List.find (Mapper.selects [("filetype", VStr type); ("hash", h)]) table.

(** The claim as the design document words it: whatever the category, a
    lookup without permission to create that matches nothing (here: the
    table is empty) is rejected as not found. *)
Definition always_not_found : Prop :=
  forall (host : Host) (app : App) (s s1 : File.St),
    File.initialised (File.this s) = false ->
    File.badHash (File.hash (File.this s)) = false ->
    File.checkPostFilenameAndExtension s = (Returned tt, s1) ->
    db (File.world s) = [] ->
    fst (File.initFile host app false s) = Thrown (HTTPException 404).

(** The value [getCssFilename] yields for controller [f] when the clock
    reads [ms]. *)
Definition cssNameOf (host : Host) (app : App) (f : File.t) (ms : Z) : string :=
  let uid := File.u_uid (File.user f) in
  let computed :=
    helpers.shortHash host
      (hashSalt app +:+ to_js_string (if truthy uid then uid else VInt ms)) in
  match File.cssFilename f with
  | Some c => if String.eqb c EmptyString then computed else c
  | None => computed
  end.

(** The digits of base 16, in the order of their values. *)
Definition hexAlphabet : string := "0123456789abcdef".

Definition hexDigit (n : N) : ascii :=
  default "0"%char (String.get (N.to_nat n) hexAlphabet).

(** Bytes in lowercase hexadecimal, two digits each, the high one first. *)
Definition hex_spec (bytes : list Byte.byte) : string :=
  string_of_list_ascii
    (flat_map (fun b => [hexDigit (Byte.to_N b / 16); hexDigit (Byte.to_N b mod 16)]) bytes).

(** The prefix as the design document words it: the first 32 hexadecimal
    characters of the SHA-256 digest of [text]. *)
Definition prefix_spec (host : Host) (text : string) : string :=
  String.substring 0 32 (hex_spec (digest host "SHA-256" text)).

(** The readings of [Date.now()]: whole milliseconds within the range of a
    [Date]. *)
Definition clockReading (ms : Z) : Prop := Z.abs ms <= 8640000000000000.

(** The claim's last clause as the design document words it: two controllers
    of the same anonymous context that were created at different times
    compute different prefixes. A controller is created, by the
    constructor, in the world of its time, and computes its prefix in the
    world of its first call of [getCssFilename], which is not an earlier
    one. *)
Definition created_at_different_times_differ : Prop :=
  forall (host : Host) (app : App) (post : File.Post) (user : File.User)
         (born1 born2 call1 call2 : World) (f1 f2 : File.t),
    (forall data, length (digest host "SHA-256" data) = 32%nat) ->
    truthy (File.u_uid user) = false ->
    fst (File.construct post user born1) = Returned f1 ->
    fst (File.construct post user born2) = Returned f2 ->
    clock born1 <> clock born2 ->
    clock born1 <= clock call1 -> clock born2 <= clock call2 ->
    fst (File.getCssFilename host app {| File.this := f1; File.world := call1 |})
    <> fst (File.getCssFilename host app {| File.this := f2; File.world := call2 |}).

(** The filename the stylesheet branch settles on, for prefix [c] and
    content hash [h]. *)
Definition cssFilenameFor (c h : string) (table : list (gmap string value)) : string :=
  match File.existingCss c (VStr h) table with
  | Some existing => File.text (get "filename" existing)
  | None => c +:+ JS.substring0 8 h
  end.

(** The controller once the stylesheet branch has run. *)
Definition cssResolved (host : Host) (app : App) (s1 : File.St) (h : string) : File.St :=
  let table := db (File.world s1) in
  let c := cssNameOf host app (File.this s1) (clock (File.world s1)) in
  let name := cssFilenameFor c h table in
  File.on_this (fun f =>
    File.with_initialised true
      (File.with_file
         (Some (Mapper.load [("filetype", VStr "css"); ("filename", VStr name)] table
                  Mapper.init))
         (File.with_filename name (File.with_cssFilename (Some c) f)))) s1.

(** ASCII lower-casing of a string, the folding SQLite's LIKE applies. *)
Fixpoint lowerCase (s : string) : string :=
  match s with
  | EmptyString => EmptyString
  | String c s' => String (File.lowerChar c) (lowerCase s')
  end.

(** The claim's last case as the design document words it: a stylesheet
    upload that supplies no hash is given the bare prefix as its filename. *)
Definition bare_prefix_without_hash : Prop :=
  forall (host : Host) (app : App) (s s1 : File.St) (uid : string),
    File.initialised (File.this s) = false ->
    File.cssFilename (File.this s) = None ->
    File.u_uid (File.user (File.this s)) = VStr uid -> uid <> EmptyString ->
    File.hash (File.this s) = None ->
    File.checkPostFilenameAndExtension s = (Returned tt, s1) ->
    File.extension (File.this s1) = "css" ->
    exists s',
      File.initFile host app true s = (Returned None, s')
      /\ File.filename (File.this s') = helpers.shortHash host (hashSalt app +:+ uid).

(** The record the stylesheet branch reuses, in the design document's
    words: the first one of type css whose filename starts with the prefix
    (SQLite compares ASCII letters without regard to case) and whose hash is
    exactly [h]. *)
Definition reusableCss (prefix h : string) (r : gmap string value) : bool :=
  sql_eq (get "filetype" r) (VStr "css")
  && match get "filename" r with
     | VStr name => JS.starts_with prefix (lowerCase name)
     | _ => false
     end
  && sql_eq (get "hash" r) (VStr h).

(** The physical path and the display URL the sweeper computes for a row. *)
Definition pathOf (c : Cron.t) (file : gmap string value) : string :=
  snd (Paths.fullFilePath (Cron.paths c) (File.text (get "filename" file))
         (File.text (get "filetype" file))).

Definition linkOf (c : Cron.t) (file : gmap string value) : string :=
  Paths.displayUrl (Cron.paths c) (File.text (get "filename" file))
    (File.text (get "filetype" file)).

(** The effect of the loop body on one row when the method runs on the
    Cron object. *)
Definition swept (c : Cron.t) (file : gmap string value) (w : World) : World :=
  with_db (Cron.deleteById (get "id" file) (db w))
    (with_purged (purged w ++ [[linkOf c file]])
       (with_disk (delete (pathOf c file) (disk w)) w)).

(** ** Vocabulary of the further properties *)

(** The names [queryBuilder] writes into a statement, one for each
    placeholder: the sanitised field names that are not empty. The binds are
    kept under these names, so that a statement has as many binds as
    placeholders when no name occurs twice. *)
Definition placeholders (params : list (string * value)) : list string :=
  List.filter (fun k => negb (String.eqb k EmptyString))
    ((fun kv => JS.strip_outside JS.is_lower_underscore (fst kv)) <$> params).

(** A bind that SQLite compares with the column as it is: a text for the
    filename, the filetype or the hash, an integer for the id, or null. *)
Definition typedBind (column : string) (bind : value) : Prop :=
  match bind with
  | VStr _ => column ∈ ["filename"; "filetype"; "hash"]
  | VInt _ => column = "id"
  | VNull => True
  end.

(** Parameters that make a statement SQLite runs on table [files], as every
    call of File.ts gives them: some name is left by the sanitiser, no two
    names are sanitised to the same, every name is a column, and every bind
    is of the kind of its column. *)
Definition runnable (params : list (string * value)) : Prop :=
  placeholders params <> []
  /\ NoDup (placeholders params)
  /\ Forall (fun k => k ∈ files_columns) (placeholders params)
  /\ Forall (fun kv =>
               let k := JS.strip_outside JS.is_lower_underscore (fst kv) in
               k = EmptyString \/ typedBind k (snd kv)) params.

(** A row object as the engine holds it: the object [init()] has made, with
    one field for each column, whatever [set] and [load] have put there. *)
Definition rowObject (row : gmap string value) : Prop := dom row = dom Mapper.init.

(** A table as the engine fills it: the id of every row is the rowid SQLite
    gave it, a positive integer below the largest there is. *)
Definition rowids (table : list (gmap string value)) : Prop :=
  Forall (fun r => exists i, get "id" r = VInt i /\ 0 < i < 9223372036854775807) table.

(** A field name that the sanitiser leaves as it is: not empty, all of it in
    [a-z_]. *)
Definition cleanName (k : string) : bool :=
  negb (String.eqb k EmptyString) && JS.forallb_string JS.is_lower_underscore k.

(** [hoare P m Q E]: run from a state that satisfies [P], [m] either
    returns a value [a] in a state that satisfies [Q a] or throws an
    exception [e] in a state that satisfies [E e]. *)
Definition hoare {S A} (P : S -> Prop) (m : M S A) (Q : A -> S -> Prop)
    (E : Exn -> S -> Prop) : Prop :=
  forall s, P s ->
    match m s with
    | (Returned a, s') => Q a s'
    | (Thrown e, s') => E e s'
    end.

(** What identity resolution may change of the world [w0] it starts in:
    nothing but the count of random bytes drawn, which can only grow. *)
Definition sameStore (w0 w : World) : Prop :=
  db w = db w0 /\ disk w = disk w0 /\ folders w = folders w0
  /\ unwritable w = unwritable w0 /\ purged w = purged w0 /\ clock w = clock w0
  /\ entropy w = entropy w0 /\ (drawn w0 <= drawn w)%nat.

(** The world of the request is, up to random bytes drawn, the world [w0]. *)
Definition inStore (w0 : World) (s : File.St) : Prop := sameStore w0 (File.world s).

(** The postcondition of [initFile]: the store is kept, and a resolution
    that returns [undefined] has marked the controller as initialised. *)
Definition resolved (w0 : World) (r : option File.SuccessUrl) (s : File.St) : Prop :=
  inStore w0 s /\ (r = None -> File.initialised (File.this s) = true).

(** The name the next draw of 20 random bytes gives. *)
Definition nextAssetName (w : World) : string :=
  string_of_list_ascii (digit_spec <$> nextBytes 20 w).





(** No whitespace but a single space at a time; [prev] tells that the code
    unit before was whitespace. *)
Fixpoint singleSpaced (prev : bool) (s : string) : bool :=
  match s with
  | EmptyString => true
  | String c s' =>
      if JS.is_space c then Ascii.eqb c " "%char && negb prev && singleSpaced true s'
      else singleSpaced false s'
  end.

(** A code unit that cannot end an attribute value or open a tag. *)
Definition attributeSafe (c : ascii) : bool :=
  negb (Ascii.eqb c "<"%char) && negb (Ascii.eqb c ">"%char)
  && negb (Ascii.eqb c "'"%char) && negb (Ascii.eqb c JS.doubleQuote).

(** The WHERE clause of the query of [checkCss] for prefix [c]. *)
Definition stylesheetOf (c : string) (r : gmap string value) : bool :=
  sql_eq (get "filetype" r) (VStr "css") && File.likeValue (c +:+ "%") (get "filename" r).

(** The row object [saveFile] builds for a record that exists: the stored
    row with the stamps of every persist. *)
Definition restampedRow (host : Host) (f : File.t) (contents : string) (date : value)
    (row : gmap string value) : gmap string value :=
  Mapper.set [("bytes", VInt (Z.of_nat (String.length contents)));
              ("encrypted", VInt (if File.p_encrypted (File.post f) then 1 else 0));
              ("expires", File.getExpiration host f);
              ("hash", File.hashValue f);
              ("updated", date)] row.

(** The table after [UPDATE files SET ... WHERE id = ?] with the fields of
    [row] but its id. *)
Definition updatedBy (row : gmap string value) (table : list (gmap string value))
  : list (gmap string value) :=
  (fun r => if sql_eq (get "id" r) (get "id" row) then delete "id" row ∪ r else r) <$> table.

(** The world after a persist of [contents] by controller [f] over the
    stored [row]. *)
Definition persistedOver (host : Host) (app : App) (f : File.t) (contents : string)
    (row : gmap string value) (w : World) : World :=
  let '(folder, filePath) := File.getFullFilePath app None None f in
  with_db (updatedBy (restampedRow host f contents (now host (clock w)) row) (db w))
    (purgeCache [File.getDisplayUrl app None None f; File.getFileUrl app None None f]
       (with_disk (<[filePath := contents]> (disk w)) (Fs.ensureDir folder w))).

(** ** Proof automation *)

(** Unfolds the operations of the monad. *)
Ltac unfold_monad :=
  unfold mbind, M_bind, mret, M_ret, gets, modify, throw, try_catch in *.

(** Reduces the projections and the field updates of the controller and of
    the world, on states that are given by their fields. *)
Ltac fields :=
  cbv beta iota delta
    [File.this File.world File.on_this File.on_world
     File.post File.user File.filename File.extension File.hash File.initialised
     File.file File.cssFilename
     File.with_filename File.with_extension File.with_initialised File.with_file
     File.with_cssFilename
     db disk folders unwritable purged clock entropy drawn
     with_db with_disk with_folders with_purged with_drawn] in *.

(** * Properties *)

(** ** Strings *)

Lemma append_cons (x : ascii) (a b : string) : String x a +:+ b = String x (a +:+ b).
Proof. reflexivity. Qed.

Lemma append_nil_l (b : string) : EmptyString +:+ b = b.
Proof. reflexivity. Qed.

Lemma append_assoc (a b c : string) : (a +:+ b) +:+ c = a +:+ (b +:+ c).
Proof.
  induction a as [|x a IH]; [reflexivity |].
  rewrite !append_cons. now rewrite IH.
Qed.

Lemma append_nil_r (a : string) : a +:+ EmptyString = a.
Proof.
  induction a as [|x a IH]; [reflexivity |].
  rewrite append_cons. now rewrite IH.
Qed.

Lemma append_length (a b : string) :
  String.length (a +:+ b) = (String.length a + String.length b)%nat.
Proof.
  induction a as [|x a IH]; [reflexivity |].
  rewrite append_cons. simpl. now rewrite IH.
Qed.

Lemma append_inv_head (a b c : string) : a +:+ b = a +:+ c -> b = c.
Proof.
  induction a as [|x a IH]; [trivial |].
  rewrite !append_cons. intros [= H]. auto.
Qed.

Lemma forallb_string_append (p : ascii -> bool) (a b : string) :
  JS.forallb_string p (a +:+ b) = JS.forallb_string p a && JS.forallb_string p b.
Proof.
  induction a as [|x a IH]; [reflexivity |].
  rewrite append_cons. simpl. rewrite IH. now rewrite andb_assoc.
Qed.

Lemma matches_outside_forallb (cls : ascii -> bool) (s : string) :
  JS.matches_outside cls s = negb (JS.forallb_string cls s).
Proof.
  unfold JS.matches_outside.
  induction s as [|c s IH]; simpl; [reflexivity |].
  rewrite IH. now destruct (cls c).
Qed.

Lemma decimal_inj (x y : Z) : JS.decimal x = JS.decimal y -> x = y.
Proof.
  unfold JS.decimal. intros E.
  assert (nonnil : forall z, Z.to_int z <> Decimal.Pos Decimal.Nil
                             /\ Z.to_int z <> Decimal.Neg Decimal.Nil).
  { intros [|p|p]; simpl; split; try discriminate;
      intros [= H]; now apply (Unsigned.to_uint_nonnil p). }
  apply DecimalZ.to_int_inj.
  destruct (nonnil x) as [x1 x2], (nonnil y) as [y1 y2].
  pose proof (NilZero.isi _ x1 x2) as Hx.
  pose proof (NilZero.isi _ y1 y2) as Hy.
  rewrite E in Hx. congruence.
Qed.

(** ** Path resolution *)

Lemma folderPath_spec (app : App) (f t : string) :
  Paths.folderPath app f t = bucket_spec t +:+ shard_spec (folderPrefix app) f.
Proof.
  unfold Paths.folderPath, bucket_spec, shard_spec, JS.substring0.
  destruct (folderPrefix app =? 0); simpl negb; cbv iota;
    destruct (String.eqb t "html"); [reflexivity | | reflexivity |];
    destruct (String.eqb t "css"); reflexivity.
Qed.

(** C7. For every filename [f], filetype [t] and shard-prefix length [P],
    the physical path is
    [{baseFolder}/userfiles/{bucket}/{first P chars of f}/{f}.{t}] with the
    bucket [notes] for html, [css] for css and [files] otherwise, and with
    the shard segment omitted when [P = 0]; the display URL of an html file
    is [{baseWebUrl}/{f}]. With [P = 2], filename [ab1234] and filetype
    [html] the path is [{baseFolder}/userfiles/notes/ab/ab1234.html] and the
    public URL [{baseWebUrl}/ab1234]. *)
Theorem path_resolution (app : App) (f t : string) :
  snd (Paths.fullFilePath app f t)
    = baseFolder app +:+ "/userfiles/" +:+ bucket_spec t
        +:+ shard_spec (folderPrefix app) f +:+ "/" +:+ f +:+ "." +:+ t
  /\ Paths.displayUrl app f "html" = baseWebUrl app +:+ "/" +:+ f
  /\ (let app2 := {| baseFolder := baseFolder app; baseWebUrl := baseWebUrl app;
                     hashSalt := hashSalt app; folderPrefix := 2 |} in
      snd (Paths.fullFilePath app2 "ab1234" "html")
        = baseFolder app +:+ "/userfiles/notes/ab/ab1234.html"
      /\ Paths.displayUrl app2 "ab1234" "html" = baseWebUrl app +:+ "/ab1234").
Proof.
  split; [| split; [reflexivity | split; [| reflexivity]]].
  - unfold Paths.fullFilePath. cbn [snd].
    rewrite folderPath_spec.
    now rewrite !append_assoc.
  - unfold Paths.fullFilePath. cbn [snd].
    rewrite append_assoc. reflexivity.
Qed.

(** ** The random identifier *)

Lemma base36Digit_single (b : Byte.byte) :
  File.base36Digit b = String (digit_spec b) EmptyString.
Proof. destruct b; vm_compute; reflexivity. Qed.

Lemma digit_spec_lower_alnum (b : Byte.byte) : JS.is_lower_alnum (digit_spec b) = true.
Proof. destruct b; vm_compute; reflexivity. Qed.

Lemma digits_foldl (bytes : list Byte.byte) (acc : string) :
  foldl (fun name b => name +:+ File.base36Digit b) acc bytes
  = acc +:+ string_of_list_ascii (digit_spec <$> bytes).
Proof.
  revert acc. induction bytes as [|b bytes IH]; intros acc.
  - cbn. now rewrite append_nil_r.
  - rewrite fmap_cons. cbn [foldl string_of_list_ascii].
    rewrite IH, base36Digit_single, append_assoc. reflexivity.
Qed.

Lemma digits_length (bytes : list Byte.byte) :
  String.length (string_of_list_ascii (digit_spec <$> bytes)) = length bytes.
Proof.
  induction bytes as [|b bytes IH]; [reflexivity |].
  rewrite fmap_cons. cbn [string_of_list_ascii String.length length].
  now rewrite IH.
Qed.

Lemma digits_lower_alnum (bytes : list Byte.byte) :
  JS.forallb_string JS.is_lower_alnum (string_of_list_ascii (digit_spec <$> bytes)) = true.
Proof.
  induction bytes as [|b bytes IH]; [reflexivity |].
  rewrite fmap_cons. cbn [string_of_list_ascii JS.forallb_string].
  now rewrite digit_spec_lower_alnum, IH.
Qed.

Lemma filenameLength_whitelisted (e : string) (f : File.t) :
  In e fileExtensionWhitelist ->
  File.filenameLength (Some e) f = if String.eqb e "html" then 8%nat else 20%nat.
Proof.
  unfold fileExtensionWhitelist. simpl.
  intros H. repeat (destruct H as [<- | H]; [reflexivity |]). destruct H.
Qed.

Lemma getHashFilename_whitelisted (e : string) (s : File.St) :
  In e fileExtensionWhitelist ->
  let n := if String.eqb e "html" then 8%nat else 20%nat in
  File.getHashFilename e s
  = (Returned (string_of_list_ascii (digit_spec <$> nextBytes n (File.world s))),
     File.on_world (with_drawn (drawn (File.world s) + n)) s).
Proof.
  intros H n. unfold File.getHashFilename, File.getRandomValues, gets, mbind, M_bind, mret, M_ret.
  rewrite (filenameLength_whitelisted e _ H). fold n.
  rewrite digits_foldl. reflexivity.
Qed.

(** C9, amended. For every extension [e] of the whitelist and every possible
    byte draw, the random identifier generator draws [n] random bytes, [n = 8]
    when [e] is html and [n = 20] otherwise, maps each byte [b] to the single
    base-36 digit of [floor(b * 36 / 256)] and concatenates the digits: the
    result is a string of exactly [n] characters, each in [a-z0-9]. *)
Theorem random_identifier (e : string) (s : File.St) :
  In e fileExtensionWhitelist ->
  let n := if String.eqb e "html" then 8%nat else 20%nat in
  exists name,
    File.getHashFilename e s
      = (Returned name, File.on_world (with_drawn (drawn (File.world s) + n)) s)
    /\ name = string_of_list_ascii (digit_spec <$> nextBytes n (File.world s))
    /\ length (nextBytes n (File.world s)) = n
    /\ String.length name = n
    /\ JS.forallb_string JS.is_lower_alnum name = true.
Proof.
  intros H n. eexists. split; [apply (getHashFilename_whitelisted e s H) |].
  split; [reflexivity |].
  assert (L : length (nextBytes n (File.world s)) = n).
  { unfold nextBytes. now rewrite length_fmap, length_seq. }
  split; [exact L |]. split.
  - now rewrite digits_length.
  - apply digits_lower_alnum.
Qed.

Lemma random_identifier_witness :
  exists name,
    File.getHashFilename "png"
      {| File.this := File.new (Sample.mkPost "png" File.Absent (Some Sample.h40))
                        (Sample.mkUser 2 "u2");
         File.world := Sample.world [] |}
    = (Returned name,
       {| File.this := File.new (Sample.mkPost "png" File.Absent (Some Sample.h40))
                         (Sample.mkUser 2 "u2");
          File.world := with_drawn 20 (Sample.world []) |})
    /\ String.length name = 20%nat.
Proof.
  destruct (random_identifier "png"
              {| File.this := File.new (Sample.mkPost "png" File.Absent (Some Sample.h40))
                                (Sample.mkUser 2 "u2");
                 File.world := Sample.world [] |}) as (name & E & _ & _ & L & _).
  - simpl. tauto.
  - exists name. split; [exact E | exact L].
Defined.

(** C9, the claim as worded. For an extension that is no own property of
    [filenameLengths] but one that every object inherits, the lookup yields
    neither 8 nor the default: with ['constructor'] it yields the function
    [Object], of which [new Uint8Array] makes an array of one element, and
    the identifier has one character. The engine never asks for such an
    extension: [initFile] passes the extension it has checked against the
    whitelist. *)
Theorem length_for_every_extension_counterexample : ~ length_for_every_extension.
Proof.
  intros H.
  destruct (H "constructor"
              {| File.this := File.new (Sample.mkPost "png" File.Absent (Some Sample.h40))
                                (Sample.mkUser 2 "u2");
                 File.world := Sample.world [] |}) as (name & s' & E & L).
  vm_compute in E. injection E as <- _. discriminate L.
Qed.

(** ** Persisting a file *)

Lemma ensureDir_frame (folder : string) (w : World) :
  db (Fs.ensureDir folder w) = db w
  /\ disk (Fs.ensureDir folder w) = disk w
  /\ unwritable (Fs.ensureDir folder w) = unwritable w
  /\ purged (Fs.ensureDir folder w) = purged w
  /\ clock (Fs.ensureDir folder w) = clock w.
Proof. unfold Fs.ensureDir. case_bool_decide; repeat split; reflexivity. Qed.

(** The statements [set] and [save] of [saveFile] run only behind a
    successful write: whenever the call changed the table or the row object,
    the file at the resolved path holds the contents. *)
Lemma saveFile_index_after_write (host : Host) (app : App) (contents : string) (s : File.St) :
  let s' := snd (File.saveFile host app contents s) in
  db (File.world s') <> db (File.world s) \/ File.file (File.this s') <> File.file (File.this s) ->
  disk (File.world s') !! snd (File.getFullFilePath app None None (File.this s)) = Some contents.
Proof.
  unfold File.saveFile. unfold_monad.
  destruct (File.file (File.this s)) as [row|] eqn:Hfile; cbn [snd].
  2: { intros [H | H]; [now destruct H | rewrite Hfile in H; now destruct H]. }
  destruct (File.getFullFilePath app None None (File.this s)) as [folder filePath] eqn:Hpath.
  cbn [snd File.world File.on_world File.this].
  destruct (ensureDir_frame folder (File.world s)) as (Hdb & Hdisk & Hun & _).
  unfold Fs.writeFile. rewrite Hun.
  case_bool_decide as Hw; cbn [snd File.world File.on_world File.this].
  { rewrite Hdb, Hfile. intros [H | H]; now destruct H. }
  intros _.
  destruct (Mapper.save _ _) as [[[ok row3] table']|];
    [destruct ok |]; cbn; apply lookup_insert_eq.
Qed.

(** C2. For every persist operation, if the physical file write fails then
    the operation reports the write-failure error and the index is not
    mutated: the row object held in memory and the table are exactly as they
    were before the call (and so are the disk and the purge log). *)
Theorem write_failure_keeps_index (host : Host) (app : App) (contents : string)
    (s : File.St) (row : gmap string value) :
  File.file (File.this s) = Some row ->
  snd (File.getFullFilePath app None None (File.this s)) ∈ unwritable (File.world s) ->
  exists s',
    File.saveFile host app contents s
      = (Thrown (HTTPException (serverError host FILE_FAILED_TO_SAVE)), s')
    /\ File.this s' = File.this s
    /\ File.file (File.this s') = Some row
    /\ db (File.world s') = db (File.world s)
    /\ disk (File.world s') = disk (File.world s)
    /\ purged (File.world s') = purged (File.world s).
Proof.
  intros Hfile Hbad.
  unfold File.saveFile. unfold_monad. rewrite Hfile.
  destruct (File.getFullFilePath app None None (File.this s)) as [folder filePath] eqn:Hpath.
  cbn [snd] in Hbad.
  cbn [File.world File.on_world File.this].
  destruct (ensureDir_frame folder (File.world s)) as (Hdb & Hdisk & Hun & Hp & _).
  unfold Fs.writeFile. rewrite Hun.
  rewrite bool_decide_true by exact Hbad.
  eexists. split; [reflexivity |].
  cbn [File.world File.on_world File.this].
  repeat split; assumption.
Qed.

Lemma write_failure_keeps_index_witness :
  let s := {| File.this :=
                File.with_file (Some (Sample.mkRow 1 1 "ab1234" "html" Sample.h40 VNull))
                  (File.with_extension "html" (File.with_filename "ab1234"
                     (File.new (Sample.mkPost "html" (File.Str "ab1234") (Some Sample.h40))
                        (Sample.mkUser 1 "u1"))));
              File.world :=
                {| db := [Sample.mkRow 1 1 "ab1234" "html" Sample.h40 VNull];
                   disk := ∅; folders := ∅;
                   unwritable := {["/notesx/userfiles/notes/ab/ab1234.html"]};
                   purged := []; clock := 200000; entropy := fun _ => Byte.xff;
                   drawn := 0 |} |} in
  exists s',
    File.saveFile Sample.host Sample.app "xy" s = (Thrown (HTTPException 561), s')
    /\ db (File.world s') = db (File.world s).
Proof.
  intros s.
  destruct (write_failure_keeps_index Sample.host Sample.app "xy" s
              (Sample.mkRow 1 1 "ab1234" "html" Sample.h40 VNull))
    as (s' & E & _ & _ & Hdb & _).
  - reflexivity.
  - vm_compute. set_solver.
  - exists s'. split; [exact E | exact Hdb].
Defined.

(** ** Checking the posted filename and extension *)

(** Whatever its outcome, the check touches only the fields [extension] and
    [filename] of the controller, and sets the first to the posted one. *)
Lemma checkPost_frame (s s1 : File.St) (r : result unit) :
  File.checkPostFilenameAndExtension s = (r, s1) ->
  File.world s1 = File.world s
  /\ File.post (File.this s1) = File.post (File.this s)
  /\ File.user (File.this s1) = File.user (File.this s)
  /\ File.hash (File.this s1) = File.hash (File.this s)
  /\ File.initialised (File.this s1) = File.initialised (File.this s)
  /\ File.file (File.this s1) = File.file (File.this s)
  /\ File.cssFilename (File.this s1) = File.cssFilename (File.this s)
  /\ File.extension (File.this s1) = postedExtension (File.post (File.this s)).
Proof.
  unfold File.checkPostFilenameAndExtension, postedExtension. unfold_monad.
  cbn [File.this File.on_this File.world].
  set (ext := match File.p_filetype (File.post (File.this s)) with
              | File.Str x => if String.eqb x EmptyString then "Unknown" else x
              | _ => "Unknown"
              end).
  destruct (negb (existsb (String.eqb ext) fileExtensionWhitelist)).
  { intros [= <- <-]. cbn. repeat split; reflexivity. }
  destruct (File.p_filename (File.post (File.this s))) as [|name|].
  - intros [= <- <-]. cbn. repeat split; reflexivity.
  - destruct (String.eqb name EmptyString).
    { intros [= <- <-]. cbn. repeat split; reflexivity. }
    destruct (_ || _); intros [= <- <-]; cbn; repeat split; reflexivity.
  - intros [= <- <-]. cbn. repeat split; reflexivity.
Qed.

(** When the check passes, the extension is whitelisted and the filename is
    either the one the controller had (nothing usable was posted) or a
    non-empty lowercase alphanumeric one. *)
Lemma checkPost_passed (s s1 : File.St) :
  File.checkPostFilenameAndExtension s = (Returned tt, s1) ->
  In (File.extension (File.this s1)) fileExtensionWhitelist
  /\ (File.filename (File.this s1) = File.filename (File.this s)
      \/ (File.filename (File.this s1) <> EmptyString
          /\ JS.forallb_string JS.is_lower_alnum (File.filename (File.this s1)) = true)).
Proof.
  unfold File.checkPostFilenameAndExtension. unfold_monad.
  cbn [File.this File.on_this File.world].
  set (ext := match File.p_filetype (File.post (File.this s)) with
              | File.Str x => if String.eqb x EmptyString then "Unknown" else x
              | _ => "Unknown"
              end).
  destruct (existsb (String.eqb ext) fileExtensionWhitelist) eqn:Hw; cbn [negb];
    [| discriminate].
  assert (Hin : In ext fileExtensionWhitelist).
  { apply existsb_exists in Hw as (x & Hx & E). apply String.eqb_eq in E. now subst. }
  destruct (File.p_filename (File.post (File.this s))) as [|name|].
  - intros [= <-]. cbn. split; [exact Hin | now left].
  - destruct (String.eqb name EmptyString).
    { intros [= <-]. cbn. split; [exact Hin | now left]. }
    set (n := if JS.includes_dot name then JS.before_dot name else name).
    rewrite matches_outside_forallb.
    destruct (JS.forallb_string JS.is_lower_alnum n) eqn:Hn; cbn [negb orb]; [| discriminate].
    destruct (String.eqb_spec n EmptyString) as [|Hne]; [discriminate |].
    intros [= <-]. cbn. split; [exact Hin | right; split; assumption].
  - discriminate.
Qed.

(** ** Deleting a document *)

Lemma load_byName (name type : string) (table : list (gmap string value))
    (row : gmap string value) :
  Mapper.load [("filename", VStr name); ("filetype", VStr type)] table row
  = default (Mapper.emptyRow row) (lookupByName name type table).
Proof. unfold Mapper.load, lookupByName. cbn. now destruct (List.find _ table). Qed.

(** C8. For every delete request for a document whose matching
    [(filename, 'html')] record exists but is owned by a different user than
    the caller, the operation returns a success result and leaves the world
    as it was: the table, the disk and the purge log are untouched. *)
Theorem delete_not_owner (app : App) (s s1 : File.St) (row : gmap string value) :
  File.p_filetype (File.post (File.this s)) = File.Str "html" ->
  File.checkPostFilenameAndExtension s = (Returned tt, s1) ->
  lookupByName (File.filename (File.this s1)) "html" (db (File.world s)) = Some row ->
  get "users_id" row <> File.u_id (File.user (File.this s)) ->
  exists s',
    File.deleteFile app s = (Returned true, s')
    /\ File.world s' = File.world s
    /\ db (File.world s') = db (File.world s)
    /\ disk (File.world s') = disk (File.world s)
    /\ purged (File.world s') = purged (File.world s).
Proof.
  intros Htype Hcheck Hrow Howner.
  destruct (checkPost_frame _ _ _ Hcheck) as (Hw & Hpost & Huser & _ & _ & _ & _ & Hext).
  unfold postedExtension in Hext. rewrite Htype in Hext. cbn in Hext.
  unfold File.deleteFile. unfold_monad. rewrite Htype. cbn [String.eqb negb].
  replace (negb _) with false by reflexivity. cbn iota.
  rewrite Hcheck.
  unfold File.fileLoad. cbn [File.this File.on_this File.with_file File.file File.world
                              File.filename File.extension].
  rewrite Hext, load_byName, Hw, Hrow. cbn [default].
  unfold File.fileRow. cbn [File.file File.with_file default File.user].
  assert (Hse : strict_eq (get "users_id" row) (File.u_id (File.user (File.this s1))) = false).
  { rewrite Huser. unfold strict_eq. now rewrite bool_decide_false. }
  unfold id. rewrite Hse, andb_false_r.
  eexists. split; [reflexivity |]. cbn. rewrite Hw. repeat split; reflexivity.
Qed.

Lemma delete_not_owner_witness :
  let s := {| File.this := File.new (Sample.mkPost "html" (File.Str "abc123") (Some Sample.h40))
                             (Sample.mkUser 2 "u2");
              File.world := Sample.world [Sample.mkRow 1 1 "abc123" "html" Sample.h40 VNull] |} in
  exists s', File.deleteFile Sample.app s = (Returned true, s')
             /\ File.world s' = File.world s.
Proof.
  intros s.
  destruct (delete_not_owner Sample.app s
              (File.on_this (fun f => File.with_filename "abc123" (File.with_extension "html" f)) s)
              (Sample.mkRow 1 1 "abc123" "html" Sample.h40 VNull))
    as (s' & E & Hw & _).
  - reflexivity.
  - reflexivity.
  - reflexivity.
  - vm_compute. discriminate.
  - exists s'. split; [exact E | exact Hw].
Defined.

(** ** Resolving the identity of a document *)

Lemma get_emptyRow (k : string) (row : gmap string value) :
  get k (Mapper.emptyRow row) = VNull.
Proof.
  unfold get, Mapper.emptyRow. rewrite lookup_fmap.
  now destruct (row !! k).
Qed.

Lemma found_emptyRow (row : gmap string value) : Mapper.found (Mapper.emptyRow row) = false.
Proof. unfold Mapper.found. now rewrite get_emptyRow. Qed.

Lemma html_whitelisted : In "html" fileExtensionWhitelist.
Proof. simpl. tauto. Qed.

(** C3. For the document category with createIfMissing = true: when the
    supplied filename matches an existing [(filename, 'html')] record owned
    by a different user, the engine settles on a fresh random filename
    instead (the digits of the next 8 random bytes), looks that name up once
    more, rejects with the ownership-conflict error 403 if it is again owned
    by a different user and completes the resolution otherwise; in every
    outcome the table, and with it the other owner's record, is as it was. *)
Theorem document_of_other_owner (host : Host) (app : App) (s s1 : File.St)
    (row : gmap string value) :
  File.initialised (File.this s) = false ->
  File.badHash (File.hash (File.this s)) = false ->
  File.p_filetype (File.post (File.this s)) = File.Str "html" ->
  File.checkPostFilenameAndExtension s = (Returned tt, s1) ->
  File.filename (File.this s1) <> EmptyString ->
  lookupByName (File.filename (File.this s1)) "html" (db (File.world s)) = Some row ->
  Mapper.found row = true ->
  get "users_id" row <> File.u_id (File.user (File.this s)) ->
  let fresh := string_of_list_ascii (digit_spec <$> nextBytes 8 (File.world s)) in
  let conflict :=
    otherOwner (File.user (File.this s)) (lookupByName fresh "html" (db (File.world s))) in
  exists s',
    File.initFile host app true s
      = (if conflict then Thrown (HTTPException 403) else Returned None, s')
    /\ File.filename (File.this s') = fresh
    /\ File.initialised (File.this s') = negb conflict
    /\ db (File.world s') = db (File.world s)
    /\ In row (db (File.world s'))
    /\ disk (File.world s') = disk (File.world s)
    /\ purged (File.world s') = purged (File.world s).
Proof.
  intros Hinit Hhash Htype Hcheck Hname Hrow Hfound Howner fresh conflict.
  assert (Hin : In row (db (File.world s))).
  { unfold lookupByName in Hrow. now apply find_some in Hrow. }
  destruct (checkPost_frame _ _ _ Hcheck) as (Hw & Hpost & Huser & Hh & Hi & Hf & Hc & Hext).
  unfold postedExtension in Hext. rewrite Htype in Hext. cbn in Hext.
  unfold File.initFile. unfold_monad.
  rewrite Hinit, Hhash, Hcheck.
  destruct s as [[post0 user0 name0 ext0 hash0 init0 file0 css0] w0].
  destruct s1 as [[post1 user1 name1 ext1 hash1 init1 file1 css1] w1].
  destruct w0 as [t0 d0 fo0 un0 pu0 cl0 en0 dr0].
  fields. subst.
  rewrite String.eqb_refl.
  rewrite (proj2 (String.eqb_neq _ _) Hname). cbv beta iota delta [negb andb].
  unfold File.fileLoad at 1. fields.
  rewrite load_byName, Hrow. cbv beta iota delta [default id].
  assert (Hse : strict_eq (get "users_id" row) (File.u_id user0) = false).
  { unfold strict_eq. now rewrite bool_decide_false. }
  unfold File.ownedByOther at 1 2, File.fileRow. fields. cbv beta iota delta [default id].
  rewrite Hfound, Hse. cbv beta iota delta [negb andb].
  rewrite (getHashFilename_whitelisted "html" _ html_whitelisted).
  rewrite String.eqb_refl. fields.
  unfold File.fileLoad. fields.
  rewrite load_byName.
  unfold File.ownedByOther, File.fileRow. fields.
  fold fresh. unfold conflict, otherOwner.
  destruct (lookupByName fresh "html" t0) as [r|]; cbv beta iota delta [default id].
  - destruct (Mapper.found r), (strict_eq (get "users_id" r) (File.u_id user0));
      cbv beta iota delta [negb andb]; eexists; (split; [reflexivity |]);
      fields; repeat split; solve [reflexivity | exact Hin].
  - rewrite found_emptyRow. cbv beta iota delta [negb andb].
    eexists; (split; [reflexivity |]); fields; repeat split; solve [reflexivity | exact Hin].
Qed.

Lemma document_of_other_owner_witness :
  let s := {| File.this := File.new (Sample.mkPost "html" (File.Str "abc123") (Some Sample.h40))
                             (Sample.mkUser 2 "u2");
              File.world := Sample.world [Sample.mkRow 1 1 "abc123" "html" Sample.h40 VNull] |} in
  exists s',
    File.initFile Sample.host Sample.app true s = (Returned None, s')
    /\ File.filename (File.this s') = "zzzzzzzz"
    /\ db (File.world s') = db (File.world s).
Proof.
  intros s.
  destruct (document_of_other_owner Sample.host Sample.app s
              (File.on_this (fun f => File.with_filename "abc123" (File.with_extension "html" f)) s)
              (Sample.mkRow 1 1 "abc123" "html" Sample.h40 VNull))
    as (s' & E & Hn & _ & Hdb & _).
  - reflexivity.
  - reflexivity.
  - reflexivity.
  - reflexivity.
  - discriminate.
  - reflexivity.
  - reflexivity.
  - vm_compute. discriminate.
  - exists s'. split; [exact E | split; [exact Hn | exact Hdb]].
Defined.

(** ** Lookups without permission to create *)

Lemma load_byHash (type : string) (h : value) (table : list (gmap string value))
    (row : gmap string value) :
  Mapper.load [("filetype", VStr type); ("hash", h)] table row
  = default (Mapper.emptyRow row) (lookupByHash type h table).
Proof. unfold Mapper.load, lookupByHash. cbn. now destruct (List.find _ table). Qed.

(** A document looked up under a supplied name that is not in the table is
    rejected with 403, not 404. *)
Lemma always_not_found_counterexample : ~ always_not_found.
Proof.
  intros H.
  specialize (H Sample.host Sample.app
    {| File.this := File.new (Sample.mkPost "html" (File.Str "abc123") (Some Sample.h40))
                      (Sample.mkUser 2 "u2");
       File.world := Sample.world [] |}
    {| File.this :=
         File.with_filename "abc123" (File.with_extension "html"
           (File.new (Sample.mkPost "html" (File.Str "abc123") (Some Sample.h40))
              (Sample.mkUser 2 "u2")));
       File.world := Sample.world [] |}
    eq_refl eq_refl eq_refl eq_refl).
  vm_compute in H. discriminate H.
Qed.

Lemma badHash_supplied (h : option string) :
  File.badHash h = false ->
  exists x, h = Some x /\ String.length x = 40%nat
            /\ JS.forallb_string JS.is_lower_hex x = true.
Proof.
  destruct h as [x|]; [| discriminate]. cbn.
  rewrite matches_outside_forallb. intros H.
  apply orb_false_elim in H as [H1 H2].
  apply negb_false_iff in H1, H2. apply Nat.eqb_eq in H1.
  exists x. repeat split; assumption.
Qed.

(** A document looked up without permission to create. *)
Lemma initFile_document_lookup (host : Host) (app : App) (s s1 : File.St) :
  File.initialised (File.this s) = false ->
  File.badHash (File.hash (File.this s)) = false ->
  File.checkPostFilenameAndExtension s = (Returned tt, s1) ->
  File.extension (File.this s1) = "html" ->
  let name := File.filename (File.this s1) in
  (name = EmptyString ->
   fst (File.initFile host app false s) = Thrown (HTTPException 400))
  /\ (name <> EmptyString -> lookupByName name "html" (db (File.world s)) = None ->
      fst (File.initFile host app false s) = Thrown (HTTPException 403)).
Proof.
  intros Hinit Hhash Hcheck Hext name.
  destruct (checkPost_frame _ _ _ Hcheck) as (Hw & _).
  subst name.
  unfold File.initFile. unfold_monad.
  rewrite Hinit, Hhash, Hcheck.
  destruct s as [[post0 user0 name0 ext0 hash0 init0 file0 css0] w0].
  destruct s1 as [[post1 user1 name1 ext1 hash1 init1 file1 css1] w1].
  fields. subst. rewrite String.eqb_refl.
  split.
  - intros ->. reflexivity.
  - intros Hne Hnone.
    rewrite (proj2 (String.eqb_neq _ _) Hne). cbv beta iota delta [negb andb].
    unfold File.fileLoad at 1. fields. rewrite load_byName, Hnone.
    cbv beta iota delta [default id].
    unfold File.ownedByOther at 1, File.fileRow. fields.
    cbv beta iota delta [default id].
    unfold Mapper.notFound. rewrite found_emptyRow.
    replace (truthy (get "id" (Mapper.emptyRow Mapper.init))) with false
      by (symmetry; apply found_emptyRow).
    reflexivity.
Qed.

(** A generic asset looked up without permission to create. *)
Lemma initFile_asset_lookup (host : Host) (app : App) (s s1 : File.St) :
  File.initialised (File.this s) = false ->
  File.badHash (File.hash (File.this s)) = false ->
  File.checkPostFilenameAndExtension s = (Returned tt, s1) ->
  let ext := File.extension (File.this s1) in
  ext <> "html" -> ext <> "css" ->
  lookupByHash ext (File.hashValue (File.this s)) (db (File.world s)) = None ->
  exists s',
    File.initFile host app false s = (Thrown (HTTPException 404), s')
    /\ File.world s' = File.world s.
Proof.
  intros Hinit Hhash Hcheck ext Hnh Hnc Hnone. subst ext.
  destruct (checkPost_frame _ _ _ Hcheck) as (Hw & _ & _ & Hh & _).
  unfold File.initFile. unfold_monad.
  rewrite Hinit, Hhash, Hcheck.
  destruct s as [[post0 user0 name0 ext0 hash0 init0 file0 css0] w0].
  destruct s1 as [[post1 user1 name1 ext1 hash1 init1 file1 css1] w1].
  fields. subst.
  rewrite (proj2 (String.eqb_neq _ _) Hnh), (proj2 (String.eqb_neq _ _) Hnc).
  unfold File.fileLoad. fields. unfold File.hashValue in *. fields.
  rewrite load_byHash, Hnone. cbv beta iota delta [default id].
  unfold File.fileRow. fields. cbv beta iota delta [default id].
  rewrite found_emptyRow. cbv beta iota delta [negb].
  eexists. split; reflexivity.
Qed.

Lemma getCssFilename_run (host : Host) (app : App) (s : File.St) :
  let c := cssNameOf host app (File.this s) (clock (File.world s)) in
  File.getCssFilename host app s
  = (Returned c, File.on_this (File.with_cssFilename (Some c)) s).
Proof.
  unfold File.getCssFilename, File.computeCss, cssNameOf.
  destruct s as [[post0 user0 name0 ext0 hash0 init0 file0 css0] w0]. fields.
  destruct css0 as [c|]; [| reflexivity].
  destruct (String.eqb_spec c EmptyString) as [-> | Hc]; reflexivity.
Qed.

Lemma initFile_stylesheet (host : Host) (app : App) (create : bool) (s s1 : File.St)
    (h : string) :
  File.initialised (File.this s) = false ->
  File.hash (File.this s) = Some h ->
  File.badHash (Some h) = false ->
  File.checkPostFilenameAndExtension s = (Returned tt, s1) ->
  File.extension (File.this s1) = "css" ->
  File.initFile host app create s = (Returned None, cssResolved host app s1 h).
Proof.
  intros Hinit Hsome Hhash Hcheck Hext.
  destruct (badHash_supplied _ Hhash) as (x & [= <-] & Hlen & _).
  assert (Hne : String.eqb h EmptyString = false).
  { apply String.eqb_neq. intros ->. discriminate Hlen. }
  destruct (checkPost_frame _ _ _ Hcheck) as (Hw & _ & _ & Hh & _).
  unfold File.initFile. unfold_monad.
  rewrite Hinit, Hsome, Hhash, Hcheck.
  unfold cssResolved, cssFilenameFor.
  destruct s as [[post0 user0 name0 ext0 hash0 init0 file0 css0] w0].
  destruct s1 as [[post1 user1 name1 ext1 hash1 init1 file1 css1] w1].
  fields. subst.
  change (String.eqb "css" "html") with false. rewrite String.eqb_refl.
  cbv beta iota.
  rewrite getCssFilename_run. fields.
  unfold File.hashValue. fields.
  cbv beta iota delta [truthy]. rewrite Hne. cbv beta iota delta [negb].
  unfold cssNameOf. fields.
  destruct (File.existingCss _ _ _) as [existing|];
    unfold File.fileLoad; fields; reflexivity.
Qed.

Lemma like_percent (s : string) : File.like "%" s = true.
Proof.
  induction s as [|c s IH]; [reflexivity |].
  change (File.like "%" (String c s)) with (File.like EmptyString (String c s) || File.like "%" s).
  rewrite IH. apply orb_true_r.
Qed.

Lemma lower_hex_plain (c : ascii) :
  JS.is_lower_hex c = true ->
  Ascii.eqb c "%"%char = false /\ Ascii.eqb c "_"%char = false /\ File.lowerChar c = c.
Proof.
  destruct c as [[] [] [] [] [] [] [] []]; intros H; try discriminate H;
    repeat split; reflexivity.
Qed.

(** For a pattern [p%] whose prefix [p] is lowercase hexadecimal, LIKE is
    "starts with [p]" up to the case of ASCII letters. *)
Lemma like_hex_prefix (p s : string) :
  JS.forallb_string JS.is_lower_hex p = true ->
  File.like (p +:+ "%") s = JS.starts_with p (lowerCase s).
Proof.
  revert s. induction p as [|c p IH]; intros s Hp.
  - rewrite append_nil_l. apply like_percent.
  - cbn [JS.forallb_string] in Hp. apply andb_true_iff in Hp as [Hc Hp].
    destruct (lower_hex_plain c Hc) as (H1 & H2 & H3).
    rewrite append_cons. cbn [File.like]. rewrite H1.
    destruct s as [|d s]; [reflexivity |].
    cbn [lowerCase JS.starts_with]. rewrite H2, H3, IH by exact Hp.
    reflexivity.
Qed.

Lemma lowerCase_lower_alnum (s : string) :
  JS.forallb_string JS.is_lower_alnum s = true -> lowerCase s = s.
Proof.
  induction s as [|c s IH]; [reflexivity |].
  cbn [JS.forallb_string lowerCase]. intros H. apply andb_true_iff in H as [Hc Hs].
  rewrite IH by exact Hs. f_equal.
  destruct c as [[] [] [] [] [] [] [] []]; try discriminate Hc; reflexivity.
Qed.

(** ** The deterministic identifier *)

Lemma hexByte_shape (b : Byte.byte) :
  String.length (helpers.hexByte b) = 2%nat
  /\ JS.forallb_string JS.is_lower_hex (helpers.hexByte b) = true.
Proof. destruct b; vm_compute; split; reflexivity. Qed.

Lemma hexOf_shape (bytes : list Byte.byte) :
  String.length (helpers.hexOf bytes) = (2 * length bytes)%nat
  /\ JS.forallb_string JS.is_lower_hex (helpers.hexOf bytes) = true.
Proof.
  induction bytes as [|b bytes [IH1 IH2]]; [split; reflexivity |].
  destruct (hexByte_shape b) as [H1 H2].
  cbn [helpers.hexOf foldr]. fold (helpers.hexOf bytes).
  rewrite append_length, forallb_string_append, H1, H2, IH1, IH2.
  split; [cbn [length]; lia | reflexivity].
Qed.

Lemma substring_length (n : nat) (s : string) :
  String.length (String.substring 0 n s) = Nat.min n (String.length s).
Proof.
  revert s. induction n as [|n IH]; intros [|c s]; cbn; try reflexivity.
  now rewrite IH.
Qed.

Lemma substring_forallb (p : ascii -> bool) (n : nat) (s : string) :
  JS.forallb_string p s = true -> JS.forallb_string p (String.substring 0 n s) = true.
Proof.
  revert s. induction n as [|n IH]; intros [|c s]; cbn; try reflexivity.
  intros H. apply andb_true_iff in H as [Hc Hs]. now rewrite Hc, IH.
Qed.

(** With a 256-bit digest, the short hash is 32 lowercase hexadecimal
    characters: the first half of the 64 the digest prints as. *)
Lemma shortHash_shape (host : Host) (text : string) :
  length (digest host "SHA-256" text) = 32%nat ->
  String.length (helpers.shortHash host text) = 32%nat
  /\ JS.forallb_string JS.is_lower_hex (helpers.shortHash host text) = true.
Proof.
  intros H. unfold helpers.shortHash, helpers.sha256, helpers.sha, JS.slice0.
  destruct (hexOf_shape (digest host "SHA-256" text)) as [L F].
  rewrite substring_length, L, H. split; [reflexivity |].
  now apply substring_forallb.
Qed.

(** C6, amended. When identity resolution is invoked with createIfMissing =
    false and no index record matches the requested identity, the outcome
    depends on the category. A generic asset (no record with its filetype
    and hash) is rejected with NotFound (404), the world untouched. A
    document is rejected with 403 when a filename was supplied and no record
    bears it, and with 400 when no filename was supplied. A stylesheet is
    not rejected: the flag is not consulted, the resolution runs exactly as
    with createIfMissing = true and completes. *)
Theorem lookup_without_create (host : Host) (app : App) (s s1 : File.St) (h : string) :
  File.initialised (File.this s) = false ->
  File.hash (File.this s) = Some h ->
  File.badHash (Some h) = false ->
  File.checkPostFilenameAndExtension s = (Returned tt, s1) ->
  let ext := File.extension (File.this s1) in
  let name := File.filename (File.this s1) in
  let table := db (File.world s) in
  (ext <> "html" -> ext <> "css" -> lookupByHash ext (VStr h) table = None ->
     fst (File.initFile host app false s) = Thrown (HTTPException 404)
     /\ File.world (snd (File.initFile host app false s)) = File.world s)
  /\ (ext = "html" -> name <> EmptyString -> lookupByName name "html" table = None ->
     fst (File.initFile host app false s) = Thrown (HTTPException 403))
  /\ (ext = "html" -> name = EmptyString ->
     fst (File.initFile host app false s) = Thrown (HTTPException 400))
  /\ (ext = "css" ->
     File.initFile host app false s = File.initFile host app true s
     /\ fst (File.initFile host app false s) = Returned None
     /\ File.initialised (File.this (snd (File.initFile host app false s))) = true).
Proof.
  intros Hinit Hsome Hhash Hcheck ext name table.
  assert (Hhash' : File.badHash (File.hash (File.this s)) = false) by now rewrite Hsome.
  split; [| split; [| split]].
  - intros Hnh Hnc Hnone.
    destruct (initFile_asset_lookup host app s s1 Hinit Hhash' Hcheck Hnh Hnc) as (s' & E & Hw).
    { unfold File.hashValue. now rewrite Hsome. }
    rewrite E. split; [reflexivity | exact Hw].
  - intros He. now apply (initFile_document_lookup host app s s1).
  - intros He. now apply (initFile_document_lookup host app s s1).
  - intros He.
    rewrite !(initFile_stylesheet host app _ s s1 h Hinit Hsome Hhash Hcheck He).
    repeat split; reflexivity.
Qed.

Lemma lookup_without_create_witness :
  let s := {| File.this := File.new (Sample.mkPost "png" File.Absent (Some Sample.h40))
                             (Sample.mkUser 2 "u2");
              File.world := Sample.world [] |} in
  fst (File.initFile Sample.host Sample.app false s) = Thrown (HTTPException 404).
Proof.
  intros s.
  destruct (lookup_without_create Sample.host Sample.app s
              (File.on_this (File.with_extension "png") s) Sample.h40) as (H & _).
  - reflexivity.
  - reflexivity.
  - reflexivity.
  - reflexivity.
  - apply H; [discriminate | discriminate | reflexivity].
Defined.

Lemma bare_prefix_without_hash_counterexample : ~ bare_prefix_without_hash.
Proof.
  intros H.
  destruct (H Sample.host Sample.app
    {| File.this := File.new (Sample.mkPost "css" File.Absent None) (Sample.mkUser 2 "u2");
       File.world := Sample.world [] |}
    {| File.this :=
         File.with_extension "css"
           (File.new (Sample.mkPost "css" File.Absent None) (Sample.mkUser 2 "u2"));
       File.world := Sample.world [] |}
    "u2" eq_refl eq_refl eq_refl ltac:(discriminate) eq_refl eq_refl eq_refl)
    as (s' & E & _).
  vm_compute in E. discriminate E.
Qed.

Lemma find_ext {A} (p q : A -> bool) (l : list A) :
  (forall x, p x = q x) -> List.find p l = List.find q l.
Proof. intros H. induction l as [|x l IH]; cbn; [reflexivity | now rewrite H, IH]. Qed.

Lemma existingCss_reusable (prefix h : string) (table : list (gmap string value)) :
  JS.forallb_string JS.is_lower_hex prefix = true ->
  File.existingCss prefix (VStr h) table = List.find (reusableCss prefix h) table.
Proof.
  intros Hp. unfold File.existingCss. apply find_ext. intros r.
  unfold reusableCss, File.likeValue.
  destruct (get "filename" r); try reflexivity.
  now rewrite like_hex_prefix.
Qed.

(** C5, amended. For every stylesheet upload by a user with a non-empty
    uid, the deterministic prefix is the first 32 characters, all lowercase
    hexadecimal, of the 256-bit hash of the configured salt concatenated
    with the uid. With a well-formed content hash: when an existing css
    record has a filename starting with that prefix (SQLite's LIKE, so
    without regard to the case of ASCII letters) and exactly that hash, the
    filename of the first such record is reused; when there is none, the
    new filename is the prefix followed by the first 8 characters of the
    hash. With no hash, or a malformed one, the upload is rejected with
    status 463 and no filename is assigned. *)
Theorem stylesheet_filename (host : Host) (app : App) (s s1 : File.St) (uid : string) :
  (forall data, length (digest host "SHA-256" data) = 32%nat) ->
  File.initialised (File.this s) = false ->
  File.cssFilename (File.this s) = None ->
  File.u_uid (File.user (File.this s)) = VStr uid -> uid <> EmptyString ->
  File.checkPostFilenameAndExtension s = (Returned tt, s1) ->
  File.extension (File.this s1) = "css" ->
  let prefix := JS.slice0 32 (helpers.sha256 host (hashSalt app +:+ uid)) in
  let table := db (File.world s) in
  (String.length prefix = 32%nat /\ JS.forallb_string JS.is_lower_hex prefix = true)
  /\ (forall h, File.hash (File.this s) = Some h -> File.badHash (Some h) = false ->
      exists s',
        File.initFile host app true s = (Returned None, s')
        /\ File.filename (File.this s')
           = match List.find (reusableCss prefix h) table with
             | Some existing => File.text (get "filename" existing)
             | None => prefix +:+ String.substring 0 8 h
             end
        /\ String.length (String.substring 0 8 h) = 8%nat)
  /\ (forall h, File.hash (File.this s) = h -> File.badHash h = true ->
      exists s',
        File.initFile host app true s = (Thrown (HTTPException 463), s')
        /\ File.filename (File.this s') = File.filename (File.this s)).
Proof.
  intros Hdigest Hinit Hmemo Huid Hne Hcheck Hext prefix table.
  destruct (shortHash_shape host (hashSalt app +:+ uid) (Hdigest _)) as [Hlen Hhex].
  fold prefix in Hlen, Hhex.
  destruct (checkPost_frame _ _ _ Hcheck) as (Hw & _ & Hu & _ & _ & _ & Hc & _).
  split; [split; assumption | split].
  - intros h Hsome Hhash.
    rewrite (initFile_stylesheet host app true s s1 h Hinit Hsome Hhash Hcheck Hext).
    eexists. split; [reflexivity |].
    assert (Hname : cssNameOf host app (File.this s1) (clock (File.world s1)) = prefix).
    { unfold cssNameOf. rewrite Hc, Hmemo, Hu, Huid. cbn [truthy].
      rewrite (proj2 (String.eqb_neq _ _) Hne). reflexivity. }
    unfold cssResolved. rewrite Hname, Hw.
    destruct s1 as [[post1 user1 name1 ext1 hash1 init1 file1 css1] w1]. fields.
    unfold cssFilenameFor. rewrite existingCss_reusable by exact Hhex.
    split; [reflexivity |].
    destruct (badHash_supplied _ Hhash) as (x & [= <-] & Hl & _).
    rewrite substring_length, Hl. reflexivity.
  - intros h Hh Hbad. unfold File.initFile. unfold_monad.
    rewrite Hinit, Hh, Hbad. eexists. split; reflexivity.
Qed.

Lemma stylesheet_filename_witness :
  let s := {| File.this := File.new (Sample.mkPost "css" File.Absent (Some Sample.h40))
                             (Sample.mkUser 2 "u2");
              File.world := Sample.world [] |} in
  exists s',
    File.initFile Sample.host Sample.app true s = (Returned None, s')
    /\ File.filename (File.this s') = "abababababababababababababababab01234567".
Proof.
  intros s.
  destruct (stylesheet_filename Sample.host Sample.app s
              (File.on_this (File.with_extension "css") s) "u2") as (_ & H & _).
  - intros data. reflexivity.
  - reflexivity.
  - reflexivity.
  - reflexivity.
  - discriminate.
  - reflexivity.
  - reflexivity.
  - destruct (H Sample.h40 eq_refl eq_refl) as (s' & E & Hn & _).
    exists s'. split; [exact E | exact Hn].
Defined.

(** ** The memoised stylesheet prefix *)

Lemma cssNameOf_nonempty (host : Host) (app : App) (f : File.t) (ms : Z) :
  (forall data, length (digest host "SHA-256" data) = 32%nat) ->
  cssNameOf host app f ms <> EmptyString.
Proof.
  intros Hdigest. unfold cssNameOf.
  set (text := hashSalt app +:+ _).
  assert (Hc : helpers.shortHash host text <> EmptyString).
  { destruct (shortHash_shape host text (Hdigest _)) as [L _].
    intros E. rewrite E in L. discriminate L. }
  destruct (File.cssFilename f) as [c|]; [| exact Hc].
  destruct (String.eqb_spec c EmptyString); assumption.
Qed.

Lemma hexByte_spec (b : Byte.byte) :
  helpers.hexByte b
  = String (hexDigit (Byte.to_N b / 16)) (String (hexDigit (Byte.to_N b mod 16)) EmptyString).
Proof. destruct b; vm_compute; reflexivity. Qed.

Lemma hexOf_spec (bytes : list Byte.byte) : helpers.hexOf bytes = hex_spec bytes.
Proof.
  unfold hex_spec. induction bytes as [|b bytes IH]; [reflexivity |].
  cbn [helpers.hexOf foldr flat_map]. fold (helpers.hexOf bytes).
  rewrite IH, hexByte_spec. reflexivity.
Qed.

Lemma shortHash_spec (host : Host) (text : string) :
  helpers.shortHash host text = prefix_spec host text.
Proof.
  unfold helpers.shortHash, helpers.sha256, helpers.sha, JS.slice0, prefix_spec.
  now rewrite hexOf_spec.
Qed.

Lemma hexDigit_inj (i j : N) :
  (i < 16)%N -> (j < 16)%N -> hexDigit i = hexDigit j -> i = j.
Proof.
  intros Hi Hj. unfold hexDigit.
  rewrite <- (N2Nat.id i), <- (N2Nat.id j) in *.
  assert (Ha : (N.to_nat i < 16)%nat) by lia.
  assert (Hb : (N.to_nat j < 16)%nat) by lia.
  rewrite !Nat2N.id.
  generalize dependent (N.to_nat j). generalize dependent (N.to_nat i).
  clear i j. intros a _ Ha b _ Hb E. f_equal.
  do 16 (destruct a as [|a];
         [do 16 (destruct b as [|b]; [first [reflexivity | discriminate E] |]); lia |]).
  lia.
Qed.

Lemma hexPair_inj (b1 b2 : Byte.byte) :
  hexDigit (Byte.to_N b1 / 16) = hexDigit (Byte.to_N b2 / 16) ->
  hexDigit (Byte.to_N b1 mod 16) = hexDigit (Byte.to_N b2 mod 16) ->
  b1 = b2.
Proof.
  intros Hhi Hlo.
  pose proof (Byte.to_N_bounded b1) as B1. pose proof (Byte.to_N_bounded b2) as B2.
  apply hexDigit_inj in Hhi;
    [| apply N.Div0.div_lt_upper_bound; lia | apply N.Div0.div_lt_upper_bound; lia].
  apply hexDigit_inj in Hlo; [| apply N.mod_lt; lia | apply N.mod_lt; lia].
  assert (E : Byte.to_N b1 = Byte.to_N b2).
  { rewrite (N.div_mod (Byte.to_N b1) 16), (N.div_mod (Byte.to_N b2) 16) by lia.
    now rewrite Hhi, Hlo. }
  apply (f_equal Byte.of_N) in E. rewrite !Byte.of_to_N in E. now injection E.
Qed.

Lemma hex_spec_inj (l1 l2 : list Byte.byte) : hex_spec l1 = hex_spec l2 -> l1 = l2.
Proof.
  unfold hex_spec. revert l2.
  induction l1 as [|b1 l1 IH]; intros [|b2 l2]; cbn [flat_map app string_of_list_ascii];
    try discriminate; [reflexivity |].
  intros [= Hhi Hlo E]. f_equal; [now apply hexPair_inj | now apply IH].
Qed.

Lemma hex_spec_take (k : nat) (l : list Byte.byte) :
  String.substring 0 (2 * k) (hex_spec l) = hex_spec (take k l).
Proof.
  unfold hex_spec. revert l. induction k as [|k IH]; intros l.
  - now destruct l.
  - destruct l as [|b l]; [reflexivity |].
    replace (2 * S k)%nat with (S (S (2 * k))) by lia.
    cbn [take flat_map app string_of_list_ascii String.substring]. now rewrite IH.
Qed.

(** The prefixes of two texts are equal exactly when their digests agree on
    the first 16 bytes. *)
Lemma prefix_spec_eq (host : Host) (x y : string) :
  prefix_spec host x = prefix_spec host y
  <-> take 16 (digest host "SHA-256" x) = take 16 (digest host "SHA-256" y).
Proof.
  unfold prefix_spec. change 32%nat with (2 * 16)%nat. rewrite !hex_spec_take.
  split; [apply hex_spec_inj | now intros ->].
Qed.

(** C10, amended. On any single File instance [getCssFilename] is
    idempotent: every later call returns the value of the first call,
    whatever the world has become. When the user has a non-empty uid, that
    value is the first 32 hexadecimal characters of SHA-256 of the salt
    concatenated with the uid, the same for every instance and every request
    of that user. When the uid is absent, the value is that of the salt
    concatenated with the clock reading of the first call, not of the
    creation: two instances whose first calls read the same clock have the
    same prefix, and two whose first calls read different clocks hash
    different texts, so that their prefixes are equal exactly when SHA-256
    agrees on these two texts in its first 16 bytes. *)
Theorem css_prefix_memoised (host : Host) (app : App) (s : File.St) :
  (forall data, length (digest host "SHA-256" data) = 32%nat) ->
  exists (v : string) (s' : File.St),
    File.getCssFilename host app s = (Returned v, s')
    /\ File.world s' = File.world s
    (* every later call on the same controller, whatever the world has
       become, returns the value of the first call *)
    /\ (forall w' : World,
          File.getCssFilename host app {| File.this := File.this s'; File.world := w' |}
          = (Returned v, {| File.this := File.this s'; File.world := w' |}))
    (* a user with a non-empty uid: the value is the same for every
       controller and every world *)
    /\ (forall uid, File.cssFilename (File.this s) = None ->
          File.u_uid (File.user (File.this s)) = VStr uid -> uid <> EmptyString ->
          v = prefix_spec host (hashSalt app +:+ uid)
          /\ forall s2 : File.St,
               File.cssFilename (File.this s2) = None ->
               File.u_uid (File.user (File.this s2)) = VStr uid ->
               fst (File.getCssFilename host app s2) = Returned v)
    (* no uid: the value is derived from the clock of this first call *)
    /\ (File.cssFilename (File.this s) = None ->
        truthy (File.u_uid (File.user (File.this s))) = false ->
        clockReading (clock (File.world s)) ->
        let text := hashSalt app +:+ JS.decimal (clock (File.world s)) in
        v = prefix_spec host text
        /\ forall s2 : File.St,
             File.cssFilename (File.this s2) = None ->
             truthy (File.u_uid (File.user (File.this s2))) = false ->
             clockReading (clock (File.world s2)) ->
             let text2 := hashSalt app +:+ JS.decimal (clock (File.world s2)) in
             exists v2,
               fst (File.getCssFilename host app s2) = Returned v2
               /\ (clock (File.world s2) = clock (File.world s) -> v2 = v)
               /\ (clock (File.world s2) <> clock (File.world s) ->
                   text2 <> text
                   /\ (v2 = v <-> take 16 (digest host "SHA-256" text2)
                                  = take 16 (digest host "SHA-256" text)))).
Proof.
  intros Hdigest.
  exists (cssNameOf host app (File.this s) (clock (File.world s))).
  eexists. split; [apply getCssFilename_run |].
  split; [now destruct s |]. split; [| split].
  - intros w'. rewrite getCssFilename_run.
    pose proof (cssNameOf_nonempty host app (File.this s) (clock (File.world s)) Hdigest) as Hne.
    destruct s as [[post0 user0 name0 ext0 hash0 init0 file0 css0] w0]. fields.
    unfold cssNameOf at 1 3. fields.
    rewrite (proj2 (String.eqb_neq _ _) Hne). reflexivity.
  - intros uid Hmemo Huid Hne.
    assert (E : forall f ms, File.cssFilename f = None -> File.u_uid (File.user f) = VStr uid ->
                  cssNameOf host app f ms = prefix_spec host (hashSalt app +:+ uid)).
    { intros f ms Hm Hu. unfold cssNameOf. rewrite Hm, Hu. cbn [truthy].
      rewrite (proj2 (String.eqb_neq _ _) Hne). apply shortHash_spec. }
    split; [now apply E |].
    intros s2 Hmemo2 Huid2. rewrite getCssFilename_run. cbn [fst].
    now rewrite !E.
  - intros Hmemo Hfalsy _ text.
    assert (E : forall f ms, File.cssFilename f = None ->
                  truthy (File.u_uid (File.user f)) = false ->
                  cssNameOf host app f ms
                  = prefix_spec host (hashSalt app +:+ JS.decimal ms)).
    { intros f ms Hm Hu. unfold cssNameOf. rewrite Hm, Hu. apply shortHash_spec. }
    split; [now apply E |].
    intros s2 Hmemo2 Hfalsy2 _ text2.
    rewrite getCssFilename_run. eexists. split; [reflexivity |].
    rewrite !E by assumption. fold text text2. split.
    + intros Hc. subst text text2. now rewrite Hc.
    + intros Hc. split; [| apply prefix_spec_eq].
      subst text text2. intros Exy. apply append_inv_head, decimal_inj in Exy. contradiction.
Qed.

Lemma css_prefix_memoised_witness :
  exists (v : string) (s' : File.St),
    File.getCssFilename Sample.host Sample.app
      {| File.this := File.new (Sample.mkPost "css" File.Absent (Some Sample.h40))
                        (Sample.mkUser 2 "u2");
         File.world := Sample.world [] |} = (Returned v, s')
    /\ File.getCssFilename Sample.host Sample.app s' = (Returned v, s').
Proof.
  destruct (css_prefix_memoised Sample.host Sample.app
              {| File.this := File.new (Sample.mkPost "css" File.Absent (Some Sample.h40))
                                (Sample.mkUser 2 "u2");
                 File.world := Sample.world [] |}) as (v & s' & E & Hw & Hmemo & _).
  - intros data. reflexivity.
  - exists v, s'. split; [exact E |].
    specialize (Hmemo (File.world s')). now destruct s'.
Defined.

(** C10, the claim as worded. Two controllers of the same anonymous context,
    created when the clock read 100000 and 150000, both call
    [getCssFilename] for the first time when it reads 200000: the value
    depends on the clock of the call, the constructor does not read the
    clock, and the two prefixes are the same. *)
Theorem created_at_different_times_differ_counterexample :
  ~ created_at_different_times_differ.
Proof.
  intros H.
  pose (born := fun ms : Z =>
          {| db := []; disk := ∅; folders := ∅; unwritable := ∅; purged := [];
             clock := ms; entropy := fun _ => Byte.xff; drawn := 0 |}).
  apply (H Sample.host Sample.app (Sample.mkPost "css" File.Absent (Some Sample.h40))
           {| File.u_id := VInt 2; File.u_uid := VNull |}
           (born 100000) (born 150000) (Sample.world []) (Sample.world [])
           (File.new (Sample.mkPost "css" File.Absent (Some Sample.h40))
              {| File.u_id := VInt 2; File.u_uid := VNull |})
           (File.new (Sample.mkPost "css" File.Absent (Some Sample.h40))
              {| File.u_id := VInt 2; File.u_uid := VNull |})).
  - intros data. reflexivity.
  - reflexivity.
  - reflexivity.
  - reflexivity.
  - discriminate.
  - cbn. lia.
  - cbn. lia.
  - reflexivity.
Qed.

(** ** Uploading an asset that is already stored *)

Lemma initFile_asset_found (host : Host) (app : App) (create : bool) (s s1 : File.St)
    (h : string) (row : gmap string value) :
  File.initialised (File.this s) = false ->
  File.hash (File.this s) = Some h ->
  File.badHash (Some h) = false ->
  File.checkPostFilenameAndExtension s = (Returned tt, s1) ->
  let ext := File.extension (File.this s1) in
  ext <> "html" -> ext <> "css" ->
  lookupByHash ext (VStr h) (db (File.world s)) = Some row ->
  Mapper.found row = true ->
  let name := File.text (get "filename" row) in
  File.initFile host app create s
  = (Returned (Some {| File.success := true;
                       File.url := Paths.displayUrl app name ext |}),
     File.on_this (fun f => File.with_filename name (File.with_file (Some row) f)) s1).
Proof.
  intros Hinit Hsome Hhash Hcheck ext Hnh Hnc Hrow Hfound name. subst ext.
  destruct (checkPost_frame _ _ _ Hcheck) as (Hw & _ & _ & Hh & _).
  unfold File.initFile. unfold_monad.
  rewrite Hinit, Hsome, Hhash, Hcheck.
  destruct s as [[post0 user0 name0 ext0 hash0 init0 file0 css0] w0].
  destruct s1 as [[post1 user1 name1 ext1 hash1 init1 file1 css1] w1].
  fields. subst.
  rewrite (proj2 (String.eqb_neq _ _) Hnh), (proj2 (String.eqb_neq _ _) Hnc).
  unfold File.fileLoad. fields. unfold File.hashValue in *. fields.
  rewrite load_byHash, Hrow. cbv beta iota delta [default id].
  unfold File.fileRow. fields. cbv beta iota delta [default id].
  rewrite Hfound.
  unfold File.returnSuccessUrl, File.getDisplayUrl, File.hydrate, File.or_else. fields.
  reflexivity.
Qed.

(** Whatever becomes of the request, the upload of an asset whose
    [(filetype, hash)] is already in the table writes the posted bytes over
    the stored file and purges its URLs, provided the path can be written. *)
Lemma upload_asset_found (host : Host) (app : App) (s s1 : File.St)
    (h : string) (row : gmap string value) :
  File.initialised (File.this s) = false ->
  File.hash (File.this s) = Some h ->
  File.badHash (Some h) = false ->
  File.checkPostFilenameAndExtension s = (Returned tt, s1) ->
  let ext := File.extension (File.this s1) in
  ext <> "html" -> ext <> "css" ->
  lookupByHash ext (VStr h) (db (File.world s)) = Some row ->
  Mapper.found row = true ->
  let name := File.text (get "filename" row) in
  let path := snd (Paths.fullFilePath app name ext) in
  path ∉ unwritable (File.world s) ->
  let s' := snd (File.upload host app s) in
  disk (File.world s') !! path = Some (File.p_content (File.post (File.this s)))
  /\ purged (File.world s')
     = (purged (File.world s)
          ++ [[Paths.displayUrl app name ext; Paths.fileUrl app name ext]])%list.
Proof.
  intros Hinit Hsome Hhash Hcheck ext Hnh Hnc Hrow Hfound name path Hok s'.
  subst s'. unfold File.upload. unfold_monad.
  rewrite (initFile_asset_found host app true s s1 h row Hinit Hsome Hhash Hcheck
             Hnh Hnc Hrow Hfound).
  destruct (checkPost_frame _ _ _ Hcheck) as (Hw & Hp & _).
  subst ext name path.
  unfold File.saveFile. unfold_monad.
  destruct s as [[post0 user0 name0 ext0 hash0 init0 file0 css0] w0].
  destruct s1 as [[post1 user1 name1 ext1 hash1 init1 file1 css1] w1].
  destruct w0 as [t0 d0 fo0 un0 pu0 cl0 en0 dr0].
  fields. subst.
  unfold File.getFullFilePath, File.getDisplayUrl, File.getFileUrl, File.hydrate,
    File.or_else. fields.
  destruct (Paths.fullFilePath app (File.text (get "filename" row)) ext1)
    as [folder filePath] eqn:Hpath.
  cbn [snd] in *.
  unfold Fs.ensureDir, Fs.writeFile. fields.
  destruct (bool_decide (folder ∈ fo0)); fields;
    rewrite bool_decide_false by exact Hok; fields.
  all: destruct (Mapper.save _ _) as [[[[|] row3] table']|].
  all: fields; cbn [snd]; unfold purgeCache; fields.
  all: split; [apply lookup_insert_eq | reflexivity].
Qed.

(** C1, at a failing input. User 2 uploads a png whose (filetype, hash) is
    the one of the stored row 1. [initFile] finds the row and returns its
    URL, but [upload] does not look at what [initFile] returns and goes on
    to [saveFile]: the posted bytes are written over the stored file, its
    URLs are purged and the row is updated (bytes, expires, updated). No
    second row is created and the URL returned is the existing one. *)
Theorem asset_reupload_writes_again :
  let row := Sample.mkRow 1 1 "aaaaaaaaaaaaaaaaaaaa" "png" Sample.h40 VNull in
  let s := {| File.this := File.new (Sample.mkPost "png" File.Absent (Some Sample.h40))
                             (Sample.mkUser 2 "u2");
              File.world := Sample.world [row] |} in
  let path := "/notesx/userfiles/files/aa/aaaaaaaaaaaaaaaaaaaa.png" in
  let link := "https://example.org/files/aa/aaaaaaaaaaaaaaaaaaaa.png" in
  let s' := snd (File.upload Sample.host Sample.app s) in
  lookupByHash "png" (VStr Sample.h40) (db (File.world s)) = Some row
  /\ fst (File.initFile Sample.host Sample.app true s)
     = Returned (Some {| File.success := true; File.url := link |})
  /\ fst (File.upload Sample.host Sample.app s)
     = Returned {| File.success := true; File.url := link |}
  /\ disk (File.world s) !! path = None
  /\ disk (File.world s') !! path = Some "xy"
  /\ purged (File.world s') = [[link; link]]
  /\ db (File.world s')
     = [Mapper.set [("bytes", VInt 2); ("expires", VInt 5000); ("updated", VInt 200)] row]
  /\ db (File.world s') <> db (File.world s).
Proof.
  repeat split; try (vm_compute; reflexivity).
  intros E. apply (f_equal (fun t => get "updated" <$> t)) in E.
  vm_compute in E. discriminate E.
Qed.

(** ** The expiry sweeper *)

(** Run on a receiver that is not the Cron object, the job stops at the
    first selected row, before anything is unlinked, purged or deleted. *)
Lemma deleteExpiredFiles_foreign (w : World) :
  Cron.deleteExpiredFiles Cron.Foreign w
  = (match List.filter (Cron.expired w) (db w) with
     | [] => Returned tt
     | _ :: _ => Thrown TypeError
     end, w).
Proof.
  unfold Cron.deleteExpiredFiles. unfold_monad.
  destruct (List.filter (Cron.expired w) (db w)) as [|file files]; reflexivity.
Qed.

Lemma sweepRow_instance (c : Cron.t) (file : gmap string value) (w : World) :
  Cron.sweepRow (Cron.Instance c) file w = (Returned tt, swept c file w).
Proof.
  unfold Cron.sweepRow, swept, linkOf, pathOf, Cron.unlink, Fs.unlink, Cron.thisPaths,
    Cron.thisApp.
  unfold_monad.
  set (path := snd (Paths.fullFilePath _ _ _)).
  destruct w as [t0 d0 fo0 un0 pu0 cl0 en0 dr0]. fields.
  destruct (d0 !! path) eqn:Hp; fields; unfold purgeCache; fields; [reflexivity |].
  now rewrite delete_id.
Qed.

Lemma forEach_instance (c : Cron.t) (files : list (gmap string value)) (w : World) :
  Cron.forEach (Cron.sweepRow (Cron.Instance c)) files w
  = (Returned tt, foldl (fun w' file => swept c file w') w files).
Proof.
  revert w. induction files as [|file files IH]; intros w; [reflexivity |].
  cbn [Cron.forEach foldl]. unfold_monad. rewrite sweepRow_instance. apply IH.
Qed.

Lemma swept_all_db (c : Cron.t) (files : list (gmap string value)) (w : World) :
  db (foldl (fun w' file => swept c file w') w files)
  = List.filter (fun r => negb (existsb (fun file => sql_eq (get "id" r) (get "id" file)) files))
      (db w).
Proof.
  revert w. induction files as [|file files IH]; intros w; cbn [foldl existsb].
  - induction (db w) as [|r t IHt]; [reflexivity |].
    cbn [List.filter negb]. now f_equal.
  - rewrite IH. unfold swept. destruct w as [t0 d0 fo0 un0 pu0 cl0 en0 dr0]. fields.
    unfold Cron.deleteById.
    induction t0 as [|r t IHt]; [reflexivity |].
    cbn [List.filter].
    destruct (sql_eq (get "id" r) (get "id" file)); cbn [negb orb List.filter].
    + exact IHt.
    + destruct (existsb _ files); cbn [negb]; now rewrite IHt.
Qed.

Lemma swept_all_purged (c : Cron.t) (files : list (gmap string value)) (w : World) :
  purged (foldl (fun w' file => swept c file w') w files)
  = (purged w ++ map (fun file => [linkOf c file]) files)%list.
Proof.
  revert w. induction files as [|file files IH]; intros w; cbn [foldl map].
  - now rewrite app_nil_r.
  - rewrite IH. unfold swept. destruct w. fields. now rewrite <- app_assoc.
Qed.

Lemma swept_all_disk (c : Cron.t) (files : list (gmap string value)) (w : World)
    (path : string) :
  disk w !! path = None
  \/ (exists file, In file files /\ pathOf c file = path) ->
  disk (foldl (fun w' file => swept c file w') w files) !! path = None.
Proof.
  revert w. induction files as [|file files IH]; intros w H; cbn [foldl].
  - destruct H as [H | (file & [] & _)]. exact H.
  - apply IH. unfold swept. destruct w. fields.
    destruct H as [H | (x & [<- | Hin] & Hx)].
    + left. rewrite lookup_delete. case_decide; [reflexivity | exact H].
    + left. rewrite Hx. apply lookup_delete_eq.
    + right. eauto.
Qed.

(** Run as a method of the Cron object, the job does what the design
    document says of a tick: it selects the rows whose [expires] is not null
    and earlier than the clock, and for each of them unlinks the file
    (ignoring its absence), hands the display URL to the purge collaborator
    and deletes the rows with the selected id; no other row is deleted. *)
Lemma deleteExpiredFiles_instance (c : Cron.t) (w : World) :
  let selected := List.filter (Cron.expired w) (db w) in
  exists w',
    Cron.deleteExpiredFiles (Cron.Instance c) w = (Returned tt, w')
    /\ db w' = List.filter
                 (fun r => negb (existsb (fun file => sql_eq (get "id" r) (get "id" file))
                                   selected)) (db w)
    /\ purged w' = (purged w ++ map (fun file => [linkOf c file]) selected)%list
    /\ (forall file, In file selected -> disk w' !! pathOf c file = None)
    /\ (forall r, In r (db w) -> Cron.expired w r = false ->
          (forall file, In file selected -> sql_eq (get "id" r) (get "id" file) = false) ->
          In r (db w')).
Proof.
  intros selected. unfold Cron.deleteExpiredFiles. unfold_monad. fold selected.
  rewrite forEach_instance. eexists. split; [reflexivity |].
  split; [apply swept_all_db |]. split; [apply swept_all_purged |]. split.
  - intros file Hin. apply swept_all_disk. right. eauto.
  - intros r Hin _ Hids. rewrite swept_all_db. apply filter_In. split; [exact Hin |].
    apply negb_true_iff, not_true_iff_false. intros Hex.
    apply existsb_exists in Hex as (file & Hf & E). rewrite (Hids file Hf) in E. discriminate.
Qed.

(** C4, at a failing input. The table holds an expired row and a row that
    never expires; the file of the first is on disk. The scheduled tick runs
    [deleteExpiredFiles] on a receiver that is not the Cron object: the
    TypeError of [this.paths] inside the try block is swallowed, the next one
    ends the job, and the expired row, its file and the cache are left as
    they were. Called as a method of the Cron object, the same function
    deletes the row and the file and purges the display URL, and keeps the
    other row. *)
Theorem sweeper_tick_aborts :
  let gone := Sample.mkRow 1 1 "abcdefgh" "html" Sample.h40 (VInt 10) in
  let kept := Sample.mkRow 2 1 "abcdefgi" "html" Sample.h40 VNull in
  let path := "/notesx/userfiles/notes/ab/abcdefgh.html" in
  let w := with_disk {[ path := "old" ]} (Sample.world [gone; kept]) in
  List.filter (Cron.expired w) (db w) = [gone]
  /\ Cron.tick Sample.app w = (Thrown TypeError, w)
  /\ In gone (db (snd (Cron.tick Sample.app w)))
  /\ disk (snd (Cron.tick Sample.app w)) !! path = Some "old"
  /\ purged (snd (Cron.tick Sample.app w)) = []
  /\ (let w' := snd (Cron.deleteExpiredFiles (Cron.Instance (fst (Cron.new Sample.app))) w) in
      db w' = [kept] /\ disk w' !! path = None
      /\ purged w' = [["https://example.org/abcdefgh"]]).
Proof.
  intros gone kept path w.
  assert (Hsel : List.filter (Cron.expired w) (db w) = [gone]) by (vm_compute; reflexivity).
  assert (Htick : Cron.tick Sample.app w = (Thrown TypeError, w)).
  { unfold Cron.tick, Cron.new. cbn [snd]. now rewrite deleteExpiredFiles_foreign, Hsel. }
  split; [exact Hsel |]. split; [exact Htick |]. rewrite Htick. cbn [snd].
  split; [left; reflexivity |].
  split; [vm_compute; reflexivity |]. split; [reflexivity |].
  repeat split; vm_compute; reflexivity.
Qed.

(** * Further properties *)

Lemma strip_outside_in_class (cls : ascii -> bool) (s : string) :
  JS.forallb_string cls (JS.strip_outside cls s) = true.
Proof.
  induction s as [|c s IH]; [reflexivity |].
  cbn [JS.strip_outside]. destruct (cls c) eqn:Hc; [| exact IH].
  cbn [JS.forallb_string]. now rewrite Hc, IH.
Qed.

Lemma strip_outside_fixed (cls : ascii -> bool) (s : string) :
  JS.forallb_string cls s = true -> JS.strip_outside cls s = s.
Proof.
  induction s as [|c s IH]; [reflexivity |].
  cbn [JS.forallb_string JS.strip_outside]. intros H.
  apply andb_true_iff in H as [Hc Hs]. now rewrite Hc, IH.
Qed.

Lemma queryBuilder_cons (k : string) (v : value) (params : list (string * value)) :
  Mapper.queryBuilder ((k, v) :: params)
  = let k' := JS.strip_outside JS.is_lower_underscore k in
    if String.eqb k' EmptyString then Mapper.queryBuilder params
    else (k', v) :: Mapper.queryBuilder params.
Proof.
  unfold Mapper.queryBuilder. cbn [omap list_omap].
  now destruct (String.eqb _ EmptyString).
Qed.

Lemma queryBuilder_clean (params : list (string * value)) :
  Forall (fun kv => cleanName (fst kv) = true) params ->
  Mapper.queryBuilder params = params.
Proof.
  induction 1 as [|[k v] params Hk _ IH]; [reflexivity |].
  rewrite queryBuilder_cons. cbn [fst] in Hk. unfold cleanName in Hk.
  apply andb_true_iff in Hk as [Hne Hcls].
  cbv zeta. rewrite (strip_outside_fixed _ _ Hcls).
  apply negb_true_iff in Hne. now rewrite Hne, IH.
Qed.

Lemma queryBuilder_names (params : list (string * value)) :
  Forall (fun kv => cleanName (fst kv) = true) (Mapper.queryBuilder params).
Proof.
  induction params as [|[k v] params IH]; [constructor |].
  rewrite queryBuilder_cons. cbv zeta.
  destruct (String.eqb _ EmptyString) eqn:He; [exact IH |].
  constructor; [| exact IH]. cbn [fst]. unfold cleanName.
  now rewrite He, strip_outside_in_class.
Qed.

Lemma queryBuilder_placeholders (params : list (string * value)) :
  fst <$> Mapper.queryBuilder params = placeholders params.
Proof.
  unfold placeholders.
  induction params as [|[k v] params IH]; [reflexivity |].
  rewrite queryBuilder_cons. cbv zeta. rewrite fmap_cons. cbn [List.filter fst].
  destruct (String.eqb _ EmptyString); cbn [negb]; [exact IH |].
  rewrite fmap_cons. cbn [fst]. now rewrite IH.
Qed.

(** X1. For parameters no two of whose names are sanitised to the same
    non-empty name, [queryBuilder] writes one placeholder and keeps one bind
    for each entry whose name holds a character of [a-z_], in the order of
    the entries: the names are the sanitised ones, each non-empty and within
    [a-z_], the binds are the values of these entries, there are never more
    of them than entries, and parameters whose names are within [a-z_]
    already are taken as they are. *)
Theorem queryBuilder_sanitised (params : list (string * value)) :
  NoDup (placeholders params) ->
  fst <$> Mapper.queryBuilder params = placeholders params
  /\ Forall (fun k => cleanName k = true) (placeholders params)
  /\ snd <$> Mapper.queryBuilder params
     = snd <$> List.filter
                 (fun kv => negb (String.eqb (JS.strip_outside JS.is_lower_underscore (fst kv))
                                    EmptyString)) params
  /\ (length (Mapper.queryBuilder params) <= length params)%nat
  /\ (Forall (fun kv => cleanName (fst kv) = true) params ->
      Mapper.queryBuilder params = params).
Proof.
  intros _.
  split; [apply queryBuilder_placeholders |].
  split.
  { rewrite <- queryBuilder_placeholders. apply Forall_fmap.
    exact (queryBuilder_names params). }
  split; [| split; [| apply queryBuilder_clean]].
  - induction params as [|[k v] params IH]; [reflexivity |].
    rewrite queryBuilder_cons. cbv zeta. cbn [List.filter fst].
    destruct (String.eqb _ _); cbn [negb]; [exact IH |].
    rewrite !fmap_cons. now rewrite IH.
  - induction params as [|[k v] params IH]; [reflexivity |].
    rewrite queryBuilder_cons. cbv zeta. destruct (String.eqb _ _); cbn [length]; lia.
Qed.

Lemma queryBuilder_sanitised_witness :
  let params := [("filename", VStr "a"); ("File Type!", VStr "b"); ("123", VInt 1)] in
  fst <$> Mapper.queryBuilder params = ["filename"; "ileype"]
  /\ snd <$> Mapper.queryBuilder params = [VStr "a"; VStr "b"].
Proof.
  intros params.
  destruct (queryBuilder_sanitised params) as (Hnames & _ & Hbinds & _).
  - apply (bool_decide_unpack _). vm_compute. exact I.
  - split; [exact Hnames | exact Hbinds].
Defined.

(** X2. For parameters that make a statement SQLite runs - some name is left
    by the sanitiser, no two names are sanitised to the same, every name is
    a column and every bind is of the kind of its column: a text for the
    filename, the filetype or the hash, an integer for the id, or null -
    [load] answers with the first row of the table that
    satisfies every condition of the sanitised parameters, no row before it
    does, and, when no row does, with the empty row: the keys of the row
    object, all null, which reads as not found. *)
Theorem load_sound (params : list (string * value)) (table : list (gmap string value))
    (row : gmap string value) :
  runnable params ->
  let q := Mapper.queryBuilder params in
  let r := Mapper.load params table row in
  fst <$> q = placeholders params
  /\ ((exists before after,
         table = (before ++ r :: after)%list
         /\ Mapper.selects q r = true
         /\ Forall (fun x => Mapper.selects q x = false) before)
      \/ (r = Mapper.emptyRow row
          /\ Mapper.notFound r = true
          /\ dom r = dom row
          /\ Forall (fun x => Mapper.selects q x = false) table)).
Proof.
  intros _ q r. split; [apply queryBuilder_placeholders |].
  subst r. unfold Mapper.load. fold q.
  induction table as [|x table IH]; cbn [List.find].
  - right. split; [reflexivity |]. split; [| split; [| constructor]].
    + unfold Mapper.notFound. fold (Mapper.found (Mapper.emptyRow row)).
      now rewrite found_emptyRow.
    + unfold Mapper.emptyRow. apply dom_fmap_L.
  - destruct (Mapper.selects q x) eqn:Hx.
    + left. exists [], table. split; [reflexivity |]. split; [exact Hx | constructor].
    + destruct IH as [(before & after & E & Hs & Hb) | (E & Hn & Hd & Hall)].
      * left. exists (x :: before), after. split; [now rewrite E at 1 |].
        split; [exact Hs |]. constructor; assumption.
      * right. split; [exact E |]. split; [exact Hn |]. split; [exact Hd |].
        constructor; assumption.
Qed.

Lemma load_sound_witness :
  let params := [("filename", VStr "abc"); ("filetype", VStr "html")] in
  let table := [Sample.mkRow 1 1 "abd" "html" Sample.h40 VNull;
                Sample.mkRow 2 1 "abc" "html" Sample.h40 VNull] in
  let r := Mapper.load params table Mapper.init in
  (exists before after,
      table = (before ++ r :: after)%list
      /\ Mapper.selects (Mapper.queryBuilder params) r = true
      /\ Forall (fun x => Mapper.selects (Mapper.queryBuilder params) x = false) before)
  \/ (r = Mapper.emptyRow Mapper.init
      /\ Mapper.notFound r = true
      /\ dom r = dom Mapper.init
      /\ Forall (fun x => Mapper.selects (Mapper.queryBuilder params) x = false) table).
Proof.
  intros params table r.
  apply (load_sound params table Mapper.init).
  split; [discriminate |]. split; [| split].
  - apply (bool_decide_unpack _). vm_compute. exact I.
  - apply (bool_decide_unpack _). vm_compute. exact I.
  - repeat constructor; right; apply list_elem_of_In; cbn; tauto.
Defined.

Lemma set_app (p1 p2 : list (string * value)) (row : gmap string value) :
  Mapper.set (p1 ++ p2) row = Mapper.set p2 (Mapper.set p1 row).
Proof. unfold Mapper.set. apply foldl_app. Qed.

Lemma set_lookup (params : list (string * value)) (row : gmap string value) (k : string) :
  NoDup (fst <$> params) ->
  Mapper.set params row !! k
  = match (list_to_map params : gmap string value) !! k with
    | Some v => Some v
    | None => row !! k
    end.
Proof.
  revert row. induction params as [|[k0 v0] params IH]; intros row Hnd; [reflexivity |].
  rewrite fmap_cons in Hnd. apply NoDup_cons in Hnd as [Hk0 Hnd].
  change (Mapper.set ((k0, v0) :: params) row) with (Mapper.set params (<[k0 := v0]> row)).
  rewrite IH by exact Hnd. cbn [list_to_map foldr]. 
  destruct (decide (k = k0)) as [-> | Hne].
  - rewrite (not_elem_of_list_to_map_1 _ _ Hk0). now rewrite !lookup_insert_eq.
  - rewrite !(lookup_insert_ne _ k0 k) by congruence. reflexivity.
Qed.

(** With field names that are clean, [set] over the entries of a row
    object is the union of that object with the row. *)
Lemma set_entries (m row : gmap string value) :
  map_Forall (fun k _ => cleanName k = true) m ->
  Mapper.set (Mapper.queryBuilder (map_to_list m)) row = m ∪ row.
Proof.
  intros Hm. rewrite queryBuilder_clean.
  2: { apply Forall_forall. intros [k v] Hin. apply elem_of_map_to_list in Hin.
       exact (Hm k v Hin). }
  apply map_eq. intros k. rewrite set_lookup by apply NoDup_fst_map_to_list.
  rewrite list_to_map_to_list, lookup_union.
  destruct (m !! k), (row !! k); reflexivity.
Qed.

Lemma lastId_bound (table : list (gmap string value)) :
  0 <= Mapper.lastId table
  /\ forall r i, In r table -> get "id" r = VInt i -> i <= Mapper.lastId table.
Proof.
  induction table as [|x table [IH0 IH]]; [split; [reflexivity | intros ? ? []] |].
  cbn [Mapper.lastId foldr]. fold (Mapper.lastId table).
  split.
  - destruct (get "id" x); lia.
  - intros r i [<- | Hin] Hi.
    + rewrite Hi. lia.
    + specialize (IH r i Hin Hi). destruct (get "id" x); lia.
Qed.

Lemma fresh_id (table : list (gmap string value)) (r : gmap string value) :
  In r table -> sql_eq (get "id" r) (VInt (Mapper.lastId table + 1)) = false.
Proof.
  intros Hin. destruct (get "id" r) as [|i|] eqn:Hi; try reflexivity.
  cbn. destruct (lastId_bound table) as [_ H]. specialize (H r i Hin Hi). lia.
Qed.

Lemma rowObject_clean (row : gmap string value) :
  rowObject row -> map_Forall (fun k _ => cleanName k = true) row.
Proof.
  intros Hd k v Hk.
  assert (Hin : k ∈ dom Mapper.init) by (rewrite <- Hd; apply elem_of_dom; eauto).
  apply elem_of_dom in Hin as [x Hx]. unfold Mapper.init in Hx.
  apply elem_of_list_to_map_2, list_elem_of_In in Hx. cbn in Hx.
  repeat (destruct Hx as [[= <- _] | Hx]; [reflexivity |]). destruct Hx.
Qed.

Lemma rowObject_union (row : gmap string value) : rowObject row -> row ∪ Mapper.init = row.
Proof.
  intros Hd. apply map_eq. intros k. rewrite lookup_union.
  destruct (row !! k) eqn:E; [now destruct (Mapper.init !! k) |].
  apply not_elem_of_dom in E. rewrite Hd in E. apply not_elem_of_dom in E. now rewrite E.
Qed.

Lemma rowids_below (table : list (gmap string value)) :
  rowids table ->
  Forall (fun r => exists i, get "id" r = VInt i /\ 0 < i < Mapper.lastId table + 1) table.
Proof.
  intros H. apply Forall_forall. intros r Hr.
  destruct (proj1 (Forall_forall _ _) H r Hr) as (i & Hi & Hpos & _).
  exists i. split; [exact Hi |]. split; [exact Hpos |].
  destruct (lastId_bound table) as [_ Hb].
  specialize (Hb r i (proj1 (list_elem_of_In _ _) Hr) Hi). lia.
Qed.

Lemma save_null_id (row : gmap string value) (table : list (gmap string value)) :
  get "id" row = VNull ->
  map_Forall (fun k _ => cleanName k = true) row ->
  Mapper.save row table
  = Some (true, <["id" := VInt (Mapper.lastId table + 1)]> row,
          (table ++ [<["id" := VInt (Mapper.lastId table + 1)]> (row ∪ Mapper.init)])%list).
Proof.
  intros Hid Hclean. unfold Mapper.save. rewrite Hid. cbn [truthy]. cbv beta iota zeta.
  now rewrite set_entries by exact Hclean.
Qed.

(** X3. [save] of a row object as the engine holds it - a field for each
    column - whose id is null, into a table whose ids are rowids, is an
    INSERT: it succeeds, appends one row to the table, which is the row
    object with its new id, and leaves the rows before it as they were; the
    id is positive, so that the object reads as found, and larger than every
    id of the table, so that no other row has it. *)
Theorem save_insert (row : gmap string value) (table : list (gmap string value)) :
  rowObject row ->
  get "id" row = VNull ->
  rowids table ->
  exists id,
    Mapper.save row table
    = Some (true, <["id" := VInt id]> row, (table ++ [<["id" := VInt id]> row])%list)
    /\ 0 < id
    /\ Mapper.found (<["id" := VInt id]> row) = true
    /\ Forall (fun r => exists i, get "id" r = VInt i /\ 0 < i < id) table
    /\ Forall (fun r => sql_eq (get "id" r) (VInt id) = false) table.
Proof.
  intros Hrow Hid Hids. exists (Mapper.lastId table + 1).
  rewrite (save_null_id row table Hid (rowObject_clean row Hrow)).
  rewrite (rowObject_union row Hrow).
  destruct (lastId_bound table) as [H0 _].
  split; [reflexivity |]. split; [lia |]. split; [| split].
  - unfold Mapper.found, get. rewrite lookup_insert_eq. cbn [default id truthy].
    apply negb_true_iff, Z.eqb_neq. lia.
  - exact (rowids_below table Hids).
  - apply Forall_forall. intros r Hin. apply fresh_id. now apply list_elem_of_In.
Qed.

Lemma save_insert_witness :
  let row := <["id" := VNull]> (Sample.mkRow 0 1 "abc" "html" Sample.h40 VNull) in
  let table := [Sample.mkRow 4 1 "abd" "html" Sample.h40 VNull] in
  exists id,
    Mapper.save row table
    = Some (true, <["id" := VInt id]> row, (table ++ [<["id" := VInt id]> row])%list)
    /\ 0 < id.
Proof.
  intros row table.
  destruct (save_insert row table) as (id & E & Hpos & _).
  - apply (bool_decide_unpack _). vm_compute. exact I.
  - reflexivity.
  - repeat constructor. exists 4. split; [reflexivity | lia].
  - exists id. split; [exact E | exact Hpos].
Defined.

Lemma clean_id_deleted (row : gmap string value) :
  map_Forall (fun k _ => cleanName k = true) row ->
  map_Forall (fun k _ => cleanName k = true) (delete "id" row).
Proof. intros H k v Hk. apply lookup_delete_Some in Hk as [_ Hk]. exact (H k v Hk). Qed.

(** With an id that is truthy and field names that are clean, [save] is an
    UPDATE of the rows with that id. *)
Lemma save_truthy_id (row : gmap string value) (table : list (gmap string value)) :
  truthy (get "id" row) = true ->
  map_Forall (fun k _ => cleanName k = true) row ->
  Mapper.save row table
  = Some (existsb (fun r => sql_eq (get "id" r) (get "id" row)) table, row, updatedBy row table).
Proof.
  intros Hid Hclean. unfold Mapper.save, updatedBy. rewrite Hid. cbv zeta.
  do 2 f_equal. apply list_fmap_ext. intros i r _.
  now rewrite set_entries by (apply clean_id_deleted, Hclean).
Qed.

(** X4. [save] of a row object as the engine holds it - a field for each
    column - whose id is an integer other than zero is an UPDATE keyed by
    the id: the row object is unchanged, the table keeps its length, a row
    with another id is untouched, a row with that id takes every field of
    the row object except the id, and the result tells whether some row had
    the id. *)
Theorem save_update (row : gmap string value) (table : list (gmap string value)) (i : Z) :
  rowObject row ->
  get "id" row = VInt i ->
  i <> 0 ->
  let hit r := sql_eq (get "id" r) (VInt i) in
  exists table',
    Mapper.save row table = Some (existsb hit table, row, table')
    /\ length table' = length table
    /\ table' = (fun r => if hit r then delete "id" row ∪ r else r) <$> table
    /\ Forall (fun r' => hit r' = true -> forall k v, k <> "id" -> row !! k = Some v ->
                          r' !! k = Some v) table'.
Proof.
  intros Hrow Hid Hi hit.
  exists ((fun r => if hit r then delete "id" row ∪ r else r) <$> table).
  rewrite (save_truthy_id row table).
  2: { rewrite Hid. cbn. now apply negb_true_iff, Z.eqb_neq. }
  2: { exact (rowObject_clean row Hrow). }
  unfold updatedBy. rewrite Hid. fold hit.
  split; [reflexivity |]. split; [now rewrite length_fmap |]. split; [reflexivity |].
  apply Forall_fmap, Forall_forall. intros r _. cbn.
  destruct (hit r) eqn:Hr; [| congruence].
  intros _ k v Hk Hv. apply lookup_union_Some_raw. left.
  now rewrite lookup_delete_ne by congruence.
Qed.

Lemma save_update_witness :
  let row := Sample.mkRow 1 1 "abc" "html" Sample.h40 (VInt 9) in
  let table := [Sample.mkRow 1 1 "abc" "html" Sample.h40 VNull;
                Sample.mkRow 2 1 "abd" "html" Sample.h40 VNull] in
  exists table',
    Mapper.save row table = Some (true, row, table')
    /\ table' = [row; Sample.mkRow 2 1 "abd" "html" Sample.h40 VNull].
Proof.
  intros row table.
  destruct (save_update row table 1) as (table' & E & _ & Ht & _).
  - apply (bool_decide_unpack _). vm_compute. exact I.
  - reflexivity.
  - discriminate.
  - exists table'. split; [exact E |]. rewrite Ht.
    apply (bool_decide_unpack _). vm_compute. exact I.
Defined.

Lemma find_last {A} (p : A -> bool) (l : list A) (y : A) :
  Forall (fun x => p x = false) l -> p y = true -> List.find p (l ++ [y]) = Some y.
Proof.
  intros Hl Hy. induction Hl as [|x l Hx _ IH]; cbn; [now rewrite Hy | now rewrite Hx].
Qed.

(** X5. A row object as the engine holds it, saved without id into a table
    whose ids are rowids, is found again by a [load] on the id that [save]
    assigned to it, whatever the row object that loads held before: the row
    loaded is the saved object, with that id and every field it held. *)
Theorem insert_then_load (row other : gmap string value) (table : list (gmap string value)) :
  rowObject row ->
  get "id" row = VNull ->
  rowids table ->
  exists id row' table',
    Mapper.save row table = Some (true, row', table')
    /\ get "id" row' = VInt id
    /\ Mapper.load [("id", VInt id)] table' other = row'
    /\ Mapper.found (Mapper.load [("id", VInt id)] table' other) = true
    /\ forall k v, k <> "id" -> row !! k = Some v ->
         Mapper.load [("id", VInt id)] table' other !! k = Some v.
Proof.
  intros Hrow Hid Hids.
  set (id := Mapper.lastId table + 1).
  set (inserted := <["id" := VInt id]> row).
  exists id, inserted, (table ++ [inserted])%list.
  assert (Hload : Mapper.load [("id", VInt id)] (table ++ [inserted]) other = inserted).
  { unfold Mapper.load.
    change (Mapper.queryBuilder [("id", VInt id)]) with [("id", VInt id)].
    rewrite (find_last _ table inserted); [reflexivity | |].
    - apply Forall_forall. intros r Hin. cbn. rewrite andb_true_r.
      apply fresh_id. now apply list_elem_of_In.
    - cbn. unfold inserted, get. rewrite lookup_insert_eq. cbn. now rewrite Z.eqb_refl. }
  rewrite Hload. split; [| split; [| split; [| split]]].
  - rewrite (save_null_id row table Hid (rowObject_clean row Hrow)).
    now rewrite (rowObject_union row Hrow).
  - unfold inserted, get. now rewrite lookup_insert_eq.
  - reflexivity.
  - unfold Mapper.found, inserted, get. rewrite lookup_insert_eq. cbn [default id truthy].
    destruct (lastId_bound table) as [H _]. apply negb_true_iff, Z.eqb_neq. unfold id. lia.
  - intros k v Hk Hv. unfold inserted. now rewrite lookup_insert_ne by congruence.
Qed.

Lemma insert_then_load_witness :
  let row := <["id" := VNull]> (Sample.mkRow 0 1 "abc" "html" Sample.h40 VNull) in
  exists id row' table',
    Mapper.save row [] = Some (true, row', table')
    /\ Mapper.load [("id", VInt id)] table' Mapper.init !! "hash" = Some (VStr Sample.h40).
Proof.
  intros row.
  destruct (insert_then_load row Mapper.init [])
    as (id & row' & table' & E & _ & _ & _ & H).
  - apply (bool_decide_unpack _). vm_compute. exact I.
  - reflexivity.
  - constructor.
  - exists id, row', table'. split; [exact E |]. now apply H.
Defined.

(** ** A small program logic for the monad *)

Section Hoare.
Context {S : Type}.

Lemma hoare_ret {A} (P : S -> Prop) (a : A) (Q : A -> S -> Prop) E :
  (forall s, P s -> Q a s) -> hoare P (mret a) Q E.
Proof. intros H s Hs. exact (H s Hs). Qed.

Lemma hoare_throw {A} (P : S -> Prop) (e : Exn) (Q : A -> S -> Prop) (E : Exn -> S -> Prop) :
  (forall s, P s -> E e s) -> hoare P (throw e) Q E.
Proof. intros H s Hs. exact (H s Hs). Qed.

Lemma hoare_bind {A B} (P : S -> Prop) (m : M S A) (f : A -> M S B)
    (R : A -> S -> Prop) (Q : B -> S -> Prop) E :
  hoare P m R E -> (forall a, hoare (R a) (f a) Q E) -> hoare P (m ≫= f) Q E.
Proof.
  intros Hm Hf s Hs. specialize (Hm s Hs). unfold mbind, M_bind.
  destruct (m s) as [[a|e] s']; [exact (Hf a s' Hm) | exact Hm].
Qed.

Lemma hoare_gets {A} (P : S -> Prop) (g : S -> A) (Q : A -> S -> Prop) E :
  (forall s, P s -> Q (g s) s) -> hoare P (gets g) Q E.
Proof. intros H s Hs. exact (H s Hs). Qed.

Lemma hoare_pure {A} (P : S -> Prop) (fact : Prop) (m : M S A) (Q : A -> S -> Prop) E :
  (fact -> hoare P m Q E) -> hoare (fun s => P s /\ fact) m Q E.
Proof. intros H s [Hs Hf]. exact (H Hf s Hs). Qed.

Lemma hoare_modify (P : S -> Prop) (g : S -> S) (Q : unit -> S -> Prop) E :
  (forall s, P s -> Q tt (g s)) -> hoare P (modify g) Q E.
Proof. intros H s Hs. exact (H s Hs). Qed.
End Hoare.

Lemma sameStore_refl (w : World) : sameStore w w.
Proof. repeat split; reflexivity. Qed.

Lemma sameStore_drawn (w0 w : World) (n : nat) :
  sameStore w0 w -> sameStore w0 (with_drawn (drawn w + n) w).
Proof.
  unfold sameStore. destruct w, w0. cbn.
  intros (H1 & H2 & H3 & H4 & H5 & H6 & H7 & H8).
  repeat split; try assumption. lia.
Qed.

Section Keeps.
Context (host : Host) (app : App) (w0 : World).

Abbreviation keeps m := (hoare (inStore w0) m (fun _ => inStore w0) (fun _ => inStore w0)).

Lemma keeps_on_this (g : File.t -> File.t) : keeps (modify (File.on_this g)).
Proof. apply hoare_modify. intros s Hs. exact Hs. Qed.

Lemma keeps_gets {A} (g : File.St -> A) : keeps (gets g).
Proof. apply hoare_gets. intros s Hs. exact Hs. Qed.

Lemma keeps_throw {A} (e : Exn) :
  hoare (inStore w0) (throw e : M File.St A) (fun _ => inStore w0) (fun _ => inStore w0).
Proof. apply hoare_throw. intros s Hs. exact Hs. Qed.

Lemma keeps_checkPost : keeps File.checkPostFilenameAndExtension.
Proof.
  intros s Hs. destruct (File.checkPostFilenameAndExtension s) as [r s1] eqn:E.
  destruct (checkPost_frame _ _ _ E) as (Hw & _).
  unfold inStore in *. rewrite Hw. now destruct r.
Qed.

Lemma keeps_fileLoad (params : list (string * value)) : keeps (File.fileLoad params).
Proof.
  intros s Hs. unfold File.fileLoad. destruct (File.file (File.this s)); exact Hs.
Qed.

Lemma keeps_getHashFilename (ext : string) : keeps (File.getHashFilename ext).
Proof.
  intros s Hs. unfold File.getHashFilename, File.getRandomValues. unfold_monad.
  unfold inStore in *. cbn [File.world File.on_world]. now apply sameStore_drawn.
Qed.

Lemma keeps_getCssFilename : keeps (File.getCssFilename host app).
Proof. intros s Hs. rewrite getCssFilename_run. exact Hs. Qed.
End Keeps.

Ltac hoare_leaf w0 :=
  first
    [ apply keeps_on_this | apply keeps_gets | apply keeps_throw | apply keeps_checkPost
    | apply keeps_fileLoad | apply keeps_getHashFilename | apply keeps_getCssFilename
    | apply hoare_ret; intros ? ?; first [assumption | split; [assumption | discriminate]]
    | apply hoare_throw; intros ? ?; assumption ].

Ltac hoare_step w0 :=
  lazymatch goal with
  | |- hoare _ (mbind _ (modify (File.on_this (File.with_initialised true)))) _ _ =>
      intros ? ?; split; [assumption | reflexivity]
  | |- hoare _ (mbind _ _) _ _ =>
      eapply (hoare_bind _ _ _ (fun _ => inStore w0)); [| intros ?]
  | |- hoare _ (if ?b then _ else _) _ _ => destruct b
  | |- hoare _ (match ?x with Some _ => _ | None => _ end) _ _ => destruct x
  | |- _ => hoare_leaf w0
  end.

Lemma initFile_resolved (host : Host) (app : App) (create : bool) (w0 : World) :
  hoare (fun s => inStore w0 s /\ File.initialised (File.this s) = false)
    (File.initFile host app create) (resolved w0) (fun _ => inStore w0).
Proof.
  unfold File.initFile.
  eapply (hoare_bind _ _ _ (fun a s => inStore w0 s /\ a = false)).
  { apply hoare_gets. intros s [Hs Hi]. split; [exact Hs | exact Hi]. }
  intros done. apply hoare_pure. intros ->.
  repeat hoare_step w0.
Qed.

(** X6. Identity resolution performs no storage work: whatever [initFile]
    returns or throws, the table, the disk, the folders, the purge log and
    the clock are as they were; of the world it can only draw random
    bytes. *)
Theorem initFile_keeps_store (host : Host) (app : App) (create : bool) (s : File.St) :
  sameStore (File.world s) (File.world (snd (File.initFile host app create s))).
Proof.
  destruct (File.initialised (File.this s)) eqn:Hi.
  - unfold File.initFile. unfold_monad. rewrite Hi. apply sameStore_refl.
  - pose proof (initFile_resolved host app create (File.world s) s
                  (conj (sameStore_refl _) Hi)) as H.
    destruct (File.initFile host app create s) as [[r|e] s']; [apply H | exact H].
Qed.

(** X7. Once [initFile] has returned [undefined], every later call on the
    same controller, with either value of [createIfNotExist], returns
    [undefined] at once and changes neither controller nor world. *)
Theorem initFile_once (host : Host) (app : App) (create again : bool) (s s' : File.St) :
  File.initFile host app create s = (Returned None, s') ->
  File.initFile host app again s' = (Returned None, s').
Proof.
  intros E.
  assert (Hi : File.initialised (File.this s') = true).
  { destruct (File.initialised (File.this s)) eqn:Hi.
    - unfold File.initFile in E. unfold_monad. rewrite Hi in E. now injection E as <-.
    - pose proof (initFile_resolved host app create (File.world s) s
                    (conj (sameStore_refl _) Hi)) as H.
      rewrite E in H. now apply H. }
  unfold File.initFile. unfold_monad. now rewrite Hi.
Qed.

Lemma initFile_once_witness :
  let s := {| File.this := File.new (Sample.mkPost "css" File.Absent (Some Sample.h40))
                             (Sample.mkUser 2 "u2");
              File.world := Sample.world [] |} in
  let s' := snd (File.initFile Sample.host Sample.app true s) in
  File.initFile Sample.host Sample.app false s' = (Returned None, s').
Proof.
  intros s s'.
  apply (initFile_once Sample.host Sample.app true false s s'). reflexivity.
Defined.

(** ** Uploading an asset that is not stored yet *)

Lemma whitelisted_asset_length (ext : string) :
  In ext fileExtensionWhitelist -> ext <> "html" ->
  (if String.eqb ext "html" then 8%nat else 20%nat) = 20%nat.
Proof. intros _ H. now rewrite (proj2 (String.eqb_neq _ _) H). Qed.

Lemma initFile_asset_new (host : Host) (app : App) (s s1 : File.St) (h : string) :
  File.initialised (File.this s) = false ->
  File.hash (File.this s) = Some h ->
  File.badHash (Some h) = false ->
  File.checkPostFilenameAndExtension s = (Returned tt, s1) ->
  let ext := File.extension (File.this s1) in
  ext <> "html" -> ext <> "css" ->
  lookupByHash ext (VStr h) (db (File.world s)) = None ->
  File.initFile host app true s
  = (Returned None,
     File.on_world (with_drawn (drawn (File.world s) + 20))
       (File.on_this (fun f =>
          File.with_initialised true
            (File.with_filename (nextAssetName (File.world s))
               (File.with_file (Some (Mapper.emptyRow Mapper.init)) f))) s1)).
Proof.
  intros Hinit Hsome Hhash Hcheck ext Hnh Hnc Hnone. subst ext.
  destruct (checkPost_frame _ _ _ Hcheck) as (Hw & _ & _ & Hh & _).
  destruct (checkPost_passed _ _ Hcheck) as (Hwl & _).
  unfold File.initFile. unfold_monad.
  rewrite Hinit, Hsome, Hhash, Hcheck.
  destruct s as [[post0 user0 name0 ext0 hash0 init0 file0 css0] w0].
  destruct s1 as [[post1 user1 name1 ext1 hash1 init1 file1 css1] w1].
  fields. subst.
  rewrite (proj2 (String.eqb_neq _ _) Hnh), (proj2 (String.eqb_neq _ _) Hnc).
  unfold File.fileLoad. fields. unfold File.hashValue in *. fields.
  rewrite load_byHash, Hnone. cbv beta iota delta [default id].
  unfold File.fileRow. fields. cbv beta iota delta [default id].
  rewrite found_emptyRow. cbv beta iota delta [negb].
  rewrite (getHashFilename_whitelisted ext1 _ Hwl).
  rewrite (proj2 (String.eqb_neq _ _) Hnh). fields. reflexivity.
Qed.










Lemma whitelisted_nonempty (ext : string) : In ext fileExtensionWhitelist -> ext <> EmptyString.
Proof.
  unfold fileExtensionWhitelist. cbn [In]. intros H ->.
  repeat (destruct H as [H | H]; [discriminate H |]). exact H.
Qed.




(** ** Deleting a document as its owner *)

Lemma deleteHtml_lookup (name : string) (table : list (gmap string value)) :
  lookupByName name "html" (File.deleteHtml name table) = None.
Proof.
  unfold lookupByName, File.deleteHtml.
  induction table as [|r table IH]; [reflexivity |].
  cbn [List.filter].
  destruct (sql_eq (get "filetype" r) (VStr "html") && sql_eq (get "filename" r) (VStr name))
    eqn:E; cbn [negb]; [exact IH |].
  cbn [List.find]. rewrite IH.
  replace (Mapper.selects _ r) with false; [reflexivity |].
  cbn [Mapper.selects forallb]. rewrite andb_true_r.
  symmetry. rewrite andb_comm. exact E.
Qed.

Lemma deleteHtml_others (name : string) (table : list (gmap string value)) :
  List.filter (fun r => negb (Mapper.selects [("filename", VStr name); ("filetype", VStr "html")] r))
    table
  = File.deleteHtml name table.
Proof.
  unfold File.deleteHtml. apply filter_ext. intros r.
  cbn [Mapper.selects forallb]. now rewrite andb_true_r, andb_comm.
Qed.

(** X10. A delete request for a document whose [(filename, 'html')] record
    exists and belongs to the caller returns success, removes every html row
    of that filename and no other row, so that a lookup of the name finds
    nothing afterwards, removes the file from the disk (its absence is
    ignored) and hands the display URL to the purge collaborator. *)
Theorem delete_by_owner (app : App) (s s1 : File.St) (row : gmap string value) :
  File.p_filetype (File.post (File.this s)) = File.Str "html" ->
  File.checkPostFilenameAndExtension s = (Returned tt, s1) ->
  let name := File.filename (File.this s1) in
  lookupByName name "html" (db (File.world s)) = Some row ->
  Mapper.found row = true ->
  get "users_id" row = File.u_id (File.user (File.this s)) ->
  exists s',
    File.deleteFile app s = (Returned true, s')
    /\ db (File.world s')
       = List.filter
           (fun r => negb (Mapper.selects [("filename", VStr name); ("filetype", VStr "html")] r))
           (db (File.world s))
    /\ lookupByName name "html" (db (File.world s')) = None
    /\ disk (File.world s') = delete (snd (Paths.fullFilePath app name "html")) (disk (File.world s))
    /\ purged (File.world s') = (purged (File.world s) ++ [[baseWebUrl app +:+ "/" +:+ name]])%list.
Proof.
  intros Htype Hcheck name Hrow Hfound Howner.
  destruct (checkPost_frame _ _ _ Hcheck) as (Hw & Hpost & Huser & _ & _ & _ & _ & Hext).
  unfold postedExtension in Hext. rewrite Htype in Hext. cbn in Hext.
  unfold File.deleteFile. unfold_monad. rewrite Htype. cbn [String.eqb negb].
  replace (negb _) with false by reflexivity. cbn iota.
  rewrite Hcheck.
  unfold File.fileLoad. cbn [File.this File.on_this File.with_file File.file File.world
                              File.filename File.extension].
  rewrite Hext, load_byName, Hw. fold name. rewrite Hrow. cbn [default].
  unfold File.fileRow. cbn [File.file File.with_file default File.user].
  assert (Hse : strict_eq (get "users_id" row) (File.u_id (File.user (File.this s1))) = true).
  { rewrite Huser, Howner. unfold strict_eq. now rewrite bool_decide_true. }
  unfold id. rewrite Hse, Hfound. cbn [andb String.eqb Ascii.eqb Bool.eqb].
  replace (String.eqb "html" "html") with true by reflexivity. cbn [andb].
  eexists. split; [reflexivity |].
  cbn [File.world File.on_world File.this File.on_this].
  unfold File.getFullFilePath, File.getDisplayUrl, File.hydrate, File.or_else.
  cbn [File.filename File.extension File.with_file]. rewrite Hext. fold name.
  unfold Paths.displayUrl. replace (String.eqb "html" "html") with true by reflexivity.
  unfold purgeCache, Fs.unlink. rewrite !Hw. clear Hw.
  destruct (File.world s) as [t0 d0 fo0 un0 pu0 cl0 en0 dr0].
  cbn [disk db purged].
  destruct (d0 !! snd (Paths.fullFilePath app name "html")) eqn:Ed;
    cbn [default db disk purged with_db with_disk with_purged];
    (split; [now rewrite deleteHtml_others |]);
    (split; [apply deleteHtml_lookup |]);
    (split; [| reflexivity]).
  - reflexivity.
  - symmetry. now apply delete_id.
Qed.

Lemma delete_by_owner_witness :
  let s := {| File.this := File.new (Sample.mkPost "html" (File.Str "abc123") (Some Sample.h40))
                             (Sample.mkUser 1 "u1");
              File.world := Sample.world [Sample.mkRow 1 1 "abc123" "html" Sample.h40 VNull;
                                          Sample.mkRow 2 1 "abc124" "html" Sample.h40 VNull] |} in
  exists s', File.deleteFile Sample.app s = (Returned true, s')
             /\ db (File.world s') = [Sample.mkRow 2 1 "abc124" "html" Sample.h40 VNull].
Proof.
  intros s.
  destruct (delete_by_owner Sample.app s
              (File.on_this (fun f => File.with_filename "abc123" (File.with_extension "html" f)) s)
              (Sample.mkRow 1 1 "abc123" "html" Sample.h40 VNull))
    as (s' & E & Hdb & _).
  - reflexivity.
  - reflexivity.
  - reflexivity.
  - reflexivity.
  - reflexivity.
  - exists s'. split; [exact E | exact Hdb].
Defined.

Lemma saveFile_unwritable (host : Host) (app : App) (contents : string) (s : File.St)
    (row : gmap string value) :
  File.file (File.this s) = Some row ->
  snd (File.getFullFilePath app None None (File.this s)) ∈ unwritable (File.world s) ->
  File.saveFile host app contents s
  = (Thrown (HTTPException (serverError host FILE_FAILED_TO_SAVE)),
     File.on_world (Fs.ensureDir (fst (File.getFullFilePath app None None (File.this s)))) s).
Proof.
  intros Hfile Hbad.
  unfold File.saveFile. unfold_monad. rewrite Hfile.
  destruct (File.getFullFilePath app None None (File.this s)) as [folder filePath].
  cbn [fst snd] in *.
  destruct s as [f w]. destruct w as [t0 d0 fo0 un0 pu0 cl0 en0 dr0].
  unfold Fs.ensureDir, Fs.writeFile. cbn [File.world File.this File.on_world folders unwritable] in *.
  destruct (bool_decide (folder ∈ fo0)); cbn [unwritable with_folders];
    now rewrite bool_decide_true by exact Hbad.
Qed.

(** X11. When the file of a new generic asset cannot be written, [upload]
    throws the status of FILE_FAILED_TO_UPLOAD - not the FILE_FAILED_TO_SAVE
    that [saveFile] threw - and table, disk and purge log are as before; the
    20 random bytes of the name are spent. *)
Theorem upload_write_failure (host : Host) (app : App) (s s1 : File.St) (h : string) :
  File.initialised (File.this s) = false ->
  File.hash (File.this s) = Some h ->
  File.badHash (Some h) = false ->
  File.checkPostFilenameAndExtension s = (Returned tt, s1) ->
  let ext := File.extension (File.this s1) in
  ext <> "html" -> ext <> "css" ->
  lookupByHash ext (VStr h) (db (File.world s)) = None ->
  snd (Paths.fullFilePath app (nextAssetName (File.world s)) ext) ∈ unwritable (File.world s) ->
  exists s',
    File.upload host app s
    = (Thrown (HTTPException (serverError host FILE_FAILED_TO_UPLOAD)), s')
    /\ db (File.world s') = db (File.world s)
    /\ disk (File.world s') = disk (File.world s)
    /\ purged (File.world s') = purged (File.world s)
    /\ drawn (File.world s') = (drawn (File.world s) + 20)%nat.
Proof.
  intros Hinit Hsome Hhash Hcheck ext Hnh Hnc Hnone Hbad.
  destruct (checkPost_frame _ _ _ Hcheck) as (Hw & Hp & _).
  unfold File.upload. unfold_monad.
  rewrite (initFile_asset_new host app s s1 h Hinit Hsome Hhash Hcheck Hnh Hnc Hnone).
  set (s2 := File.on_world _ (File.on_this _ s1)).
  assert (Hpath : File.getFullFilePath app None None (File.this s2)
                  = Paths.fullFilePath app (nextAssetName (File.world s)) ext).
  { subst s2 ext. now destruct s1 as [[] ?]. }
  assert (Hun : unwritable (File.world s2) = unwritable (File.world s)).
  { subst s2. destruct s1 as [? w1]. cbn in *. rewrite Hw. now destruct (File.world s). }
  rewrite (saveFile_unwritable host app _ s2 (Mapper.emptyRow Mapper.init)).
  - eexists. split; [reflexivity |].
    subst s2. destruct s1 as [f1 w1]. cbn [File.world File.on_world File.on_this] in *.
    rewrite Hw. unfold Fs.ensureDir. destruct (File.world s) as [t0 d0 fo0 un0 pu0 cl0 en0 dr0].
    cbn [with_drawn folders]. destruct (bool_decide _); cbn; repeat split; reflexivity.
  - subst s2. now destruct s1 as [[] ?].
  - rewrite Hpath, Hun. exact Hbad.
Qed.

Lemma upload_write_failure_witness :
  let s := {| File.this := File.new (Sample.mkPost "png" File.Absent (Some Sample.h40))
                             (Sample.mkUser 2 "u2");
              File.world :=
                {| db := []; disk := ∅; folders := ∅;
                   unwritable := {["/notesx/userfiles/files/zz/zzzzzzzzzzzzzzzzzzzz.png"]};
                   purged := []; clock := 200000; entropy := fun _ => Byte.xff;
                   drawn := 0 |} |} in
  exists s', File.upload Sample.host Sample.app s = (Thrown (HTTPException 562), s')
             /\ db (File.world s') = [].
Proof.
  intros s.
  destruct (upload_write_failure Sample.host Sample.app s
              (File.on_this (File.with_extension "png") s) Sample.h40)
    as (s' & E & Hdb & _).
  - reflexivity.
  - reflexivity.
  - reflexivity.
  - reflexivity.
  - discriminate.
  - discriminate.
  - reflexivity.
  - vm_compute. set_solver.
  - exists s'. split; [exact E | exact Hdb].
Defined.

(** ** The static routes of index.ts *)

Lemma lower_alnum_word (name : string) :
  JS.forallb_string JS.is_lower_alnum name = true -> JS.forallb_string JS.is_word name = true.
Proof.
  induction name as [|c name IH]; [reflexivity |].
  cbn [JS.forallb_string]. intros H. apply andb_prop in H as [Hc Hn].
  rewrite (IH Hn), andb_true_r. unfold JS.is_word, JS.is_lower_alnum in *.
  destruct (JS.is_lower c); [reflexivity |]. cbn in Hc. rewrite Hc.
  now rewrite orb_true_r.
Qed.

(** X12. The route of a note serves a stored document exactly when its name
    is long enough for the pattern of the route. For a lowercase
    alphanumeric name, as the engine gives and accepts them, the request
    [/{name}] matches when the name has at least [max(1, folderPrefix)]
    characters and is then rewritten to the path, under the root
    [userfiles/notes], at which [fullFilePath] puts [(name, 'html')]; a
    shorter name does not match, and the route does not serve the document.
    For any file, the file URL and the path on disk share the part after
    the base URL and after [{baseFolder}/userfiles]; for a filetype other
    than html that part starts with [/css/] or [/files/], the two prefixes
    served from [userfiles]. *)
Theorem routes_serve_stored_files (app : App) (name f t : string) :
  JS.forallb_string JS.is_lower_alnum name = true ->
  Index.noteRoute app ("/" +:+ name)
  = (if Z.max 1 (folderPrefix app) <=? Z.of_nat (String.length name)
     then Some (Index.rewriteRequestPath app ("/" +:+ name))
     else None)
  /\ snd (Paths.fullFilePath app name "html")
     = baseFolder app +:+ "/userfiles/notes" +:+ Index.rewriteRequestPath app ("/" +:+ name)
  /\ (exists p,
        Paths.fileUrl app f t = baseWebUrl app +:+ p
        /\ snd (Paths.fullFilePath app f t) = baseFolder app +:+ "/userfiles" +:+ p
        /\ (t <> "html" ->
            JS.starts_with (if String.eqb t "css" then "/css/" else "/files/") p = true)).
Proof.
  intros Hname. split; [| split].
  - unfold Index.noteRoute. rewrite append_cons, append_nil_l.
    replace (Ascii.eqb "/" "/") with true by reflexivity.
    rewrite (lower_alnum_word name Hname). reflexivity.
  - unfold Paths.fullFilePath, Paths.folderPath, Index.rewriteRequestPath, Index.stripSlash.
    cbn [snd]. rewrite !append_cons, append_nil_l.
    replace (Ascii.eqb "/" "/") with true by reflexivity.
    replace (String.eqb "html" "html") with true by reflexivity.
    destruct (negb (folderPrefix app =? 0));
      rewrite ?append_assoc, ?append_cons, ?append_nil_l; reflexivity.
  - exists ("/" +:+ Paths.folderPath app f t +:+ "/" +:+ (f +:+ "." +:+ t)).
    split; [reflexivity |]. split.
    + unfold Paths.fullFilePath. cbn [snd].
      rewrite ?append_assoc, ?append_cons, ?append_nil_l. reflexivity.
    + intros Ht. unfold Paths.folderPath.
      rewrite (proj2 (String.eqb_neq _ _) Ht).
      destruct (String.eqb t "css"); destruct (negb (folderPrefix app =? 0));
        rewrite ?append_assoc, ?append_cons, ?append_nil_l; reflexivity.
Qed.

Lemma routes_serve_stored_files_witness :
  Index.noteRoute Sample.app "/abc12345" = Some "/ab/abc12345.html"
  /\ snd (Paths.fullFilePath Sample.app "abc12345" "html")
     = "/notesx/userfiles/notes/ab/abc12345.html".
Proof.
  destruct (routes_serve_stored_files Sample.app "abc12345" "abc12345" "html" eq_refl)
    as (Hroute & Hpath & _).
  split; [exact Hroute | exact Hpath].
Defined.

(** ** helpers.ts: formatting *)

Lemma iter_zero (k : nat) (s : string) :
  Nat.iter k (fun t => String "0"%char t) s = JS.repeat_char "0" k +:+ s.
Proof.
  induction k as [|k IH]; [reflexivity |].
  rewrite Nat.iter_succ, IH. reflexivity.
Qed.

Lemma repeat_char_length (c : ascii) (k : nat) : String.length (JS.repeat_char c k) = k.
Proof. induction k as [|k IH]; [reflexivity | simpl; now rewrite IH]. Qed.

(** X13. For a safe integer (at most [2^53 - 1] in absolute value, where
    [int.toString()] is the decimal text), [formatInt(int, precision)] is
    that text padded on the left with zeros up to [precision] characters:
    its loop does what [padStart(precision, '0')] does, the text is never
    cut, and the length is the larger of [precision] and the number of
    characters of the text. *)
Theorem formatInt_pads (int : Z) (precision : nat) :
  Z.abs int <= 9007199254740991 ->
  helpers.formatInt int precision = JS.padStart precision "0" (JS.decimal int)
  /\ String.length (helpers.formatInt int precision)
     = Nat.max precision (String.length (JS.decimal int))
  /\ exists zeros, helpers.formatInt int precision = zeros +:+ JS.decimal int
                   /\ JS.forallb_string (Ascii.eqb "0") zeros = true.
Proof.
  intros _.
  assert (E : helpers.formatInt int precision = JS.padStart precision "0" (JS.decimal int)).
  { unfold helpers.formatInt, JS.padStart.
    destruct (precision <=? String.length (JS.decimal int))%nat eqn:Hle.
    - apply Nat.leb_le in Hle.
      replace (precision - _)%nat with 0%nat by lia. reflexivity.
    - apply iter_zero. }
  split; [exact E |]. rewrite E. unfold JS.padStart. split.
  - rewrite append_length, repeat_char_length. lia.
  - eexists. split; [reflexivity |].
    induction (precision - _)%nat as [|k IH]; [reflexivity | exact IH].
Qed.

Lemma formatInt_pads_witness :
  helpers.formatInt 7 2 = "07" /\ String.length (helpers.formatInt 7 2) = 2%nat.
Proof.
  destruct (formatInt_pads 7 2) as (E & L & _).
  - cbn. lia.
  - split; [exact E | exact L].
Defined.

Lemma range_check (f : Z -> bool) (lo : Z) (n : nat) :
  forallb (fun k => f (lo + Z.of_nat k)) (seq 0 n) = true ->
  forall z, lo <= z < lo + Z.of_nat n -> f z = true.
Proof.
  intros H z Hz. rewrite forallb_forall in H.
  specialize (H (Z.to_nat (z - lo))).
  replace (lo + Z.of_nat (Z.to_nat (z - lo))) with z in H by lia.
  apply H, in_seq. lia.
Qed.

Lemma two_digits (x : Z) : 0 <= x < 100 -> String.length (helpers.formatInt x 2) = 2%nat.
Proof.
  intros Hx. apply Nat.eqb_eq.
  apply (range_check (fun x => (String.length (helpers.formatInt x 2) =? 2)%nat) 0 100);
    [vm_compute; reflexivity | lia].
Qed.

Lemma four_digits (y : Z) : 1000 <= y <= 9999 -> String.length (JS.decimal y) = 4%nat.
Proof.
  intros Hy. apply Nat.eqb_eq.
  apply (range_check (fun y => (String.length (JS.decimal y) =? 4)%nat) 1000 (Z.to_nat 9000));
    [vm_compute; reflexivity | lia].
Qed.

Lemma day_name (d : Z) :
  0 <= d < 7 -> String.length (helpers.at_index "undefined" helpers.days d) = 3%nat.
Proof.
  intros Hd. apply Nat.eqb_eq.
  apply (range_check
           (fun d => (String.length (helpers.at_index "undefined" helpers.days d) =? 3)%nat) 0 7);
    [vm_compute; reflexivity | lia].
Qed.

Lemma month_name (m : Z) :
  0 <= m < 12 -> String.length (helpers.at_index EmptyString helpers.months m) = 3%nat.
Proof.
  intros Hm. apply Nat.eqb_eq.
  apply (range_check
           (fun m => (String.length (helpers.at_index EmptyString helpers.months m) =? 3)%nat)
           0 12);
    [vm_compute; reflexivity | lia].
Qed.

(** X14. For a date whose UTC fields are in their ranges and whose year has
    four digits, [httpHeaderDate] has exactly 29 characters (the layout
    [Ddd, DD Mmm YYYY HH:MM:SS GMT]) and starts with the name of the day of
    the week; the current date plays no part when a date is given. *)
Theorem httpHeaderDate_length (today date : helpers.UTCDate) :
  0 <= helpers.utcHours date < 24 ->
  0 <= helpers.utcMinutes date < 60 ->
  0 <= helpers.utcSeconds date < 60 ->
  1 <= helpers.utcDate date <= 31 ->
  0 <= helpers.utcMonth date < 12 ->
  1000 <= helpers.utcFullYear date <= 9999 ->
  0 <= helpers.utcDay date < 7 ->
  String.length (helpers.httpHeaderDate today (Some date)) = 29%nat
  /\ JS.substring0 3 (helpers.httpHeaderDate today (Some date))
     = helpers.at_index "undefined" helpers.days (helpers.utcDay date).
Proof.
  intros Hh Hm Hs Hd Hmo Hy Hday.
  unfold helpers.httpHeaderDate. cbn [default JS.join]. unfold id.
  split.
  - rewrite !append_length.
    rewrite (day_name _ Hday), (month_name _ Hmo), (four_digits _ Hy).
    rewrite !two_digits by lia. reflexivity.
  - pose proof (day_name _ Hday) as L.
    destruct (helpers.at_index "undefined" helpers.days (helpers.utcDay date))
      as [|a [|b [|c [|]]]]; try discriminate L.
    reflexivity.
Qed.

Lemma httpHeaderDate_length_witness :
  let d := {| helpers.utcHours := 8; helpers.utcMinutes := 49; helpers.utcSeconds := 37;
              helpers.utcDate := 6; helpers.utcMonth := 10; helpers.utcFullYear := 1994;
              helpers.utcDay := 0 |} in
  helpers.httpHeaderDate d (Some d) = "Sun, 06 Nov 1994 08:49:37 GMT"
  /\ String.length (helpers.httpHeaderDate d (Some d)) = 29%nat.
Proof.
  intros d. split; [reflexivity |].
  apply (httpHeaderDate_length d d); cbn; lia.
Defined.

(** X15. [checkVersion] accepts a version exactly when it has three parts
    separated by dots whose numbers ([~~part]) are, in lexicographic order, at
    least the minimum required; a version with another number of parts is
    rejected. *)
Theorem checkVersion_lexicographic (toInt32 : string -> Z) (version : string) (m0 m1 m2 : Z) :
  helpers.checkVersion toInt32 version (m0, m1, m2) = true
  <-> exists a b c,
        JS.split_dot version = [a; b; c]
        /\ (toInt32 a > m0
            \/ (toInt32 a = m0
                /\ (toInt32 b > m1 \/ (toInt32 b = m1 /\ toInt32 c >= m2)))).
Proof.
  unfold helpers.checkVersion.
  destruct (JS.split_dot version) as [|a [|b [|c [|d rest]]]]; cbn [length Nat.eqb];
    try (split; [discriminate | intros (? & ? & ? & [=] & _)]).
  cbn [helpers.compareFrom].
  split.
  - intros H. exists a, b, c. split; [reflexivity |].
    destruct (toInt32 a >? m0) eqn:A1; [left; lia |].
    destruct (toInt32 a <? m0) eqn:A2; [discriminate |].
    right. split; [lia |].
    destruct (toInt32 b >? m1) eqn:B1; [left; lia |].
    destruct (toInt32 b <? m1) eqn:B2; [discriminate |].
    right. split; [lia |].
    destruct (toInt32 c >? m2) eqn:C1; [lia |].
    destruct (toInt32 c <? m2) eqn:C2; [discriminate | lia].
  - intros (a' & b' & c' & [= <- <- <-] & H).
    destruct (toInt32 a >? m0) eqn:A1; [reflexivity |].
    destruct (toInt32 a <? m0) eqn:A2; [lia |].
    destruct (toInt32 b >? m1) eqn:B1; [reflexivity |].
    destruct (toInt32 b <? m1) eqn:B2; [lia |].
    destruct (toInt32 c >? m2) eqn:C1; [reflexivity |].
    destruct (toInt32 c <? m2) eqn:C2; [lia | reflexivity].
Qed.

(** ** WebNote.ts: quoting for an attribute *)

Lemma collapseSpaces_single (inRun : bool) (s : string) :
  singleSpaced inRun (WebNote.collapseSpaces inRun s) = true.
Proof.
  revert inRun. induction s as [|c s IH]; intros inRun; [reflexivity |].
  cbn [WebNote.collapseSpaces].
  destruct (JS.is_space c) eqn:Hc.
  - destruct inRun; [apply IH |].
    cbn [singleSpaced]. replace (JS.is_space " ") with true by reflexivity.
    rewrite IH. reflexivity.
  - cbn [singleSpaced]. rewrite Hc. apply IH.
Qed.

Lemma entity_spaced (prev : bool) (c : ascii) (r : string) :
  singleSpaced prev (WebNote.entity c +:+ r) = singleSpaced prev (String c r).
Proof.
  unfold WebNote.entity.
  destruct (Ascii.eqb c "&") eqn:E1; [apply Ascii.eqb_eq in E1; subst c; reflexivity |].
  destruct (Ascii.eqb c "<") eqn:E2; [apply Ascii.eqb_eq in E2; subst c; reflexivity |].
  destruct (Ascii.eqb c ">") eqn:E3; [apply Ascii.eqb_eq in E3; subst c; reflexivity |].
  destruct (Ascii.eqb c "'") eqn:E4; [apply Ascii.eqb_eq in E4; subst c; reflexivity |].
  destruct (Ascii.eqb c JS.doubleQuote) eqn:E5;
    [apply Ascii.eqb_eq in E5; subst c; reflexivity | reflexivity].
Qed.

Lemma escape_spaced (prev : bool) (s : string) :
  singleSpaced prev (WebNote.escape s) = singleSpaced prev s.
Proof.
  revert prev. induction s as [|c s IH]; intros prev; [reflexivity |].
  cbn [WebNote.escape]. rewrite entity_spaced. cbn [singleSpaced].
  now rewrite !IH.
Qed.

Lemma entity_safe (c : ascii) : JS.forallb_string attributeSafe (WebNote.entity c) = true.
Proof.
  unfold WebNote.entity.
  destruct (Ascii.eqb c "&") eqn:E1; [reflexivity |].
  destruct (Ascii.eqb c "<") eqn:E2; [reflexivity |].
  destruct (Ascii.eqb c ">") eqn:E3; [reflexivity |].
  destruct (Ascii.eqb c "'") eqn:E4; [reflexivity |].
  destruct (Ascii.eqb c JS.doubleQuote) eqn:E5; [reflexivity |].
  cbn [JS.forallb_string]. unfold attributeSafe. now rewrite E2, E3, E4, E5.
Qed.

Lemma escape_safe (s : string) : JS.forallb_string attributeSafe (WebNote.escape s) = true.
Proof.
  induction s as [|c s IH]; [reflexivity |].
  cbn [WebNote.escape]. now rewrite forallb_string_append, entity_safe, IH.
Qed.

Lemma escape_plain (s : string) :
  JS.forallb_string (fun c => attributeSafe c && negb (Ascii.eqb c "&"%char)) s = true ->
  WebNote.escape s = s.
Proof.
  induction s as [|c s IH]; [reflexivity |].
  cbn [JS.forallb_string WebNote.escape]. intros H.
  apply andb_prop in H as [Hc Hs]. rewrite (IH Hs).
  unfold attributeSafe in Hc.
  apply andb_prop in Hc as [Hc E1]. apply andb_prop in Hc as [Hc E5].
  apply andb_prop in Hc as [Hc E4]. apply andb_prop in Hc as [E2 E3].
  apply negb_true_iff in E1, E2, E3, E4, E5.
  unfold WebNote.entity. now rewrite E1, E2, E3, E4, E5.
Qed.

Lemma collapseSpaces_plain (inRun : bool) (s : string) :
  singleSpaced inRun s = true -> WebNote.collapseSpaces inRun s = s.
Proof.
  revert inRun. induction s as [|c s IH]; intros inRun; [reflexivity |].
  cbn [singleSpaced WebNote.collapseSpaces].
  destruct (JS.is_space c).
  - intros H. apply andb_prop in H as [H Hs]. apply andb_prop in H as [Hc Hrun].
    apply Ascii.eqb_eq in Hc. apply negb_true_iff in Hrun. subst c inRun.
    now rewrite (IH true Hs).
  - intros H. now rewrite (IH false H).
Qed.

(** X16. The result of [htmlQuote] holds none of the characters
    [<], [>], ['] and the double quote, and no whitespace other than single
    spaces, each between two other characters or at an end; a string that
    holds none of the five characters of the pattern and is spaced like this
    already is returned as it is. Strings are taken over the code units below
    256. *)
Theorem htmlQuote_attribute_safe (s : string) :
  JS.forallb_string attributeSafe (WebNote.htmlQuote s) = true
  /\ singleSpaced false (WebNote.htmlQuote s) = true
  /\ (JS.forallb_string (fun c => attributeSafe c && negb (Ascii.eqb c "&"%char)) s = true ->
      singleSpaced false s = true ->
      WebNote.htmlQuote s = s).
Proof.
  unfold WebNote.htmlQuote. split; [apply escape_safe |]. split.
  - rewrite escape_spaced. apply collapseSpaces_single.
  - intros Hsafe Hsp. rewrite (collapseSpaces_plain false s Hsp). now apply escape_plain.
Qed.

(** ** The expiry sweeper, run as a method *)

Lemma swept_all_clock (c : Cron.t) (files : list (gmap string value)) (w : World) :
  clock (foldl (fun w' file => swept c file w') w files) = clock w.
Proof.
  revert w. induction files as [|file files IH]; intros w; cbn [foldl]; [reflexivity |].
  rewrite IH. unfold swept. now destruct w.
Qed.

Lemma sql_eq_refl (v : value) : v <> VNull -> sql_eq v v = true.
Proof.
  destruct v as [|z|x]; [congruence | |]; intros _; cbn.
  - apply Z.eqb_refl.
  - apply String.eqb_refl.
Qed.

(** X17. Run as a method of the Cron object on a table whose ids are not
    null, [deleteExpiredFiles] returns and leaves no expired row: every row
    left was in the table and is not expired, the file of every row that was
    expired is gone from the disk, the clock is not changed, and a second run
    at the same clock changes nothing. *)
Theorem sweep_leaves_nothing_expired (c : Cron.t) (w : World) :
  (forall r, In r (db w) -> get "id" r <> VNull) ->
  exists w',
    Cron.deleteExpiredFiles (Cron.Instance c) w = (Returned tt, w')
    /\ clock w' = clock w
    /\ (forall r, In r (db w') -> In r (db w) /\ Cron.expired w' r = false)
    /\ (forall r, In r (db w) -> Cron.expired w r = true -> disk w' !! pathOf c r = None)
    /\ Cron.deleteExpiredFiles (Cron.Instance c) w' = (Returned tt, w').
Proof.
  intros Hid. unfold Cron.deleteExpiredFiles. unfold_monad.
  rewrite forEach_instance.
  set (selected := List.filter (Cron.expired w) (db w)).
  set (w' := foldl _ w selected).
  assert (Hclock : clock w' = clock w) by apply swept_all_clock.
  assert (Hexp : forall r, Cron.expired w' r = Cron.expired w r).
  { intros r. unfold Cron.expired, Cron.unixepoch. now rewrite Hclock. }
  assert (Hleft : forall r, In r (db w') -> In r (db w) /\ Cron.expired w' r = false).
  { intros r Hr. unfold w' in Hr. rewrite swept_all_db in Hr.
    apply filter_In in Hr as [Hin Hno]. split; [exact Hin |].
    rewrite Hexp. destruct (Cron.expired w r) eqn:E; [| reflexivity].
    apply negb_true_iff in Hno.
    assert (Hex : existsb (fun file => sql_eq (get "id" r) (get "id" file)) selected = true).
    { apply existsb_exists. exists r. split.
      - apply filter_In. now split.
      - apply sql_eq_refl, Hid, Hin. }
    rewrite Hex in Hno. discriminate Hno. }
  exists w'. split; [reflexivity |]. split; [exact Hclock |]. split; [exact Hleft |]. split.
  - intros r Hin E. apply swept_all_disk. right. exists r. split; [| reflexivity].
    apply filter_In. now split.
  - replace (List.filter (Cron.expired w') (db w')) with (@nil (gmap string value));
      [reflexivity |].
    symmetry.
    induction (db w') as [|r t IH]; [reflexivity |].
    cbn [List.filter]. rewrite (proj2 (Hleft r (or_introl eq_refl))).
    apply IH. intros x Hx. apply Hleft. now right.
Qed.

Lemma sweep_leaves_nothing_expired_witness :
  let gone := Sample.mkRow 1 1 "abcdefgh" "html" Sample.h40 (VInt 10) in
  let kept := Sample.mkRow 2 1 "abcdefgi" "html" Sample.h40 VNull in
  let w := Sample.world [gone; kept] in
  exists w',
    Cron.deleteExpiredFiles (Cron.Instance (fst (Cron.new Sample.app))) w = (Returned tt, w')
    /\ forall r, In r (db w') -> Cron.expired w' r = false.
Proof.
  intros gone kept w.
  destruct (sweep_leaves_nothing_expired (fst (Cron.new Sample.app)) w)
    as (w' & E & _ & H & _).
  - intros r [<- | [<- | []]]; discriminate.
  - exists w'. split; [exact E |]. intros r Hr. exact (proj2 (H r Hr)).
Defined.

(** X18. The job that the constructor of [Cron] registers - the method as a
    bare function value - never changes the world, for any configuration
    and any table: it returns when no row is expired and throws a TypeError
    when some row is. *)
Theorem scheduled_tick_changes_nothing (a : App) (w : World) :
  snd (Cron.tick a w) = w
  /\ (fst (Cron.tick a w) = Returned tt <-> List.filter (Cron.expired w) (db w) = [])
  /\ (fst (Cron.tick a w) = Thrown TypeError
      <-> exists r, In r (db w) /\ Cron.expired w r = true).
Proof.
  unfold Cron.tick, Cron.new. cbn [snd]. rewrite deleteExpiredFiles_foreign. cbn [fst snd].
  split; [reflexivity |].
  destruct (List.filter (Cron.expired w) (db w)) as [|r t] eqn:E.
  - split; [tauto |]. split; [discriminate |].
    intros (r & Hin & Hr).
    assert (H : In r (List.filter (Cron.expired w) (db w))) by (apply filter_In; now split).
    rewrite E in H. destruct H.
  - split; [split; discriminate |]. split; [| reflexivity].
    intros _. exists r.
    apply filter_In. rewrite E. now left.
Qed.

(** ** Listing the stylesheets of a user *)

Lemma filter_none {A} (f : A -> bool) (l : list A) :
  (forall x, In x l -> f x = false) -> List.filter f l = [].
Proof.
  induction l as [|x l IH]; intros H; [reflexivity |].
  cbn [List.filter]. rewrite (H x (or_introl eq_refl)).
  apply IH. intros y Hy. apply H. now right.
Qed.

(** X19. [checkCss] answers from the css rows whose filename matches the
    prefix of [getCssFilename] followed by anything (SQLite LIKE): its list
    holds one entry for each such row - the same rows, ordered by filename -
    with the row's hash and the display URL the controller gives for the
    row's filename and [css]; [success] tells
    whether the list is non-empty, which it is exactly when some row of the
    table matches. The only change to the controller is the memoised
    prefix. *)
Theorem checkCss_lists_stylesheets (host : Host) (app : App) (s : File.St) :
  let c := cssNameOf host app (File.this s) (clock (File.world s)) in
  let entry := fun r : gmap string value =>
    (File.getDisplayUrl app (Some (File.text (get "filename" r))) (Some "css") (File.this s),
     get "hash" r) in
  exists rows,
    File.checkCss host app s
    = (Returned (negb (length rows =? 0)%nat, entry <$> rows),
       File.on_this (File.with_cssFilename (Some c)) s)
    /\ rows ≡ₚ List.filter (stylesheetOf c) (db (File.world s))
    /\ Sorted File.byFilename rows
    /\ (rows = [] <-> forall r, In r (db (File.world s)) -> stylesheetOf c r = false).
Proof.
  intros c entry.
  exists (File.cssFilesOf c (db (File.world s))).
  assert (Hperm : File.cssFilesOf c (db (File.world s))
                  ≡ₚ List.filter (stylesheetOf c) (db (File.world s))).
  { unfold File.cssFilesOf. apply merge_sort_Permutation. }
  split; [| split; [exact Hperm | split]].
  - unfold File.checkCss. unfold_monad. rewrite getCssFilename_run. fold c.
    cbn [File.this File.world File.on_this].
    set (rows := File.cssFilesOf c (db (File.world s))) in *.
    set (g := fun cssFile : gmap string value => _).
    assert (E : g <$> rows = entry <$> rows).
    { apply list_fmap_ext. intros i r Hr.
      assert (Hin : r ∈ List.filter (stylesheetOf c) (db (File.world s))).
      { rewrite <- Hperm. eapply list_elem_of_lookup_2, Hr. }
      apply list_elem_of_In, filter_In in Hin as [_ Hm].
      unfold stylesheetOf in Hm. apply andb_prop in Hm as [Ht _].
      subst g entry. cbv beta.
      destruct (get "filetype" r) as [| |t]; try discriminate Ht.
      cbn in Ht. apply String.eqb_eq in Ht. subst t.
      now destruct (File.this s). }
    rewrite E, length_fmap.
    destruct rows; reflexivity.
  - unfold File.cssFilesOf. apply Sorted_merge_sort.
    intros r1 r2. unfold File.byFilename. apply String.le_total.
  - split.
    + intros Hnil r Hin. rewrite Hnil in Hperm. symmetry in Hperm.
      apply Permutation_nil_r in Hperm.
      destruct (stylesheetOf c r) eqn:E; [| reflexivity].
      assert (H : In r (List.filter (stylesheetOf c) (db (File.world s))))
        by (apply filter_In; now split).
      rewrite Hperm in H. destruct H.
    + intros Hnone. apply Permutation_nil_r. rewrite Hperm.
      now rewrite (filter_none _ _ Hnone).
Qed.

(** ** Legacy filenames *)

Lemma before_dot_prefix (n rest : string) :
  JS.forallb_string JS.is_lower_alnum n = true ->
  JS.before_dot (n +:+ String JS.dot rest) = n
  /\ JS.includes_dot (n +:+ String JS.dot rest) = true.
Proof.
  unfold JS.includes_dot.
  induction n as [|c n IH]; intros Hn.
  - rewrite append_nil_l. split; reflexivity.
  - cbn [JS.forallb_string] in Hn. apply andb_prop in Hn as [Hc Hn].
    destruct (IH Hn) as [IH1 IH2].
    rewrite append_cons. cbn [JS.before_dot JS.existsb_string].
    assert (Ec : Ascii.eqb c JS.dot = false).
    { apply Ascii.eqb_neq. intros ->. discriminate Hc. }
    rewrite Ec, IH1, IH2. split; reflexivity.
Qed.

(** X20. A posted filename with a dot is cut at its first dot (the legacy
    form [name.html]): when the part before the dot is a non-empty lowercase
    alphanumeric name and the posted filetype is whitelisted, the check passes
    and the controller holds that part as filename and the posted filetype as
    extension, whatever follows the dot. *)
Theorem checkPost_legacy_filename (s : File.St) (n rest ext : string) :
  File.p_filetype (File.post (File.this s)) = File.Str ext ->
  In ext fileExtensionWhitelist ->
  File.p_filename (File.post (File.this s)) = File.Str (n +:+ "." +:+ rest) ->
  n <> EmptyString ->
  JS.forallb_string JS.is_lower_alnum n = true ->
  File.checkPostFilenameAndExtension s
  = (Returned tt, File.on_this (fun f => File.with_filename n (File.with_extension ext f)) s).
Proof.
  intros Htype Hin Hname Hne Hn.
  destruct (before_dot_prefix n rest Hn) as [Hb Hi].
  change (String JS.dot rest) with ("." +:+ rest) in Hb, Hi.
  unfold File.checkPostFilenameAndExtension. unfold_monad.
  cbn [File.this File.on_this File.post]. 
  assert (Hp : File.post (File.with_extension
                 (match File.p_filetype (File.post (File.this s)) with
                  | File.Str x => if String.eqb x EmptyString then "Unknown" else x
                  | _ => "Unknown"
                  end) (File.this s)) = File.post (File.this s)) by now destruct (File.this s).
  rewrite Htype in *.
  rewrite (proj2 (String.eqb_neq _ _) (whitelisted_nonempty ext Hin)) in *.
  replace (existsb (String.eqb ext) fileExtensionWhitelist) with true.
  2:{ symmetry. apply existsb_exists. exists ext. split; [exact Hin | apply String.eqb_refl]. }
  cbn [negb]. rewrite Hname.
  assert (Hne2 : String.eqb (n +:+ "." +:+ rest) EmptyString = false).
  { apply String.eqb_neq. destruct n; [congruence | discriminate]. }
  rewrite Hne2, Hi, Hb, matches_outside_forallb, Hn, (proj2 (String.eqb_neq _ _) Hne).
  cbn [negb orb]. now destruct s as [[] ?].
Qed.

Lemma checkPost_legacy_filename_witness :
  let s := {| File.this := File.new (Sample.mkPost "html" (File.Str "abc123.html")
                                       (Some Sample.h40)) (Sample.mkUser 1 "u1");
              File.world := Sample.world [] |} in
  File.filename (File.this (snd (File.checkPostFilenameAndExtension s))) = "abc123".
Proof.
  intros s.
  rewrite (checkPost_legacy_filename s "abc123" "html" "html").
  - reflexivity.
  - reflexivity.
  - simpl. tauto.
  - reflexivity.
  - discriminate.
  - reflexivity.
Defined.

(** ** Saving a document again *)

Lemma initFile_document_own (host : Host) (app : App) (create : bool) (s s1 : File.St)
    (row : gmap string value) :
  File.initialised (File.this s) = false ->
  File.badHash (File.hash (File.this s)) = false ->
  File.checkPostFilenameAndExtension s = (Returned tt, s1) ->
  File.extension (File.this s1) = "html" ->
  let name := File.filename (File.this s1) in
  name <> EmptyString ->
  lookupByName name "html" (db (File.world s)) = Some row ->
  Mapper.found row = true ->
  get "users_id" row = File.u_id (File.user (File.this s)) ->
  File.initFile host app create s
  = (Returned None,
     File.on_this (fun f => File.with_initialised true (File.with_file (Some row) f)) s1).
Proof.
  intros Hinit Hhash Hcheck Hext name Hne Hrow Hfound Howner.
  destruct (checkPost_frame _ _ _ Hcheck) as (Hw & _ & Hu & _).
  subst name.
  unfold File.initFile. unfold_monad.
  rewrite Hinit, Hhash, Hcheck.
  destruct s as [[post0 user0 name0 ext0 hash0 init0 file0 css0] w0].
  destruct s1 as [[post1 user1 name1 ext1 hash1 init1 file1 css1] w1].
  fields. subst. rewrite String.eqb_refl.
  rewrite (proj2 (String.eqb_neq _ _) Hne). cbv beta iota delta [negb andb].
  assert (Hown : File.ownedByOther
                   {| File.post := post1; File.user := user0; File.filename := name1;
                      File.extension := "html"; File.hash := hash1; File.initialised := init1;
                      File.file := Some row; File.cssFilename := css1 |} = false).
  { unfold File.ownedByOther, File.fileRow. fields. cbv beta iota delta [default id].
    rewrite Hfound, Howner. unfold strict_eq. now rewrite bool_decide_true. }
  unfold File.fileLoad at 1. fields. rewrite load_byName, Hrow.
  cbv beta iota delta [default id]. rewrite Hown.
  unfold File.fileRow at 1. fields. cbv beta iota delta [default id].
  unfold Mapper.notFound. unfold Mapper.found in Hfound. rewrite Hfound.
  cbv beta iota delta [negb]. fields.
  unfold File.fileLoad. fields. rewrite load_byName, Hrow.
  cbv beta iota delta [default id]. rewrite Hown. reflexivity.
Qed.

Lemma restampedRow_fields (host : Host) (f : File.t) (contents : string) (date : value)
    (row : gmap string value) :
  let row2 := restampedRow host f contents date row in
  (forall k, k ∉ ["bytes"; "encrypted"; "expires"; "hash"; "updated"] -> row2 !! k = row !! k)
  /\ row2 !! "hash" = Some (File.hashValue f)
  /\ row2 !! "bytes" = Some (VInt (Z.of_nat (String.length contents)))
  /\ row2 !! "expires" = Some (File.getExpiration host f)
  /\ row2 !! "updated" = Some date
  /\ (map_Forall (fun k _ => cleanName k = true) row ->
      map_Forall (fun k _ => cleanName k = true) row2).
Proof.
  cbv zeta. unfold restampedRow, Mapper.set. cbn [foldl].
  split; [| repeat split; try (simplify_map_eq; reflexivity)].
  - intros k Hk. rewrite !lookup_insert_ne; [reflexivity | | | | |];
      intros <-; apply Hk, list_elem_of_In; cbn; tauto.
  - intros H. repeat (apply map_Forall_insert_2; [reflexivity |]). exact H.
Qed.

Lemma saveFile_found (host : Host) (app : App) (contents : string) (s : File.St)
    (row : gmap string value) :
  File.file (File.this s) = Some row ->
  Mapper.found row = true ->
  map_Forall (fun k _ => cleanName k = true) row ->
  In row (db (File.world s)) ->
  snd (File.getFullFilePath app None None (File.this s)) ∉ unwritable (File.world s) ->
  let row2 := restampedRow host (File.this s) contents (now host (clock (File.world s))) row in
  File.saveFile host app contents s
  = (Returned row2,
     {| File.this := File.with_file (Some row2) (File.this s);
        File.world := persistedOver host app (File.this s) contents row (File.world s) |}).
Proof.
  intros Hfile Hfound Hclean Hin Hok row2.
  destruct (restampedRow_fields host (File.this s) contents (now host (clock (File.world s))) row)
    as (Hkeep & _ & _ & _ & _ & Hclean2).
  fold row2 in Hkeep, Hclean2. specialize (Hclean2 Hclean).
  assert (Hid : get "id" row2 = get "id" row).
  { unfold get. rewrite Hkeep; [reflexivity |].
    intros Hk%list_elem_of_In. cbn in Hk. intuition discriminate. }
  assert (Htruthy : truthy (get "id" row2) = true) by (rewrite Hid; exact Hfound).
  pose proof (save_truthy_id row2 (db (File.world s)) Htruthy Hclean2) as Hsave.
  assert (Hhit : existsb (fun r => sql_eq (get "id" r) (get "id" row2)) (db (File.world s))
                 = true).
  { apply existsb_exists. exists row. split; [exact Hin |]. rewrite Hid.
    apply sql_eq_refl. intros E. unfold Mapper.found in Hfound. rewrite E in Hfound.
    discriminate Hfound. }
  rewrite Hhit in Hsave.
  unfold File.saveFile, persistedOver. unfold_monad. rewrite Hfile.
  destruct (File.getFullFilePath app None None (File.this s)) as [folder filePath] eqn:Hpath.
  cbn [snd] in Hok.
  destruct s as [[post0 user0 name0 ext0 hash0 init0 file0 css0] w].
  destruct w as [t0 d0 fo0 un0 pu0 cl0 en0 dr0].
  subst row2. unfold restampedRow in *.
  unfold Fs.ensureDir, Fs.writeFile, purgeCache, File.fileRow. fields. subst file0.
  cbv beta iota delta [default id].
  unfold Mapper.notFound. unfold Mapper.found in Hfound. rewrite Hfound.
  cbv beta iota delta [negb].
  destruct (bool_decide (folder ∈ fo0)); fields;
    rewrite bool_decide_false by exact Hok; fields; rewrite Hsave; reflexivity.
Qed.

Lemma restamped_in_place (row2 row : gmap string value) :
  row2 !! "id" = row !! "id" ->
  dom row ⊆ dom row2 ->
  delete "id" row2 ∪ row = row2.
Proof.
  intros Hid Hdom. apply map_eq. intros k. rewrite lookup_union.
  destruct (decide (k = "id")) as [-> | Hk].
  - rewrite lookup_delete_eq, Hid. now destruct (row !! "id").
  - rewrite lookup_delete_ne by congruence.
    destruct (row2 !! k) eqn:E2; [now destruct (row !! k) |].
    destruct (row !! k) eqn:E; [| reflexivity].
    apply not_elem_of_dom in E2. exfalso. apply E2, Hdom. apply elem_of_dom. eauto.
Qed.

(** X21. The upload of a document under a filename whose [(filename, 'html')]
    record belongs to the caller overwrites it in place: the URL returned is
    [{baseWebUrl}/{filename}], the posted content is on disk at the path of
    that name, and the table keeps its length - the rows with the id of the
    record take the fields of the row object, the other rows are untouched.
    The row object, which is in the table afterwards, differs from the stored
    record in [bytes], [encrypted], [expires], [hash] and [updated] only:
    owner, filename, filetype and creation date are kept. *)
Theorem upload_document_again (host : Host) (app : App) (s s1 : File.St)
    (row : gmap string value) :
  File.initialised (File.this s) = false ->
  File.badHash (File.hash (File.this s)) = false ->
  File.checkPostFilenameAndExtension s = (Returned tt, s1) ->
  File.extension (File.this s1) = "html" ->
  let name := File.filename (File.this s1) in
  name <> EmptyString ->
  lookupByName name "html" (db (File.world s)) = Some row ->
  Mapper.found row = true ->
  get "users_id" row = File.u_id (File.user (File.this s)) ->
  map_Forall (fun k _ => cleanName k = true) row ->
  let path := snd (Paths.fullFilePath app name "html") in
  let contents := File.p_content (File.post (File.this s)) in
  path ∉ unwritable (File.world s) ->
  exists s' row2,
    File.upload host app s
    = (Returned {| File.success := true; File.url := baseWebUrl app +:+ "/" +:+ name |}, s')
    /\ disk (File.world s') !! path = Some contents
    /\ db (File.world s')
       = (fun r => if sql_eq (get "id" r) (get "id" row) then delete "id" row2 ∪ r else r)
           <$> db (File.world s)
    /\ length (db (File.world s')) = length (db (File.world s))
    /\ In row2 (db (File.world s'))
    /\ (forall k, k ∉ ["bytes"; "encrypted"; "expires"; "hash"; "updated"] ->
          row2 !! k = row !! k)
    /\ get "bytes" row2 = VInt (Z.of_nat (String.length contents))
    /\ get "hash" row2 = File.hashValue (File.this s)
    /\ get "updated" row2 = now host (clock (File.world s)).
Proof.
  intros Hinit Hhash Hcheck Hext name Hne Hrow Hfound Howner Hclean path contents Hok.
  destruct (checkPost_frame _ _ _ Hcheck) as (Hw & Hp & _ & Hh & _).
  assert (Hin : In row (db (File.world s))) by (apply (find_some _ _ Hrow)).
  unfold File.upload. unfold_monad.
  rewrite (initFile_document_own host app true s s1 row Hinit Hhash Hcheck Hext Hne Hrow
             Hfound Howner).
  set (s2 := File.on_this _ s1).
  assert (Hs2 : File.world s2 = File.world s
                /\ File.file (File.this s2) = Some row
                /\ File.post (File.this s2) = File.post (File.this s)
                /\ File.hashValue (File.this s2) = File.hashValue (File.this s)
                /\ File.getFullFilePath app None None (File.this s2)
                   = Paths.fullFilePath app name "html"
                /\ File.getDisplayUrl app None None (File.this s2)
                   = baseWebUrl app +:+ "/" +:+ name).
  { subst s2 name. destruct s1 as [[post1 user1 name1 ext1 hash1 init1 file1 css1] w1].
    unfold File.hashValue. cbn in *. subst.
    unfold File.getFullFilePath, File.getDisplayUrl, File.hydrate, File.or_else.
    cbn. repeat split; reflexivity. }
  destruct Hs2 as (Hw2 & Hf2 & Hp2 & Hh2 & Hpath2 & Hurl2).
  rewrite Hp2. fold contents.
  rewrite (saveFile_found host app contents s2 row Hf2 Hfound Hclean).
  2: now rewrite Hw2.
  2: now rewrite Hpath2, Hw2.
  set (row2 := restampedRow host (File.this s2) contents (now host (clock (File.world s2))) row).
  destruct (restampedRow_fields host (File.this s2) contents
              (now host (clock (File.world s2))) row)
    as (Hkeep & Hhashf & Hbytes & _ & Hupd & _).
  fold row2 in Hkeep, Hhashf, Hbytes, Hupd.
  assert (Hid : row2 !! "id" = row !! "id").
  { apply Hkeep. intros Hk%list_elem_of_In. cbn in Hk. intuition discriminate. }
  assert (Hdb : db (persistedOver host app (File.this s2) contents row (File.world s2))
                = updatedBy row2 (db (File.world s))).
  { unfold persistedOver. fold row2. rewrite Hpath2. unfold purgeCache.
    rewrite <- Hw2. cbn [fst snd Paths.fullFilePath]. now destruct (Fs.ensureDir _ _). }
  assert (Hdisk : disk (persistedOver host app (File.this s2) contents row (File.world s2))
                  !! path = Some contents).
  { unfold persistedOver. rewrite Hpath2. unfold path, Paths.fullFilePath. cbn [snd].
    unfold purgeCache, Fs.ensureDir.
    destruct (File.world s2) as [t0 d0 fo0 un0 pu0 cl0 en0 dr0]. cbn [folders].
    destruct (bool_decide (_ ∈ fo0)); cbn; apply lookup_insert_eq. }
  exists {| File.this := File.with_file (Some row2) (File.this s2);
            File.world := persistedOver host app (File.this s2) contents row (File.world s2) |},
    row2.
  cbn [File.this File.world].
  split.
  { unfold File.returnSuccessUrl, File.or_else. do 2 f_equal.
    rewrite <- Hurl2. now destruct (File.this s2). }
  split; [exact Hdisk |].
  assert (Hidg : get "id" row2 = get "id" row) by (unfold get; now rewrite Hid).
  split; [rewrite Hdb; unfold updatedBy; now rewrite Hidg |].
  split; [rewrite Hdb; unfold updatedBy; apply length_fmap |].
  split.
  { rewrite Hdb. unfold updatedBy. apply in_map_iff. exists row. split; [| exact Hin].
    cbv beta. rewrite Hidg, sql_eq_refl.
    - apply restamped_in_place; [exact Hid |].
      intros k Hk. apply elem_of_dom in Hk as [v Hv]. apply elem_of_dom.
      unfold row2, restampedRow, Mapper.set. cbn [foldl].
      repeat (rewrite lookup_insert; case_decide; [eauto |]). eauto.
    - intros E. unfold Mapper.found in Hfound. rewrite E in Hfound.
      discriminate Hfound. }
  split; [exact Hkeep |].
  unfold get. rewrite Hbytes, Hhashf, Hupd, Hh2, Hw2. repeat split; reflexivity.
Qed.

Lemma upload_document_again_witness :
  let row := Sample.mkRow 1 1 "abc123" "html" Sample.h40 VNull in
  let s := {| File.this := File.new (Sample.mkPost "html" (File.Str "abc123") (Some Sample.h40))
                             (Sample.mkUser 1 "u1");
              File.world := Sample.world [row; Sample.mkRow 2 1 "abc124" "html" Sample.h40 VNull] |} in
  exists s',
    File.upload Sample.host Sample.app s
    = (Returned {| File.success := true; File.url := "https://example.org/abc123" |}, s')
    /\ length (db (File.world s')) = 2%nat.
Proof.
  intros row s.
  destruct (upload_document_again Sample.host Sample.app s
              (File.on_this (fun f => File.with_filename "abc123" (File.with_extension "html" f)) s)
              row)
    as (s' & row2 & E & _ & _ & Hlen & _).
  - reflexivity.
  - reflexivity.
  - reflexivity.
  - reflexivity.
  - discriminate.
  - reflexivity.
  - reflexivity.
  - reflexivity.
  - apply map_Forall_to_list. vm_compute. repeat constructor.
  - vm_compute. set_solver.
  - exists s'. split; [exact E | exact Hlen].
Defined.

(** ** The checks write nothing *)

(** X22. [checkFile] and [checkCss] write nothing. For every controller and
    every item whose filetype - the item's, or else the posted one - is a
    string or absent, the world after [checkFile] is the world before, it
    returns, and it reports success exactly when it gives a URL; the world
    after [checkCss] is the world before, and it always returns. *)
Theorem checks_never_write (host : Host) (app : App) (item : option (string * string))
    (s : File.St) :
  File.checkedFiletype item (File.post (File.this s)) <> File.NotString ->
  File.world (snd (File.checkFile host app item s)) = File.world s
  /\ (exists r, fst (File.checkFile host app item s) = Returned r
                /\ (fst r = true <-> snd r <> None))
  /\ File.world (snd (File.checkCss host app s)) = File.world s
  /\ exists r, fst (File.checkCss host app s) = Returned r.
Proof.
  intros Htype. split; [| split; [| split]].
  - unfold File.checkFile. unfold_monad.
    destruct (File.checkedFiletype item _) as [|type|];
      [reflexivity | | now destruct (match File.checkedHash item _ with
                                     | Some _ => _ | None => _ end)].
    destruct (String.eqb type "css").
    + rewrite getCssFilename_run. cbn [fst snd].
      destruct (match File.checkedHash item _ with Some _ => _ | None => _ end);
        [| now destruct s].
      destruct (File.existingCss _ _ _); now destruct s.
    + destruct (negb _ && _); [| reflexivity].
      destruct (Mapper.found _); reflexivity.
  - unfold File.checkFile. unfold_monad.
    destruct (File.checkedFiletype item _) as [|type|];
      [eexists; split; [reflexivity |]; cbn; split; [discriminate | congruence]
      | | contradiction].
    destruct (String.eqb type "css").
    + rewrite getCssFilename_run. cbn [fst snd].
      destruct (match File.checkedHash item _ with Some _ => _ | None => _ end).
      * destruct (File.existingCss _ _ _); eexists; (split; [reflexivity |]); cbn;
          split; try discriminate; try congruence; reflexivity.
      * eexists; split; [reflexivity |]; cbn; split; [discriminate | congruence].
    + destruct (negb _ && _).
      * destruct (Mapper.found _); eexists; (split; [reflexivity |]); cbn;
          split; try discriminate; try congruence; reflexivity.
      * eexists; split; [reflexivity |]; cbn; split; [discriminate | congruence].
  - unfold File.checkCss. unfold_monad. rewrite getCssFilename_run. now destruct s.
  - unfold File.checkCss. unfold_monad. rewrite getCssFilename_run. eexists. reflexivity.
Qed.

Lemma checks_never_write_witness :
  let s := {| File.this := File.new (Sample.mkPost "png" File.Absent (Some Sample.h40))
                             (Sample.mkUser 2 "u2");
              File.world := Sample.world [Sample.mkRow 1 1 "aaaaaaaaaaaaaaaaaaaa" "png"
                                            Sample.h40 VNull] |} in
  File.world (snd (File.checkFile Sample.host Sample.app None s)) = File.world s
  /\ exists r, fst (File.checkFile Sample.host Sample.app None s) = Returned r
               /\ (fst r = true <-> snd r <> None).
Proof.
  intros s.
  destruct (checks_never_write Sample.host Sample.app None s) as (Hw & Hr & _).
  - discriminate.
  - split; [exact Hw | exact Hr].
Defined.

(** ** The statuses of an upload *)

Lemma checkPost_errors (s s1 : File.St) (e : Exn) :
  File.checkPostFilenameAndExtension s = (Thrown e, s1) ->
  e = HTTPException 415 \/ e = HTTPException 400.
Proof.
  unfold File.checkPostFilenameAndExtension. unfold_monad.
  destruct (negb _); [intros [= <- <-]; now left |].
  destruct (File.p_filename _) as [|name|]; [discriminate | | intros [= <- <-]; now right].
  destruct (String.eqb name EmptyString); [discriminate |].
  destruct (_ || _); [intros [= <- <-]; now right | discriminate].
Qed.

Lemma initFile_errors (host : Host) (app : App) (s s' : File.St) (e : Exn) :
  File.initFile host app true s = (Thrown e, s') ->
  In e [HTTPException 463; HTTPException 415; HTTPException 400; HTTPException 403].
Proof.
  unfold File.initFile. unfold_monad.
  destruct (File.initialised (File.this s)); [discriminate |].
  destruct (File.badHash _); [intros [= <- <-]; cbn; tauto |].
  destruct (File.checkPostFilenameAndExtension s) as [[[]|e1] s1] eqn:Hc.
  2:{ intros [= <- <-]. destruct (checkPost_errors _ _ _ Hc) as [-> | ->]; cbn; tauto. }
  clear Hc s.
  destruct s1 as [[post1 user1 name1 ext1 hash1 init1 file1 css1] w1].
  unfold File.getHashFilename, File.getRandomValues, File.fileLoad. unfold_monad. fields.
  destruct (String.eqb ext1 "html").
  - destruct (String.eqb name1 EmptyString); cbv beta iota delta [negb andb]; fields;
      repeat match goal with
             | |- context [if File.ownedByOther ?f then _ else _] =>
                 destruct (File.ownedByOther f)
             | |- context [if Mapper.notFound ?r then _ else _] =>
                 destruct (Mapper.notFound r)
             end; fields;
      try discriminate; intros [= <- <-]; cbn; tauto.
  - destruct (String.eqb ext1 "css").
    + rewrite getCssFilename_run. fields.
      destruct (truthy _); [destruct (File.existingCss _ _ _) |]; discriminate.
    + destruct (Mapper.found _); [discriminate |]. cbv beta iota delta [negb]. discriminate.
Qed.

(** X23. What an upload can answer. An exception is either one that
    [initFile] threw - with status 463, 415, 400 or 403, never 404 - or the
    status of FILE_FAILED_TO_UPLOAD, which replaces whatever [saveFile]
    threw; a result is [success: true] with the display URL of the
    controller as [saveFile] left it. *)
Theorem upload_outcomes (host : Host) (app : App) (s s' : File.St) (r : result File.SuccessUrl) :
  File.upload host app s = (r, s') ->
  match r with
  | Thrown e =>
      (In e [HTTPException 463; HTTPException 415; HTTPException 400; HTTPException 403]
       /\ File.initFile host app true s = (Thrown e, s'))
      \/ (e = HTTPException (serverError host FILE_FAILED_TO_UPLOAD)
          /\ exists x s0 e0,
               File.initFile host app true s = (Returned x, s0)
               /\ File.saveFile host app (File.p_content (File.post (File.this s0))) s0
                  = (Thrown e0, s'))
  | Returned u =>
      File.success u = true
      /\ File.url u = File.getDisplayUrl app None None (File.this s')
      /\ exists x s0 row,
           File.initFile host app true s = (Returned x, s0)
           /\ File.saveFile host app (File.p_content (File.post (File.this s0))) s0
              = (Returned row, s')
  end.
Proof.
  unfold File.upload. unfold_monad.
  destruct (File.initFile host app true s) as [[x|e] s0] eqn:Einit.
  - destruct (File.saveFile host app (File.p_content (File.post (File.this s0))) s0)
      as [[row|e0] s2] eqn:Esave.
    + intros [= <- <-]. cbn [File.success File.url File.returnSuccessUrl File.or_else].
      split; [reflexivity |]. split; [reflexivity |].
      exists x, s0, row. split; [reflexivity | exact Esave].
    + intros [= <- <-]. right. split; [reflexivity |].
      exists x, s0, e0. split; [reflexivity | exact Esave].
  - intros [= <- <-]. left. split; [exact (initFile_errors _ _ _ _ _ Einit) | reflexivity].
Qed.

Lemma upload_outcomes_witness :
  let s := {| File.this := File.new (Sample.mkPost "png" File.Absent (Some Sample.h40))
                             (Sample.mkUser 2 "u2");
              File.world :=
                {| db := []; disk := ∅; folders := ∅;
                   unwritable := {["/notesx/userfiles/files/zz/zzzzzzzzzzzzzzzzzzzz.png"]};
                   purged := []; clock := 200000; entropy := fun _ => Byte.xff;
                   drawn := 0 |} |} in
  exists s', File.upload Sample.host Sample.app s = (Thrown (HTTPException 562), s')
             /\ db (File.world s') = [].
Proof.
  intros s.
  pose (s' := snd (File.upload Sample.host Sample.app s)).
  assert (E : File.upload Sample.host Sample.app s = (Thrown (HTTPException 562), s'))
    by reflexivity.
  pose proof (upload_outcomes Sample.host Sample.app s s' _ E) as H.
  exists s'. split; [exact E |].
  destruct H as [[_ H] | _]; [discriminate H | reflexivity].
Defined.

